(** * Forecast simulation engine of the air-quality dashboard (app.py)

    A shallow embedding of the callbacks of [src/app.py] that compute
    forecasts and statistics, and the properties the specification states
    about them.

    Numbers.  Python floats are idealised as exact numbers.  Where the code
    only adds, subtracts, multiplies, divides and compares (the PM10 track,
    the statistics displays) they are rationals [Q], so that the model runs.
    The 7-day loop multiplies by a sine, so its numbers are reals [R].
    Binary64 differs from them by rounding errors; where the code rounds to
    hundredths or prints two decimals, such an error can change the
    hundredth chosen at a tie, and the statements say only what holds of
    both choices, or speak of inputs whose statistics are exact.

    The rendering layer (HTML tables, Plotly figures, axis labels) is left
    out: a callback's model returns the numeric series the figures are drawn
    from, and reports the exceptions the omitted code can raise.  What the
    rendering computes from the series is modelled on its own: the key
    annotations of the PM10 figure, the summary statistics, the level
    indicators and the y axis of the 7-day panel. *)

From Stdlib Require Import ZArith QArith Qabs Qround Reals Lqa Lra Lia.
From Stdlib Require Import String Ascii DecimalString.
From stdpp Require Import gmap strings list.

Set Default Proof Using "Type".

(** ** Exceptions and results *)

(** The Python exception classes the modelled code can raise. *)
Inductive exn : Type :=
  | TypeError
  | ValueError
  | KeyError
  | OverflowError
  | ModelError (msg : string).

(** A computation either raises or returns. *)
Inductive outcome (A : Type) : Type :=
  | Raised (e : exn)
  | Returned (a : A).
Arguments Raised {A} e.
Arguments Returned {A} a.

#[global] Instance outcome_ret : MRet outcome := fun A a => Returned a.
#[global] Instance outcome_bind : MBind outcome := fun A B k c =>
  match c with
  | Raised e => Raised e
  | Returned a => k a
  end.

(** [try: body except Exception as e: handler]. *)
Definition try_except {A} (body : outcome A) (handler : exn -> A) : A :=
  match body with
  | Raised e => handler e
  | Returned a => a
  end.

(** [range(n)] as the list of its integers. *)
Definition range (n : nat) : list Z := map Z.of_nat (seq 0 n).

(** ** The calendar of [datetime]

    The proleptic Gregorian calendar as CPython's [datetime] computes it:
    a date is year, month, day; arithmetic goes through the ordinal (day 1
    is 0001-01-01). *)
Module Calendar.
Open Scope Z_scope.

Record date : Type := mkdate { year : Z; month : Z; day : Z }.

Definition MAXORDINAL : Z := 3652059.

Definition is_leap (y : Z) : bool :=
  (y mod 4 =? 0) && (negb (y mod 100 =? 0) || (y mod 400 =? 0)).

Definition days_before_year (y : Z) : Z :=
  let y := y - 1 in y * 365 + y / 4 - y / 100 + y / 400.

Definition DAYS_IN_MONTH : list Z :=
  [-1; 31; 28; 31; 30; 31; 30; 31; 31; 30; 31; 30; 31].

Definition DAYS_BEFORE_MONTH : list Z :=
  [-1; 0; 31; 59; 90; 120; 151; 181; 212; 243; 273; 304; 334].

Definition days_in_month (y m : Z) : Z :=
  if (m =? 2) && is_leap y then 29 else nth (Z.to_nat m) DAYS_IN_MONTH 0.

Definition days_before_month (y m : Z) : Z :=
  nth (Z.to_nat m) DAYS_BEFORE_MONTH 0
  + (if (2 <? m) && is_leap y then 1 else 0).

Definition ymd2ord (y m d : Z) : Z :=
  days_before_year y + days_before_month y m + d.

Definition DI400Y : Z := 146097.
Definition DI100Y : Z := 36524.
Definition DI4Y : Z := 1461.

Definition ord2ymd (n : Z) : date :=
  let n := n - 1 in
  let n400 := n / DI400Y in let n := n mod DI400Y in
  let y := n400 * 400 + 1 in
  let n100 := n / DI100Y in let n := n mod DI100Y in
  let n4 := n / DI4Y in let n := n mod DI4Y in
  let n1 := n / 365 in let n := n mod 365 in
  let y := y + n100 * 100 + n4 * 4 + n1 in
  if (n1 =? 4) || (n100 =? 4) then mkdate (y - 1) 12 31
  else
    let leapyear := (n1 =? 3) && (negb (n4 =? 24) || (n100 =? 3)) in
    let m := Z.shiftr (n + 50) 5 in
    let preceding :=
      nth (Z.to_nat m) DAYS_BEFORE_MONTH 0
      + (if (2 <? m) && leapyear then 1 else 0) in
    if n <? preceding then
      let m := m - 1 in
      let preceding :=
        preceding
        - (nth (Z.to_nat m) DAYS_IN_MONTH 0
           + (if (m =? 2) && leapyear then 1 else 0)) in
      mkdate y m (n - preceding + 1)
    else mkdate y m (n - preceding + 1).

Definition toordinal (d : date) : Z := ymd2ord (year d) (month d) (day d).

(** [d.weekday()]: Monday is 0, Sunday is 6. *)
Definition weekday (d : date) : Z := (toordinal d + 6) mod 7.

(** [d + timedelta(days=k)]: out of the calendar's range it raises. *)
Definition add_days (d : date) (k : Z) : outcome date :=
  let n := toordinal d + k in
  if (0 <? n) && (n <=? MAXORDINAL) then Returned (ord2ymd n)
  else Raised OverflowError.

(** The dates [strptime(_, '%Y-%m-%d')] can return. *)
Definition valid (d : date) : bool :=
  (1 <=? year d) && (year d <=? 9999) &&
  (1 <=? month d) && (month d <=? 12) &&
  (1 <=? day d) && (day d <=? days_in_month (year d) (month d)).

End Calendar.

(** ** Python values, dictionaries and data frames *)

(** The values the callbacks put in a feature dictionary: a widget's value
    (a number, or [None] when the field is empty or out of its range), an
    integer calendar field, the pandas timestamp of the PM10 track.  [N] is
    the type of the numbers. *)
Inductive pyval (N : Type) : Type :=
  | PyNone
  | PyInt (n : Z)
  | PyFloat (x : N)
  | PyTimestamp (d : Calendar.date) (hour : Z).
Arguments PyNone {N}.
Arguments PyInt {N} n.
Arguments PyFloat {N} x.
Arguments PyTimestamp {N} d hour.

(** A widget value as a Python value. *)
Definition of_input {N} (v : option N) : pyval N :=
  match v with
  | Some x => PyFloat x
  | None => PyNone
  end.

(** A [dict] whose order matters (it becomes the columns of a frame): the
    items in insertion order, one per key. *)
Definition odict (V : Type) : Type := list (string * V).

(** [d[k] = v]: a key already there keeps its place and takes the value. *)
Fixpoint dict_set {V} (k : string) (v : V) (d : odict V) : odict V :=
  match d with
  | [] => [(k, v)]
  | (k', v') :: d' =>
      if decide (k' = k) then (k, v) :: d' else (k', v') :: dict_set k v d'
  end.

(** [{name: f(name) for name in names}]. *)
Definition dict_comprehension {V} (names : list string) (f : string -> V)
  : odict V :=
  fold_left (fun d name => dict_set name (f name) d) names [].

Fixpoint dict_lookup {V} (k : string) (d : odict V) : option V :=
  match d with
  | [] => None
  | (k', v) :: d' => if decide (k' = k) then Some v else dict_lookup k d'
  end.

(** A [pd.DataFrame] of one row: its columns in order, each with its cell. *)
Definition frame (N : Type) : Type := odict (pyval N).

Definition columns {N} (f : frame N) : list string := map fst f.

(** [pd.DataFrame({name: [feature_values.get(name, 0)]
                   for name in expected_features})]:
    the feature vector of a known schema (app.py, lines 947 and 1253). *)
Definition frame_of_schema {N} (expected_features : list string)
    (feature_values : gmap string (pyval N)) : frame N :=
  dict_comprehension expected_features
    (fun name => default (PyInt 0) (feature_values !! name)).

(** ** The names a model expects *)

(** [expected_features] and [pm10_expected_features] (app.py, lines 19-21
    and 28-30): the list [[]] when the model records no names, and
    otherwise what [model.feature_names_in_] holds: a list of names, or the
    array of at least one name that scikit-learn stores there (an
    [ndarray] of [dtype=object]). *)
Inductive schema : Type :=
  | PyList (names : list string)
  | NdArray (name : string) (names : list string).

(** [for name in expected_features]: the names in order. *)
Definition names_of (s : schema) : list string :=
  match s with
  | PyList names => names
  | NdArray name names => name :: names
  end.

(** [bool(expected_features)], which [if expected_features:] evaluates.  A
    list is true when it is not empty.  An array of one element has the
    truth of that element, a string, true when not empty; an array of more
    elements raises ValueError (its truth value is ambiguous). *)
Definition truth (s : schema) : outcome bool :=
  match s with
  | PyList names => Returned (bool_decide (names <> []))
  | NdArray name [] => Returned (bool_decide (name <> ""%string))
  | NdArray _ (_ :: _) => Raised ValueError
  end.

(** ** Two-decimal text: [f"{x:.2f}"] *)
Module Format.
Open Scope Z_scope.

(** The nearest integer, a tie going to the even one. *)
Definition round_half_even (x : Q) : Z :=
  let f := Qfloor x in
  match Qcompare (x - inject_Z f) (1 # 2) with
  | Lt => f
  | Gt => f + 1
  | Eq => if Z.even f then f else f + 1
  end.

Definition digits (n : Z) : string :=
  NilZero.string_of_uint (N.to_uint (Z.to_N n)).

Definition two_digits (n : Z) : string :=
  if n <? 10 then String "0" (digits n) else digits n.

(** The text of [h] hundredths, [h >= 0]. *)
Definition hundredths (h : Z) : string :=
  String.append (digits (h / 100)) (String "." (two_digits (h mod 100))).

Definition format_2f (x : Q) : string :=
  let h := round_half_even (Qabs x * 100) in
  if Qlt_le_dec x 0 then String "-" (hundredths h) else hundredths h.

End Format.

(** ** numpy over the rationals *)

(** [np.mean] of a list of numbers. *)
Definition np_mean (xs : list Q) : Q :=
  (fold_left Qplus xs 0 / inject_Z (Z.of_nat (length xs)))%Q.

(** [np.average(xs, weights=ws)]: the weighted sum over the sum of the
    weights. *)
Definition np_average (xs ws : list Q) : Q :=
  (fold_left Qplus (zip_with Qmult xs ws) 0 / fold_left Qplus ws 0)%Q.

(** ** The 7-day PM2.5 track: [update_moving_average], [update_7day_prediction] *)
Module SevenDay.
Import Calendar.

(** [update_moving_average] (app.py, lines 878-882): the text shown for the
    3-day moving average.  With the three inputs present it is the text of
    the exact mean; the code formats the binary64 mean, which at a mean
    within rounding error of a tie between two hundredths can show the
    other one. *)
Definition update_moving_average (pm25_1d pm25_2d pm25_3d : option Q) : string :=
  match pm25_1d, pm25_2d, pm25_3d with
  | Some a, Some b, Some c =>
      let avg := np_mean [a; b; c] in
      Format.format_2f avg
  | _, _, _ => "0.00"%string
  end.

Open Scope R_scope.

(** [np.mean] of a list of numbers, over the reals. *)
Definition np_mean (xs : list R) : R :=
  fold_left Rplus xs 0 / IZR (Z.of_nat (length xs)).

(** [round(x, 2)] of a numpy float64, [rint(x * 100) / 100], over exact
    numbers: the nearest multiple of 0.01, a tie going to the even one.  In
    binary64 the product [x * 100] is rounded before [rint] sees it, so on
    a value within rounding error of a tie the code can give the other of
    the two nearest hundredths.  What is proved below of an emitted value
    (a whole number of hundredths, at most half a hundredth from the
    product) holds of either. *)
Definition rint (x : R) : Z :=
  let f := Int_part x in
  let r := x - IZR f in
  if Rlt_dec r (1 / 2) then f
  else if Rlt_dec (1 / 2) r then (f + 1)%Z
  else if Z.even f then f else (f + 1)%Z.

Definition round2 (x : R) : R := IZR (rint (x * 100)) / 100.

(** The values the loop carries from one day to the next. *)
Record carried : Type := mkcarried {
  pm25_current : R;
  pm25_lag1d : R;
  pm25_ma3d : R
}.

(** Lines 903 and 910-912. *)
Definition initial_state (pm25_1d_ago pm25_2d_ago pm25_3d_ago : R) : carried :=
  let pm25_ma3d := np_mean [pm25_1d_ago; pm25_2d_ago; pm25_3d_ago] in
  {| pm25_current := pm25_1d_ago;
     pm25_lag1d := pm25_2d_ago;
     pm25_ma3d := pm25_ma3d |}.

(** Lines 929-942. *)
Definition feature_values (humidity temperature : option R)
    (hour day month day_of_week : Z) (st : carried)
  : gmap string (pyval R) :=
  list_to_map
    [("humidity"%string, of_input humidity);
     ("temperature"%string, of_input temperature);
     ("hour"%string, PyInt hour);
     ("day"%string, PyInt day);
     ("month"%string, PyInt month);
     ("day_of_week"%string, PyInt day_of_week);
     ("pm_2_5"%string, PyFloat (pm25_current st));
     ("pm_2_5_lag1h"%string, PyFloat (pm25_lag1d st));
     ("pm25_lag1h"%string, PyFloat (pm25_lag1d st));
     ("pm_2_5_lag_1_h"%string, PyFloat (pm25_lag1d st));
     ("pm_2_5_ma3h"%string, PyFloat (pm25_ma3d st));
     ("pm25_ma3h"%string, PyFloat (pm25_ma3d st))].

(** Lines 967-971. *)
Definition weekday_factor (day_of_week : Z) : R :=
  if (day_of_week =? 5)%Z then 0.9
  else if (day_of_week =? 6)%Z then 0.85
  else 1.0.

(** Lines 974-975. *)
Definition weather_phase (day_offset : Z) : R := IZR (day_offset mod 3) / 3.0.
Definition weather_factor (day_offset : Z) : R :=
  1.0 + 0.08 * sin (2 * PI * weather_phase day_offset).

(** Line 978, [u] being the draw of [np.random.random()]. *)
Definition random_factor (u : R) : R := 1.0 + 0.03 * (u - 0.5).

Section Run.

(** The loaded predictor: [model.predict(features)[0]], which may raise,
    and [expected_features], the names the model expects ([PyList []] when
    it records none). *)
Context (model_predict : frame R -> outcome R).
Context (expected_features : schema).
(** The random source: a generator state and [np.random.random()], which
    returns a draw and the next state. *)
Context {G : Type} (np_random : G -> R * G).

(** Lines 921-925 and 945-960: [if expected_features:] raises when the
    truth test does. *)
Definition features (humidity temperature : option R)
    (prediction_date : date) (st : carried) : outcome (frame R) :=
  let hour := 12%Z in
  let day := Calendar.day prediction_date in
  let month := Calendar.month prediction_date in
  let day_of_week := weekday prediction_date in
  known ← truth expected_features;
  Returned (if known : bool then
    frame_of_schema (names_of expected_features)
      (feature_values humidity temperature hour day month day_of_week st)
  else
    [("humidity"%string, of_input humidity);
     ("pm_2_5"%string, PyFloat (pm25_current st));
     ("temperature"%string, of_input temperature);
     ("hour"%string, PyInt hour);
     ("day"%string, PyInt day);
     ("month"%string, PyInt month);
     ("day_of_week"%string, PyInt day_of_week);
     ("pm_2_5_lag1h"%string, PyFloat (pm25_lag1d st));
     ("pm_2_5_ma3h"%string, PyFloat (pm25_ma3d st))]).

(** One turn of the loop (lines 916-991): the date and the prediction it
    appends, the values carried on, the generator after the draw. *)
Definition forecast_day (humidity temperature : option R)
    (start_date_obj : date) (day_offset : Z) (st : carried) (g : G)
  : outcome (date * R * carried * G) :=
  prediction_date ← add_days start_date_obj day_offset;
  features ← features humidity temperature prediction_date st;
  base_prediction ← model_predict features;
  let weekday_factor := weekday_factor (weekday prediction_date) in
  let weather_factor := weather_factor day_offset in
  let (u, g) := np_random g in
  let random_factor := random_factor u in
  let adjusted_prediction :=
    base_prediction * weekday_factor * weather_factor * random_factor in
  let adjusted_prediction := round2 adjusted_prediction in
  let pm25_lag1d := pm25_current st in
  let pm25_current := adjusted_prediction in
  let pm25_ma3d := np_mean [pm25_ma3d st; pm25_lag1d; pm25_current] in
  Returned (prediction_date, adjusted_prediction,
            mkcarried pm25_current pm25_lag1d pm25_ma3d, g).

(** [for day_offset in offsets: ...], appending to [dates] and
    [predictions]. *)
Fixpoint forecast_loop (humidity temperature : option R)
    (start_date_obj : date) (offsets : list Z)
    (dates : list date) (predictions : list R) (st : carried) (g : G)
  : outcome (list date * list R * carried * G) :=
  match offsets with
  | [] => Returned (dates, predictions, st, g)
  | day_offset :: offsets =>
      '(d, p, st, g) ← forecast_day humidity temperature start_date_obj day_offset st g;
      forecast_loop humidity temperature start_date_obj offsets
        (dates ++ [d]) (predictions ++ [p]) st g
  end.

(** What the callback hands to the rendering layer. *)
Inductive view : Type :=
  | Forecast (dates : list date) (predictions : list R)
  | Blank.

(** [update_7day_prediction] (lines 896-1161).  [start_date] is the picker's
    date as [strptime] reads it, [None] when the picker is empty. *)
Definition update_7day_prediction (n_clicks : Z)
    (humidity temperature : option R) (start_date : option date)
    (pm25_1d_ago pm25_2d_ago pm25_3d_ago : option R) (g : G)
  : outcome (view * G) :=
  if (0 <? n_clicks)%Z then
    start_date_obj ← match start_date with
                     | Some d => Returned d
                     | None => Raised TypeError
                     end;
    match pm25_1d_ago, pm25_2d_ago, pm25_3d_ago with
    | Some l1, Some l2, Some l3 =>
        '(dates, predictions, _, g) ←
          forecast_loop humidity temperature start_date_obj (range 7)
            [] [] (initial_state l1 l2 l3) g;
        Returned (Forecast dates predictions, g)
    | _, _, _ => Raised TypeError
    end
  else Returned (Blank, g).

End Run.
End SevenDay.

(** ** The PM10 track: [update_pm10_averages], [update_pm10_prediction] *)
Module PM10.
Import Calendar.
Open Scope Q_scope.

Definition weights : list Q := [0.4; 0.25; 0.2; 0.1; 0.05].

(** The three statistics of the lag values, as both callbacks compute them
    (lines 1178-1186 and 1220-1225): [roll_mean_6], [roll_mean_24],
    [ewm_12]. *)
Definition rolling_statistics (current lag1 lag3 lag6 lag24 : Q) : Q * Q * Q :=
  let roll_mean_6 := np_mean [current; lag1; lag3; lag6] in
  let roll_mean_24 := np_mean [current; lag1; lag3; lag6; lag24] in
  let ewm_12 := np_average [current; lag1; lag3; lag6; lag24] weights in
  (roll_mean_6, roll_mean_24, ewm_12).

(** [update_pm10_averages] (lines 1174-1190): the three texts shown.  With
    the five inputs present they are the texts of the exact statistics; the
    code formats their binary64 values, which at a statistic within
    rounding error of a tie between two hundredths can show the other
    one. *)
Definition update_pm10_averages (current lag1 lag3 lag6 lag24 : option Q)
  : string * string * string :=
  match current, lag1, lag3, lag6, lag24 with
  | Some current, Some lag1, Some lag3, Some lag6, Some lag24 =>
      let '(roll_mean_6, roll_mean_24, ewm_12) :=
        rolling_statistics current lag1 lag3 lag6 lag24 in
      (Format.format_2f roll_mean_6, Format.format_2f roll_mean_24,
       Format.format_2f ewm_12)
  | _, _, _, _, _ => ("0.00", "0.00", "0.00")%string
  end.

(** The modifier of the diurnal pattern (lines 1341-1364). *)
Definition diurnal_modifier (current_hour : Z) (base_value : Q) : Q :=
  if ((6 <=? current_hour) && (current_hour <=? 9))%Z then
    let peak_factor := 0.15 * (1 - Qabs (inject_Z current_hour - 7.5) / 1.5) in
    base_value * peak_factor
  else if ((13 <=? current_hour) && (current_hour <=? 16))%Z then
    let dip_factor := 0.10 * (1 - Qabs (inject_Z current_hour - 14.5) / 1.5) in
    - base_value * dip_factor
  else if ((18 <=? current_hour) && (current_hour <=? 21))%Z then
    let peak_factor := 0.12 * (1 - Qabs (inject_Z current_hour - 19.5) / 1.5) in
    base_value * peak_factor
  else if ((0 <=? current_hour) && (current_hour <=? 5))%Z then
    let dip_factor := 0.20 * (1 - Qabs (inject_Z current_hour - 3) / 3) in
    - base_value * dip_factor
  else 0.

(** Lines 1338-1339. *)
Definition base_value (current_pm10 prediction : Q) (h : Z) : Q :=
  let base_alpha := inject_Z h / 24.0 in
  current_pm10 + (prediction - current_pm10) * base_alpha.

(** The value the loop of lines 1334-1368 appends at offset [h]. *)
Definition diurnal_value (current_pm10 prediction : Q) (start_hour h : Z) : Q :=
  let current_hour := ((start_hour + h) mod 24)%Z in
  let base_value := base_value current_pm10 prediction h in
  let modifier := diurnal_modifier current_hour base_value in
  let adjusted_value := base_value + modifier in
  adjusted_value.

Definition diurnal_pattern (current_pm10 prediction : Q) (start_hour : Z)
  : list Q :=
  map (diurnal_value current_pm10 prediction start_hour) (range 25).

(** Lines 1232-1248. *)
Definition feature_values (humidity temperature : option Q)
    (date_obj : date) (hour : Z)
    (current_pm10 pm10_lag_1 pm10_lag_3 pm10_lag_6 pm10_lag_24 : Q)
  : gmap string (pyval Q) :=
  let '(pm10_roll_mean_6, pm10_roll_mean_24, pm10_ewm_12) :=
    rolling_statistics current_pm10 pm10_lag_1 pm10_lag_3 pm10_lag_6
      pm10_lag_24 in
  list_to_map
    [("timestamp"%string, PyTimestamp date_obj hour);
     ("humidity"%string, of_input humidity);
     ("pm_10"%string, PyFloat current_pm10);
     ("temperature"%string, of_input temperature);
     ("hour"%string, PyInt hour);
     ("day"%string, PyInt (day date_obj));
     ("month"%string, PyInt (month date_obj));
     ("day_of_week"%string, PyInt (weekday date_obj));
     ("pm10_lag_1"%string, PyFloat pm10_lag_1);
     ("pm10_lag_3"%string, PyFloat pm10_lag_3);
     ("pm10_lag_6"%string, PyFloat pm10_lag_6);
     ("pm10_lag_24"%string, PyFloat pm10_lag_24);
     ("pm10_roll_mean_6"%string, PyFloat pm10_roll_mean_6);
     ("pm10_roll_mean_24"%string, PyFloat pm10_roll_mean_24);
     ("pm10_ewm_12"%string, PyFloat pm10_ewm_12)].

(** What the callback hands to the rendering layer. *)
Inductive view : Type :=
  | Forecast (prediction : Q) (pm10_values : list Q)
  | PredictionError (e : exn)
  | ModelNotLoaded
  | Blank.

Section Run.

(** The loaded predictor, if any: [pm10_model_loaded],
    [pm10_model.predict(features)[0]] and [pm10_expected_features]. *)
Context (pm10_model_loaded : bool).
Context (pm10_model_predict : frame Q -> outcome Q).
Context (pm10_expected_features : schema).

(** Lines 1250-1272: [if pm10_expected_features:] raises when the truth
    test does. *)
Definition features (humidity temperature : option Q)
    (date_obj : date) (hour : Z)
    (current_pm10 pm10_lag_1 pm10_lag_3 pm10_lag_6 pm10_lag_24 : Q)
  : outcome (frame Q) :=
  known ← truth pm10_expected_features;
  Returned (if known : bool then
    frame_of_schema (names_of pm10_expected_features)
      (feature_values humidity temperature date_obj hour current_pm10
         pm10_lag_1 pm10_lag_3 pm10_lag_6 pm10_lag_24)
  else
    let '(pm10_roll_mean_6, pm10_roll_mean_24, pm10_ewm_12) :=
      rolling_statistics current_pm10 pm10_lag_1 pm10_lag_3 pm10_lag_6
        pm10_lag_24 in
    [("timestamp"%string, PyTimestamp date_obj hour);
     ("humidity"%string, of_input humidity);
     ("pm_10"%string, PyFloat current_pm10);
     ("temperature"%string, of_input temperature);
     ("hour"%string, PyInt hour);
     ("day"%string, PyInt (day date_obj));
     ("month"%string, PyInt (month date_obj));
     ("day_of_week"%string, PyInt (weekday date_obj));
     ("pm10_lag_1"%string, PyFloat pm10_lag_1);
     ("pm10_lag_3"%string, PyFloat pm10_lag_3);
     ("pm10_lag_6"%string, PyFloat pm10_lag_6);
     ("pm10_lag_24"%string, PyFloat pm10_lag_24);
     ("pm10_roll_mean_6"%string, PyFloat pm10_roll_mean_6);
     ("pm10_roll_mean_24"%string, PyFloat pm10_roll_mean_24);
     ("pm10_ewm_12"%string, PyFloat pm10_ewm_12)]).

(** The body of the [try] (lines 1211-1535).  [date] is the picker's date
    as [strptime] reads it, [None] when the picker is empty. *)
Definition prediction_body (humidity temperature : option Q)
    (date : option date) (hour : Z)
    (current_pm10 pm10_lag_1 pm10_lag_3 pm10_lag_6 pm10_lag_24 : option Q)
  : outcome view :=
  date_obj ← match date with
             | Some d => Returned d
             | None => Raised TypeError
             end;
  (* np.mean and np.average over the lag values: a None among them raises *)
  match current_pm10, pm10_lag_1, pm10_lag_3, pm10_lag_6, pm10_lag_24 with
  | Some current_pm10, Some pm10_lag_1, Some pm10_lag_3, Some pm10_lag_6,
    Some pm10_lag_24 =>
      (* datetime.min.time().replace(hour=hour) *)
      _ ← (if ((0 <=? hour) && (hour <=? 23))%Z then Returned tt
           else Raised ValueError);
      features ←
        features humidity temperature date_obj hour current_pm10
          pm10_lag_1 pm10_lag_3 pm10_lag_6 pm10_lag_24;
      (* features['timestamp'].dtype *)
      _ ← (if bool_decide ("timestamp"%string ∈ columns features)
           then Returned tt else Raised KeyError);
      prediction ← pm10_model_predict features;
      (* time_points: the last one, 24 hours on, is on the next day *)
      _ ← add_days date_obj 1;
      let start_hour := hour in
      let pm10_values := diurnal_pattern current_pm10 prediction start_hour in
      Returned (Forecast prediction pm10_values)
  | _, _, _, _, _ => Raised TypeError
  end.

(** [update_pm10_prediction] (lines 1207-1581). *)
Definition update_pm10_prediction (n_clicks : Z)
    (humidity temperature : option Q) (date : option date) (hour : Z)
    (current_pm10 pm10_lag_1 pm10_lag_3 pm10_lag_6 pm10_lag_24 : option Q)
  : view :=
  if (0 <? n_clicks)%Z && pm10_model_loaded then
    try_except
      (prediction_body humidity temperature date hour current_pm10
         pm10_lag_1 pm10_lag_3 pm10_lag_6 pm10_lag_24)
      (fun e => PredictionError e)
  else if (0 <? n_clicks)%Z && negb pm10_model_loaded then ModelNotLoaded
  else Blank.

End Run.
End PM10.

(** ** The key annotations of the PM10 figure (app.py, lines 1404-1462) *)
Module PM10Figure.
Open Scope Q_scope.

(** [max(xs)] and [min(xs)]: the first of the greatest (least) elements;
    [None] stands for the ValueError they raise on an empty list. *)
Definition py_max (xs : list Q) : option Q :=
  match xs with
  | [] => None
  | x :: xs => Some (fold_left (fun m y => if Qlt_le_dec m y then y else m) xs x)
  end.

Definition py_min (xs : list Q) : option Q :=
  match xs with
  | [] => None
  | x :: xs => Some (fold_left (fun m y => if Qlt_le_dec y m then y else m) xs x)
  end.

(** [xs[lo:hi]] for bounds that are not negative. *)
Definition slice (xs : list Q) (lo hi : Z) : list Q :=
  take (Z.to_nat hi - Z.to_nat lo) (drop (Z.to_nat lo) xs).

(** [pm10_values[max(0, i-2):min(24, i+3)]]. *)
Definition neighbourhood (pm10_values : list Q) (i : Z) : list Q :=
  slice pm10_values (Z.max 0 (i - 2)) (Z.min 24 (i + 3)).

(** The condition of the generators of lines 1406-1411 at offset [i]:
    [first <= (start_hour + i) % 24 <= last and
     pm10_values[i] == extremum(neighbourhood)].
    [None] stands for an exception (an index out of range, an empty
    neighbourhood). *)
Definition is_extremum (extremum : list Q -> option Q) (first last : Z)
    (start_hour : Z) (pm10_values : list Q) (i : Z) : option bool :=
  let hour := ((start_hour + i) mod 24)%Z in
  if ((first <=? hour) && (hour <=? last))%Z then
    v ← pm10_values !! Z.to_nat i;
    m ← extremum (neighbourhood pm10_values i);
    Some (Qeq_bool v m)
  else Some false.

(** [next((i for i in indices if test(i)), None)]. *)
Fixpoint next_index (test : Z -> option bool) (indices : list Z)
  : option (option Z) :=
  match indices with
  | [] => Some None
  | i :: indices =>
      match test i with
      | None => None
      | Some true => Some (Some i)
      | Some false => next_index test indices
      end
  end.

Definition morning_peak_idx (start_hour : Z) (pm10_values : list Q) :=
  next_index (is_extremum py_max 6 9 start_hour pm10_values) (range 25).
Definition afternoon_dip_idx (start_hour : Z) (pm10_values : list Q) :=
  next_index (is_extremum py_min 13 16 start_hour pm10_values) (range 25).
Definition evening_peak_idx (start_hour : Z) (pm10_values : list Q) :=
  next_index (is_extremum py_max 18 21 start_hour pm10_values) (range 25).

(** An annotation of the figure: the offset whose label it is put at, its
    height, its text. *)
Record annotation : Type := mkannotation {
  offset : Z;
  height : Q;
  text : string
}.

(** Lines 1414-1428 (and 1431-1445, 1448-1462): the annotation added for
    an index found, if it is "significant". *)
Definition annotate (label : string) (first last : Z) (start_hour : Z)
    (pm10_values : list Q) (idx : option Z) : option (list annotation) :=
  match idx with
  | Some i =>
      if ((0 <? i) && (i <? 24))%Z then
        let hour := ((start_hour + i) mod 24)%Z in
        if ((first <=? hour) && (hour <=? last))%Z then
          v ← pm10_values !! Z.to_nat i;
          Some [mkannotation i v label]
        else Some []
      else Some []
  | None => Some []
  end.

(** The key annotations, in the order the callback adds them. *)
Definition key_annotations (start_hour : Z) (pm10_values : list Q)
  : option (list annotation) :=
  morning ← morning_peak_idx start_hour pm10_values;
  afternoon ← afternoon_dip_idx start_hour pm10_values;
  evening ← evening_peak_idx start_hour pm10_values;
  a1 ← annotate "Morning Peak" 6 9 start_hour pm10_values morning;
  a2 ← annotate "Afternoon Dip" 13 16 start_hour pm10_values afternoon;
  a3 ← annotate "Evening Peak" 18 21 start_hour pm10_values evening;
  Some (a1 ++ a2 ++ a3).

End PM10Figure.

(** ** The result panel of the 7-day forecast (app.py, lines 993-1071, 1145) *)
Module SevenDayPanel.
Open Scope R_scope.

(** [np.max] and [np.min] of a list; [None] stands for the ValueError they
    raise on an empty one. *)
Definition np_max (xs : list R) : option R :=
  match xs with
  | [] => None
  | x :: xs => Some (fold_left Rmax xs x)
  end.

Definition np_min (xs : list R) : option R :=
  match xs with
  | [] => None
  | x :: xs => Some (fold_left Rmin xs x)
  end.

(** The three summary statistics (lines 1007, 1015, 1024): average,
    maximum, minimum. *)
Definition summary (predictions : list R) : option (R * R * R) :=
  let average := SevenDay.np_mean predictions in
  maximum ← np_max predictions;
  minimum ← np_min predictions;
  Some (average, maximum, minimum).


(** The colours of the pollution levels (lines 46-48). *)
Definition colors_safe : string := "#4caf50".
Definition colors_warning : string := "#ff9800".
Definition colors_danger : string := "#ff1744".

(** The level indicator of a table row (lines 1049-1060): the icon and its
    colour. *)
Definition indicator_class (p : R) : string :=
  if Rle_dec p 12 then "fas fa-circle"
  else if Rle_dec p 35 then "fas fa-dot-circle"
  else "fas fa-radiation".

Definition indicator_color (p : R) : string :=
  if Rle_dec p 12 then colors_safe
  else if Rle_dec p 35 then colors_warning
  else colors_danger.

(** The background of a table row (lines 1064-1068). *)
Definition row_background (p : R) : string :=
  if Rle_dec p 12 then
    String.append "linear-gradient(90deg, rgba(31, 41, 55, 0.5), "
      (String.append colors_safe "10)")
  else if Rle_dec p 35 then
    String.append "linear-gradient(90deg, rgba(31, 41, 55, 0.5), "
      (String.append colors_warning "10)")
  else
    String.append "linear-gradient(90deg, rgba(31, 41, 55, 0.5), "
      (String.append colors_danger "10)").

End SevenDayPanel.

(** ** The specification's band table (section 4.4)

    The band function as the specification's table words it, to compare
    with [PM10.diurnal_modifier]. *)
Definition band_spec (hour : Z) (baseValue : Q) : Q :=
  (if ((6 <=? hour) && (hour <=? 9))%Z then
     0.15 * (1 - Qabs (inject_Z hour - 7.5) / 1.5) * baseValue
   else if ((13 <=? hour) && (hour <=? 16))%Z then
     - 0.10 * (1 - Qabs (inject_Z hour - 14.5) / 1.5) * baseValue
   else if ((18 <=? hour) && (hour <=? 21))%Z then
     0.12 * (1 - Qabs (inject_Z hour - 19.5) / 1.5) * baseValue
   else if ((0 <=? hour) && (hour <=? 5))%Z then
     - 0.20 * (1 - Qabs (inject_Z hour - 3) / 3) * baseValue
   else 0)%Q.

(** The hours outside every band: the [else] branch of the modifier. *)
Definition neutral_hour (hour : Z) : bool :=
  negb ((6 <=? hour) && (hour <=? 9))%Z &&
  negb ((13 <=? hour) && (hour <=? 16))%Z &&
  negb ((18 <=? hour) && (hour <=? 21))%Z &&
  negb ((0 <=? hour) && (hour <=? 5))%Z.

(** ** Definitions the statements use *)

(** The names of a list, each at its first occurrence. *)
Definition first_occurrences (names : list string) : list string :=
  fold_left (fun acc n => if decide (n ∈ acc) then acc else acc ++ [n])
    names [].

(** What a run shows, the generator left aside. *)
Definition shown {G} (r : outcome (SevenDay.view * G)) : outcome SevenDay.view :=
  match r with
  | Raised e => Raised e
  | Returned (v, _) => Returned v
  end.

(** What a turn or a loop leaves, the generator left aside. *)
Definition ungenerated {A G} (r : outcome (A * G)) : outcome A :=
  match r with
  | Raised e => Raised e
  | Returned (a, _) => Returned a
  end.

(** A predictor that answers [x] to every vector, and a random source
    stubbed at 0.5 whose state counts the draws. *)
Definition constant_model {N} (x : N) : frame N -> outcome N :=
  fun _ => Returned x.
Definition stub_source : nat -> R * nat := fun n => (0.5%R, S n).
(** A random source that always draws 0. *)
Definition low_source : nat -> R * nat := fun n => (0%R, S n).
Definition failing_model {N} : frame N -> outcome N :=
  fun _ => Raised (ModelError "predict failed").

(** A predictor that answers 20 except on the 8th day of a month, where it
    raises. *)
Definition failing_on_the_8th : frame R -> outcome R :=
  fun f =>
    match dict_lookup "day" f with
    | Some (PyInt 8) => Raised (ModelError "predict failed")
    | _ => Returned 20%R
    end.

(** The hour of offset [i] of a curve that starts at [start_hour] lies in
    the band [first..last]. *)
Definition in_band (first last start_hour i : Z) : Prop :=
  (first <= (start_hour + i) mod 24 <= last)%Z.

(** [v] is the value at offset [i], and no value at the offsets
    [max(0, i-2) .. min(24, i+3) - 1] is greater (is less). *)
Definition local_max (pm10_values : list Q) (i : Z) (v : Q) : Prop :=
  pm10_values !! Z.to_nat i = Some v
  /\ forall j w, (Z.max 0 (i - 2) <= j < Z.min 24 (i + 3))%Z ->
       pm10_values !! Z.to_nat j = Some w -> (w <= v)%Q.

Definition local_min (pm10_values : list Q) (i : Z) (v : Q) : Prop :=
  pm10_values !! Z.to_nat i = Some v
  /\ forall j w, (Z.max 0 (i - 2) <= j < Z.min 24 (i + 3))%Z ->
       pm10_values !! Z.to_nat j = Some w -> (v <= w)%Q.

(** The first offset of the band at which the curve has the shape
    [shape]. *)
Definition first_in_band (shape : list Q -> Z -> Q -> Prop)
    (first last start_hour : Z) (pm10_values : list Q) (i : Z) (v : Q)
  : Prop :=
  in_band first last start_hour i /\ shape pm10_values i v
  /\ forall j, (0 <= j < i)%Z ->
       ~ (in_band first last start_hour j /\ exists w, shape pm10_values j w).

(** * Properties *)

(** ** Lists and ranges *)

Lemma range_length n : length (range n) = n.
Proof. unfold range. by rewrite length_map, length_seq. Qed.

Lemma range_lookup n (i : nat) :
  (i < n)%nat -> range n !! i = Some (Z.of_nat i).
Proof.
  intros Hi. unfold range.
  rewrite list_lookup_fmap, lookup_seq_lt by done. reflexivity.
Qed.

Lemma range_S n : range (S n) = range n ++ [Z.of_nat n].
Proof. unfold range. rewrite seq_S, map_app. reflexivity. Qed.

(** ** The calendar *)

(** The dates [strptime] returns have their ordinal in the calendar's
    range. *)
Lemma valid_toordinal (d : Calendar.date) :
  Calendar.valid d = true ->
  (0 < Calendar.toordinal d <= Calendar.MAXORDINAL)%Z.
Proof.
  destruct d as [y m dd]. unfold Calendar.valid, Calendar.toordinal,
    Calendar.ymd2ord, Calendar.days_before_year, Calendar.days_before_month,
    Calendar.days_in_month, Calendar.MAXORDINAL. simpl.
  intros H. repeat (apply andb_prop in H as [H ?]).
  assert (Hm : (m = 1 \/ m = 2 \/ m = 3 \/ m = 4 \/ m = 5 \/ m = 6 \/ m = 7
               \/ m = 8 \/ m = 9 \/ m = 10 \/ m = 11 \/ m = 12)%Z) by lia.
  assert (Hleap : Calendar.is_leap y = true -> (y mod 4 = 0)%Z).
  { unfold Calendar.is_leap. intros [Hy4 _]%andb_prop. by apply Z.eqb_eq. }
  destruct (Calendar.is_leap y);
    [specialize (Hleap eq_refl) | clear Hleap];
    repeat (destruct Hm as [-> | Hm]); try subst m; simpl in *;
    Z.div_mod_to_equations; lia.
Qed.

(** ** Rounding *)
Section Rounding.

Lemma round_half_even_nearest (x : Q) :
  (Qabs (inject_Z (Format.round_half_even x) - x) <= 1 # 2)%Q.
Proof.
  unfold Format.round_half_even.
  pose proof (Qfloor_le x) as Hlo. pose proof (Qlt_floor x) as Hhi.
  rewrite inject_Z_plus in Hhi. change (inject_Z 1) with 1%Q in Hhi.
  destruct (Qcompare_spec (x - inject_Z (Qfloor x)) (1 # 2)) as [He | Hl | Hg];
    [destruct (Z.even (Qfloor x)) | |];
    rewrite ?inject_Z_plus; change (inject_Z 1) with 1%Q;
    apply Qabs_case; intros _; Lqa.lra.
Qed.

Lemma round_half_even_inject_Z (n : Z) : Format.round_half_even (inject_Z n) = n.
Proof.
  unfold Format.round_half_even. rewrite Qfloor_Z.
  destruct (Qcompare_spec (inject_Z n - inject_Z n) (1 # 2)) as [He | Hl | Hg];
    [exfalso; Lqa.lra | reflexivity | exfalso; Lqa.lra].
Qed.

Open Scope R_scope.

Lemma rint_nearest (x : R) : - (1 / 2) <= IZR (SevenDay.rint x) - x <= 1 / 2.
Proof.
  unfold SevenDay.rint. destruct (base_Int_part x) as [Hlo Hhi].
  destruct (Rlt_dec _ _) as [Hl | Hnl]; [lra |].
  destruct (Rlt_dec _ _) as [Hg | Hng].
  - rewrite plus_IZR. lra.
  - destruct (Z.even _); [| rewrite plus_IZR]; lra.
Qed.

Lemma rint_IZR (n : Z) : SevenDay.rint (IZR n) = n.
Proof.
  unfold SevenDay.rint.
  assert (Hn : Int_part (IZR n) = n).
  { destruct (base_Int_part (IZR n)) as [Hlo Hhi].
    apply le_IZR in Hlo.
    assert (IZR n < IZR (Int_part (IZR n) + 1)) by (rewrite plus_IZR; lra).
    apply lt_IZR in H. lia. }
  rewrite Hn. destruct (Rlt_dec _ _) as [_ | Hn0]; [reflexivity | lra].
Qed.

Lemma round2_nearest (x : R) :
  Rabs (SevenDay.round2 x - x) <= 1 / 200 /\ exists n : Z, SevenDay.round2 x = IZR n / 100.
Proof.
  split; [| by eexists].
  unfold SevenDay.round2. pose proof (rint_nearest (x * 100)) as H.
  apply Rabs_le. lra.
Qed.

Lemma round2_hundredths (n : Z) : SevenDay.round2 (IZR n / 100) = IZR n / 100.
Proof.
  unfold SevenDay.round2. replace (IZR n / 100 * 100) with (IZR n) by lra.
  by rewrite rint_IZR.
Qed.

End Rounding.

(** ** Rolling statistics and their display *)
Section RollingStatistics.
Import PM10.
Open Scope Q_scope.

Lemma rolling_statistics_eq (current lag1 lag3 lag6 lag24 : Q) :
  let '(roll_mean_6, roll_mean_24, ewm_12) :=
    rolling_statistics current lag1 lag3 lag6 lag24 in
  roll_mean_6 == (current + lag1 + lag3 + lag6) / 4
  /\ roll_mean_24 == (current + lag1 + lag3 + lag6 + lag24) / 5
  /\ ewm_12 == 0.4 * current + 0.25 * lag1 + 0.2 * lag3 + 0.1 * lag6
               + 0.05 * lag24.
Proof.
  unfold rolling_statistics, np_mean, np_average, weights. simpl.
  repeat split; field.
Qed.

(** The weights sum to one, so the weighted average is the weighted sum. *)
Lemma weights_sum : fold_left Qplus weights 0 == 1.
Proof. reflexivity. Qed.

(** C4, as the claim words it, fails at its own example: the weighted
    average of [30, 28, 25, 22, 28] is 27.6, shown as "27.60", and not
    27.5. *)
Lemma C4_ewm12_of_example_is_not_27_5 :
  update_pm10_averages (Some 30) (Some 28) (Some 25) (Some 22) (Some 28)
  = ("26.25", "26.60", "27.60")%string
  /\ (rolling_statistics 30 28 25 22 28).2 == 27.6
  /\ ~ (rolling_statistics 30 28 25 22 28).2 == 27.5.
Proof. split; [reflexivity | split; [reflexivity | discriminate]]. Qed.

(** C4 (amended).  When all 5 lag inputs are present, the calculator yields
    rollMean6 = the arithmetic mean of current, lag1, lag3, lag6,
    rollMean24 = the arithmetic mean of all 5 values and ewm12 = the
    weighted average with weights 0.4, 0.25, 0.2, 0.1, 0.05, which sum to
    1; for inputs [30, 28, 25, 22, 28] the three outputs are exactly 26.25,
    26.6 and 27.6, and the callback shows them as "26.25", "26.60" and
    "27.60". *)
Theorem C4_rolling_statistics (current lag1 lag3 lag6 lag24 : Q) :
  (exists roll_mean_6 roll_mean_24 ewm_12 : Q,
      rolling_statistics current lag1 lag3 lag6 lag24
      = (roll_mean_6, roll_mean_24, ewm_12)
      /\ roll_mean_6 == (current + lag1 + lag3 + lag6) / 4
      /\ roll_mean_24 == (current + lag1 + lag3 + lag6 + lag24) / 5
      /\ ewm_12 == (0.4 * current + 0.25 * lag1 + 0.2 * lag3 + 0.1 * lag6
                    + 0.05 * lag24) / (0.4 + 0.25 + 0.2 + 0.1 + 0.05)
      /\ ewm_12 == 0.4 * current + 0.25 * lag1 + 0.2 * lag3 + 0.1 * lag6
                   + 0.05 * lag24)
  /\ (exists roll_mean_6 roll_mean_24 ewm_12 : Q,
      rolling_statistics 30 28 25 22 28 = (roll_mean_6, roll_mean_24, ewm_12)
      /\ roll_mean_6 == 26.25 /\ roll_mean_24 == 26.6 /\ ewm_12 == 27.6)
  /\ update_pm10_averages (Some 30) (Some 28) (Some 25) (Some 22) (Some 28)
     = ("26.25", "26.60", "27.60")%string.
Proof.
  split; [| split; [| reflexivity]].
  - pose proof (rolling_statistics_eq current lag1 lag3 lag6 lag24) as H.
    destruct (rolling_statistics current lag1 lag3 lag6 lag24)
      as [[r6 r24] e].
    destruct H as (H6 & H24 & He).
    exists r6, r24, e. repeat split; try done.
    rewrite He. field.
  - eexists _, _, _. split; [reflexivity |]. repeat split; reflexivity.
Qed.

(** C9.  If any of the 5 lag inputs is absent, the calculator returns the
    text of 0 for all three statistics; so does the 3-day moving-average
    display when any of its 3 inputs is absent.  Both are total functions:
    they return a text for every input and raise on none. *)
Theorem C9_missing_input_reports_zero :
  (forall current lag1 lag3 lag6 lag24 : option Q,
      current = None \/ lag1 = None \/ lag3 = None \/ lag6 = None
      \/ lag24 = None ->
      update_pm10_averages current lag1 lag3 lag6 lag24
      = (Format.format_2f 0, Format.format_2f 0, Format.format_2f 0))
  /\ (forall pm25_1d pm25_2d pm25_3d : option Q,
      pm25_1d = None \/ pm25_2d = None \/ pm25_3d = None ->
      SevenDay.update_moving_average pm25_1d pm25_2d pm25_3d
      = Format.format_2f 0)
  /\ Format.format_2f 0 = "0.00"%string.
Proof.
  split; [| split; [| reflexivity]].
  - intros [c|] [l1|] [l3|] [l6|] [l24|] H; try reflexivity.
    destruct H as [H|[H|[H|[H|H]]]]; discriminate.
  - intros [a|] [b|] [c|] H; try reflexivity.
    destruct H as [H|[H|H]]; discriminate.
Qed.

Lemma C9_missing_input_reports_zero_witness :
  update_pm10_averages (Some 30) None (Some 25) (Some 22) (Some 28)
  = ("0.00", "0.00", "0.00")%string
  /\ SevenDay.update_moving_average (Some 20) (Some 20) None = "0.00"%string.
Proof.
  destruct C9_missing_input_reports_zero as (H5 & H3 & _).
  split.
  - apply (H5 (Some 30) None (Some 25) (Some 22) (Some 28)).
    right; left; reflexivity.
  - apply (H3 (Some 20) (Some 20) None). right; right; reflexivity.
Defined.

End RollingStatistics.

(** ** The diurnal pattern *)
Section Diurnal.
Import PM10.
Open Scope Q_scope.

(** The modifier is proportional to the base value. *)
Lemma diurnal_modifier_linear (hour : Z) (b : Q) :
  diurnal_modifier hour b == b * diurnal_modifier hour 1.
Proof.
  unfold diurnal_modifier.
  repeat match goal with |- context [if ?c then _ else _] => destruct c end;
    cbv zeta; ring.
Qed.

#[local] Instance diurnal_modifier_proper (hour : Z) :
  Proper (Qeq ==> Qeq) (diurnal_modifier hour).
Proof.
  intros b b' Hb.
  rewrite (diurnal_modifier_linear hour b), (diurnal_modifier_linear hour b').
  by rewrite Hb.
Qed.

(** The code's modifier is the band of the specification's table. *)
Lemma diurnal_modifier_band_spec (hour : Z) (b : Q) :
  diurnal_modifier hour b == band_spec hour b.
Proof.
  unfold diurnal_modifier, band_spec.
  repeat match goal with |- context [if ?c then _ else _] => destruct c end;
    cbv zeta; ring.
Qed.

Lemma base_value_0 (current_pm10 prediction : Q) :
  base_value current_pm10 prediction 0 == current_pm10.
Proof. unfold base_value. simpl. field. Qed.

Lemma base_value_24 (current_pm10 prediction : Q) :
  base_value current_pm10 prediction 24 == prediction.
Proof. unfold base_value. simpl. field. Qed.

Lemma diurnal_pattern_lookup (current_pm10 prediction : Q) (start_hour : Z)
    (h : nat) :
  (h < 25)%nat ->
  diurnal_pattern current_pm10 prediction start_hour !! h
  = Some (diurnal_value current_pm10 prediction start_hour (Z.of_nat h)).
Proof.
  intros Hh. unfold diurnal_pattern.
  by rewrite list_lookup_fmap, range_lookup.
Qed.

(** C3.  For a start hour in 0..23 the synthesizer produces exactly 25
    values, for the offsets h = 0..24; each is baseValue + modifier, where
    baseValue = currentValue + (predictedValue - currentValue) * h/24 and
    the modifier is the band formula of the specification's table at the
    hour (startHour + h) mod 24; with currentValue = 30 and startHour = 7
    the value at offset 0 is above 30, whatever the prediction. *)
Theorem C3_diurnal_pattern (current_pm10 prediction : Q) (start_hour : Z) :
  (0 <= start_hour <= 23)%Z ->
  length (diurnal_pattern current_pm10 prediction start_hour) = 25%nat
  /\ (forall h : Z, (0 <= h <= 24)%Z ->
       exists value : Q,
         diurnal_pattern current_pm10 prediction start_hour !! Z.to_nat h
         = Some value
         /\ let baseValue :=
              current_pm10 + (prediction - current_pm10) * (inject_Z h / 24) in
            let absoluteHour := ((start_hour + h) mod 24)%Z in
            value = base_value current_pm10 prediction h
                    + diurnal_modifier absoluteHour
                        (base_value current_pm10 prediction h)
            /\ base_value current_pm10 prediction h == baseValue
            /\ value == baseValue + band_spec absoluteHour baseValue)
  /\ (forall predicted : Q,
       diurnal_pattern 30 predicted 7 !! 0%nat
       = Some (diurnal_value 30 predicted 7 0)
       /\ 30 < diurnal_value 30 predicted 7 0).
Proof.
  intros Hstart. split; [| split].
  - unfold diurnal_pattern. by rewrite length_map, range_length.
  - intros h Hh. eexists. split.
    + rewrite diurnal_pattern_lookup by lia. rewrite Z2Nat.id by lia.
      reflexivity.
    + cbv zeta. split; [reflexivity |].
      assert (Hb : base_value current_pm10 prediction h
                   == current_pm10
                      + (prediction - current_pm10) * (inject_Z h / 24)).
      { unfold base_value. cbv zeta. field. }
      split; [exact Hb |].
      unfold diurnal_value. cbv zeta.
      rewrite <- diurnal_modifier_band_spec. rewrite Hb. reflexivity.
  - intros predicted. split; [reflexivity |].
    unfold diurnal_value. cbv zeta.
    change ((7 + 0) mod 24)%Z with 7%Z.
    rewrite (base_value_0 30 predicted).
    rewrite (diurnal_modifier_linear 7 30).
    reflexivity.
Qed.

Lemma C3_diurnal_pattern_witness :
  length (diurnal_pattern 30 40 7) = 25%nat
  /\ diurnal_pattern 30 40 7 !! 0%nat = Some (diurnal_value 30 40 7 0)
  /\ 30 < diurnal_value 30 40 7 0.
Proof.
  destruct (C3_diurnal_pattern 30 40 7 ltac:(lia)) as (Hlen & _ & H0).
  split; [exact Hlen | exact (H0 40)].
Defined.

(** Case analysis on an hour of the day. *)
Lemma hour_cases (P : Z -> Prop) :
  Forall P (range 24) -> forall h : Z, (0 <= h <= 23)%Z -> P h.
Proof.
  intros HP h Hh. rewrite Forall_forall in HP. apply HP.
  apply list_elem_of_lookup. exists (Z.to_nat h).
  rewrite range_lookup by lia. f_equal. lia.
Qed.

(** [Forall P (range 24)] splits into its 24 cases. *)
Ltac each_hour :=
  change (range 24) with
    [0; 1; 2; 3; 4; 5; 6; 7; 8; 9; 10; 11; 12; 13; 14; 15; 16; 17; 18; 19;
     20; 21; 22; 23]%Z;
  repeat apply List.Forall_cons; try apply List.Forall_nil.

Lemma neutral_hour_iff (hour : Z) :
  (0 <= hour <= 23)%Z ->
  neutral_hour hour = true <-> In hour [10; 11; 12; 17; 22; 23]%Z.
Proof.
  revert hour. apply hour_cases. each_hour.
  all: split; [intros H; try discriminate H; simpl; tauto |].
  all: simpl; intros H; try reflexivity; exfalso; lia.
Qed.

(** The hours at which the modifier vanishes for every base value: the
    neutral hours and the edges of the bands. *)
Lemma diurnal_modifier_unit_zero_iff (hour : Z) :
  (0 <= hour <= 23)%Z ->
  diurnal_modifier hour 1 == 0 <->
  neutral_hour hour = true \/ In hour [0; 6; 9; 13; 16; 18; 21]%Z.
Proof.
  revert hour. apply hour_cases. each_hour.
  all: split;
    [ intros H; try discriminate H; simpl; tauto
    | intros [H | H]; try reflexivity; try discriminate H;
      exfalso; simpl in H; lia ].
Qed.

Lemma plus_modifier_fixed_iff (hour : Z) (p : Q) :
  p + diurnal_modifier hour p == p <-> p == 0 \/ diurnal_modifier hour 1 == 0.
Proof.
  rewrite (diurnal_modifier_linear hour p).
  set (k := diurnal_modifier hour 1). split.
  - intros H. assert (H0 : p * k == 0).
    { assert (Hk : p * k == p + p * k - p) by ring.
      rewrite Hk, H. ring. }
    apply Qmult_integral in H0. exact H0.
  - intros [H | H]; rewrite H; ring.
Qed.

(** C10, as the claim words it, fails: from start hour 6, an hour of the
    morning band and none of 10-12, 17, 22-23, the curve ends exactly at
    the raw prediction. *)
Lemma C10_ends_at_prediction_from_band_edge :
  diurnal_pattern 30 40 6 !! 24%nat = Some (diurnal_value 30 40 6 24)
  /\ diurnal_value 30 40 6 24 == 40
  /\ ~ In 6%Z [10; 11; 12; 17; 22; 23]%Z
  /\ neutral_hour 6 = false.
Proof.
  split; [reflexivity |]. split; [reflexivity |].
  split; [simpl; lia | reflexivity].
Qed.

(** C10 (amended).  For every startHour in 0..23 the curve's last point is
    value[24] = predictedValue + band((startHour + 24) mod 24,
    predictedValue) = predictedValue + band(startHour, predictedValue):
    offsets 0 and 24 receive the band modifier of the same absolute hour.
    The curve ends exactly at the raw 24h prediction when startHour lies in
    a neutral band (hours 10-12, 17, 22-23), and otherwise only when the
    band formula vanishes: at the band edges 0, 6, 9, 13, 16, 18, 21, or
    when predictedValue is 0. *)
Theorem C10_last_point (current_pm10 prediction : Q) (start_hour : Z) :
  (0 <= start_hour <= 23)%Z ->
  exists last : Q,
    diurnal_pattern current_pm10 prediction start_hour !! 24%nat = Some last
    /\ last == prediction
               + diurnal_modifier ((start_hour + 24) mod 24) prediction
    /\ ((start_hour + 24) mod 24 = (start_hour + 0) mod 24)%Z
    /\ ((start_hour + 24) mod 24 = start_hour)%Z
    /\ last == prediction + diurnal_modifier start_hour prediction
    /\ last == prediction + band_spec start_hour prediction
    /\ (neutral_hour start_hour = true <->
        In start_hour [10; 11; 12; 17; 22; 23]%Z)
    /\ (neutral_hour start_hour = true -> last == prediction)
    /\ (last == prediction <->
        prediction == 0 \/ neutral_hour start_hour = true
        \/ In start_hour [0; 6; 9; 13; 16; 18; 21]%Z).
Proof.
  intros Hstart.
  assert (Hmod : ((start_hour + 24) mod 24 = start_hour)%Z).
  { rewrite <- (Z.mul_1_l 24) at 1. rewrite Z.mod_add by lia.
    apply Z.mod_small. lia. }
  assert (Hlast : diurnal_value current_pm10 prediction start_hour 24
                  == prediction + diurnal_modifier start_hour prediction).
  { unfold diurnal_value. cbv zeta. rewrite Hmod.
    by rewrite base_value_24. }
  exists (diurnal_value current_pm10 prediction start_hour 24).
  split; [by rewrite diurnal_pattern_lookup by lia |].
  split; [by rewrite Hmod |].
  split; [by rewrite Hmod, Z.add_0_r, Z.mod_small by lia |].
  split; [exact Hmod |]. split; [exact Hlast |].
  split; [by rewrite Hlast, diurnal_modifier_band_spec |].
  split; [by apply neutral_hour_iff |].
  rewrite Hlast, plus_modifier_fixed_iff.
  rewrite (diurnal_modifier_unit_zero_iff start_hour Hstart).
  split; [tauto | reflexivity].
Qed.

Lemma C10_last_point_witness :
  exists last : Q,
    diurnal_pattern 30 40 7 !! 24%nat = Some last
    /\ last == 40 + diurnal_modifier 7 40
    /\ ~ last == 40.
Proof.
  destruct (C10_last_point 30 40 7 ltac:(lia))
    as (last & Hl & _ & _ & _ & Heq & _ & _ & _ & Hiff).
  exists last. split; [exact Hl |]. split; [exact Heq |].
  intros H. apply Hiff in H. destruct H as [H | [H | H]].
  - discriminate H.
  - discriminate H.
  - simpl in H. lia.
Defined.

End Diurnal.

(** ** The feature vector of a known schema *)
Section FeatureVector.
Context {N : Type}.
Implicit Types (d : odict (pyval N)) (names schema : list string).

Lemma dict_set_columns {V} (k : string) (v : V) (d : odict V) :
  map fst (dict_set k v d)
  = if decide (k ∈ map fst d) then map fst d else map fst d ++ [k].
Proof.
  induction d as [| [k' v'] d IH].
  - destruct (decide (k ∈ map fst (@nil (string * V)))) as [Hin | _];
      [by apply elem_of_nil in Hin | reflexivity].
  - cbn [dict_set]. destruct (decide (k' = k)) as [-> | Hne].
    + destruct (decide (k ∈ map fst ((k, v') :: d))) as [_ | Hnin];
        [reflexivity |]. exfalso. apply Hnin. by left.
    + cbn [map fst]. rewrite IH.
      destruct (decide (k ∈ map fst d)) as [Hin | Hnin];
        destruct (decide (k ∈ k' :: map fst d)) as [Hin' | Hnin'];
        try reflexivity.
      * exfalso. apply Hnin'. by right.
      * exfalso. apply elem_of_cons in Hin' as [? | ?]; congruence.
Qed.

Lemma dict_set_lookup {V} (k k' : string) (v : V) (d : odict V) :
  dict_lookup k' (dict_set k v d)
  = if decide (k = k') then Some v else dict_lookup k' d.
Proof.
  induction d as [| [k0 v0] d IH]; simpl.
  - destruct (decide (k = k')); reflexivity.
  - destruct (decide (k0 = k)) as [-> | Hne]; simpl.
    + destruct (decide (k = k')); reflexivity.
    + rewrite IH. destruct (decide (k0 = k')) as [-> | ?];
        destruct (decide (k = k')); congruence.
Qed.

Lemma dict_comprehension_snoc {V} names (n : string) (f : string -> V) :
  dict_comprehension (names ++ [n]) f
  = dict_set n (f n) (dict_comprehension names f).
Proof. unfold dict_comprehension. by rewrite fold_left_app. Qed.

Lemma dict_comprehension_columns {V} names (f : string -> V) :
  map fst (dict_comprehension names f) = first_occurrences names.
Proof.
  induction names as [| n names IH] using rev_ind; [reflexivity |].
  rewrite dict_comprehension_snoc, dict_set_columns, IH.
  unfold first_occurrences. by rewrite fold_left_app.
Qed.

Lemma dict_comprehension_lookup {V} names (f : string -> V) (k : string) :
  k ∈ names -> dict_lookup k (dict_comprehension names f) = Some (f k).
Proof.
  induction names as [| n names IH] using rev_ind.
  - by intros ?%elem_of_nil.
  - intros Hk. rewrite dict_comprehension_snoc, dict_set_lookup.
    destruct (decide (n = k)) as [-> | Hne]; [done |].
    apply IH. apply elem_of_app in Hk as [Hk | Hk%list_elem_of_singleton];
      congruence.
Qed.

Lemma first_occurrences_snoc names (n : string) :
  first_occurrences (names ++ [n])
  = if decide (n ∈ first_occurrences names) then first_occurrences names
    else first_occurrences names ++ [n].
Proof. unfold first_occurrences. by rewrite fold_left_app. Qed.

Lemma first_occurrences_elem names (k : string) :
  k ∈ first_occurrences names <-> k ∈ names.
Proof.
  induction names as [| n names IH] using rev_ind; [done |].
  rewrite first_occurrences_snoc.
  destruct (decide (n ∈ first_occurrences names)) as [Hin | Hnin];
    rewrite !elem_of_app, ?list_elem_of_singleton; [| by rewrite IH].
  rewrite IH. split; [tauto |]. intros [? | ->]; [done |]. by apply IH.
Qed.

Lemma first_occurrences_NoDup names : NoDup (first_occurrences names).
Proof.
  induction names as [| n names IH] using rev_ind; [constructor |].
  rewrite first_occurrences_snoc.
  destruct (decide (n ∈ first_occurrences names)) as [Hin | Hnin]; [done |].
  apply NoDup_app. split; [done |]. split; [| apply NoDup_singleton].
  intros x Hx ->%list_elem_of_singleton. done.
Qed.

Lemma first_occurrences_id names :
  NoDup names -> first_occurrences names = names.
Proof.
  induction names as [| n names IH] using rev_ind; [done |].
  intros (Hnd & Hn & _)%NoDup_app. rewrite first_occurrences_snoc.
  rewrite IH by done. rewrite decide_False; [done |].
  intros Hin. apply (Hn n Hin). by apply list_elem_of_singleton.
Qed.


End FeatureVector.



(** An array of two names or more fails the truth test, a list never
    does. *)
Lemma truth_raised (s : schema) (e : exn) :
  truth s = Raised e
  <-> e = ValueError /\ exists name name' names, s = NdArray name (name' :: names).
Proof.
  destruct s as [names | name [| name' names]]; cbn.
  - split; [discriminate | intros (_ & ? & ? & ? & [=])].
  - split; [discriminate | intros (_ & ? & ? & ? & [=])].
  - split.
    + intros [= <-]. split; [done |]. by eexists _, _, _.
    + by intros [-> _].
Qed.


(** The truth test is all that can make the builder raise. *)
Lemma features_raised (s : schema) (e : exn) :
  (forall humidity temperature prediction_date st,
      SevenDay.features s humidity temperature prediction_date st = Raised e
      <-> truth s = Raised e)
  /\ (forall humidity temperature date_obj hour current_pm10 pm10_lag_1
             pm10_lag_3 pm10_lag_6 pm10_lag_24,
      PM10.features s humidity temperature date_obj hour current_pm10
        pm10_lag_1 pm10_lag_3 pm10_lag_6 pm10_lag_24 = Raised e
      <-> truth s = Raised e).
Proof.
  split; intros.
  - unfold SevenDay.features. destruct (truth s); cbn; split; congruence.
  - unfold PM10.features. destruct (truth s); cbn; split; congruence.
Qed.




(** The aliases of a concept resolve to one value. *)
Lemma feature_values_aliases humidity temperature hour day month weekday st :
  let values :=
    SevenDay.feature_values humidity temperature hour day month weekday st in
  values !! "pm_2_5_lag1h"%string = Some (PyFloat (SevenDay.pm25_lag1d st))
  /\ values !! "pm25_lag1h"%string = Some (PyFloat (SevenDay.pm25_lag1d st))
  /\ values !! "pm_2_5_lag_1_h"%string
     = Some (PyFloat (SevenDay.pm25_lag1d st))
  /\ values !! "pm_2_5_ma3h"%string = Some (PyFloat (SevenDay.pm25_ma3d st))
  /\ values !! "pm25_ma3h"%string = Some (PyFloat (SevenDay.pm25_ma3d st))
  /\ values !! "pm25"%string = None.
Proof. repeat split; vm_compute; reflexivity. Qed.

(** ** The adjustment factors of the 7-day loop *)
Section Factors.
Import SevenDay.
Open Scope R_scope.

Lemma weekday_factor_cases (day_of_week : Z) :
  ((0 <= day_of_week <= 4)%Z -> weekday_factor day_of_week = 1)
  /\ (day_of_week = 5%Z -> weekday_factor day_of_week = 0.9)
  /\ (day_of_week = 6%Z -> weekday_factor day_of_week = 0.85).
Proof.
  unfold weekday_factor. repeat split.
  - intros H. rewrite !(proj2 (Z.eqb_neq _ _)) by lia. lra.
  - by intros ->.
  - by intros ->.
Qed.

Lemma random_factor_half : random_factor 0.5 = 1.
Proof. unfold random_factor. lra. Qed.

(** In phase 0 of the cycle the sine is that of 0. *)
Lemma weather_factor_phase_0 (i : Z) :
  (i mod 3 = 0)%Z -> weather_factor i = 1.
Proof.
  intros H. unfold weather_factor, weather_phase. rewrite H.
  replace (2 * PI * (0 / 3.0)) with 0 by lra. rewrite sin_0. lra.
Qed.

(** C8.  For every step index i in 0..6 the weather cycle factor is
    1 + 0.08 * sin(2 pi (i mod 3) / 3); at the step indices 0, 3 and 6 it is
    exactly 1. *)
Theorem C8_weather_cycle_factor (i : Z) :
  (0 <= i <= 6)%Z ->
  weather_factor i = 1 + 0.08 * sin (2 * PI * IZR (i mod 3) / 3)
  /\ (i = 0%Z \/ i = 3%Z \/ i = 6%Z -> weather_factor i = 1).
Proof.
  intros Hi. split.
  - unfold weather_factor, weather_phase.
    replace (2 * PI * (IZR (i mod 3) / 3.0))
      with (2 * PI * IZR (i mod 3) / 3) by lra.
    lra.
  - intros H. apply weather_factor_phase_0.
    destruct H as [-> | [-> | ->]]; reflexivity.
Qed.

Lemma C8_weather_cycle_factor_witness :
  weather_factor 3 = 1 + 0.08 * sin (2 * PI * IZR (3 mod 3) / 3)
  /\ weather_factor 3 = 1.
Proof.
  destruct (C8_weather_cycle_factor 3 ltac:(lia)) as [Heq H1].
  split; [exact Heq | apply H1; right; left; reflexivity].
Defined.

End Factors.

(** ** Computations that raise *)

Lemma bind_returned_inv {A B} (c : outcome A) (k : A -> outcome B) (b : B) :
  c ≫= k = Returned b -> exists a, c = Returned a /\ k a = Returned b.
Proof. destruct c as [e | a]; [discriminate | eauto]. Qed.

Lemma bind_returned {A B} (a : A) (k : A -> outcome B) :
  Returned a ≫= k = k a.
Proof. reflexivity. Qed.

Lemma bind_raised {A B} (e : exn) (k : A -> outcome B) :
  Raised e ≫= k = Raised e.
Proof. reflexivity. Qed.

Lemma bind_assoc {A B C} (c : outcome A) (k : A -> outcome B)
    (k' : B -> outcome C) :
  (c ≫= k) ≫= k' = c ≫= (fun a => k a ≫= k').
Proof. by destruct c. Qed.

Lemma range_split (k n : nat) :
  (k <= n)%nat -> range n = range k ++ map Z.of_nat (seq k (n - k)).
Proof.
  intros Hk. unfold range. rewrite <- map_app, <- seq_app.
  do 2 f_equal. lia.
Qed.

(** ** The 7-day loop *)
Section SevenDayLoop.
Import Calendar SevenDay.
Open Scope R_scope.

Context (model_predict : frame R -> outcome R).
Context (expected_features : schema).
Context {G : Type} (np_random : G -> R * G).
Context (humidity temperature : option R) (start_date_obj : date).

#[local] Abbreviation day_of :=
  (forecast_day model_predict expected_features np_random humidity temperature
     start_date_obj).
#[local] Abbreviation loop :=
  (forecast_loop model_predict expected_features np_random humidity
     temperature start_date_obj).

(** What a turn of the loop that returns has computed. *)
Lemma forecast_day_inv (day_offset : Z) (st st' : carried) (g g' : G)
    (d : date) (p : R) :
  day_of day_offset st g = Returned (d, p, st', g') ->
  exists base_prediction : R,
    add_days start_date_obj day_offset = Returned d
    /\ features expected_features humidity temperature d st ≫= model_predict
       = Returned base_prediction
    /\ p = round2 (base_prediction * weekday_factor (weekday d)
                   * weather_factor day_offset
                   * random_factor (np_random g).1)
    /\ g' = (np_random g).2
    /\ st' = {| pm25_current := p;
                pm25_lag1d := pm25_current st;
                pm25_ma3d := np_mean [pm25_ma3d st; pm25_current st; p] |}.
Proof.
  unfold forecast_day. intros H.
  apply bind_returned_inv in H as (d0 & Hd & H).
  apply bind_returned_inv in H as (f & Hf & H).
  apply bind_returned_inv in H as (base & Hbase & H).
  destruct (np_random g) as [u g1]. injection H as <- <- <- <-.
  exists base. rewrite Hf. done.
Qed.

Lemma forecast_loop_app (offsets1 offsets2 : list Z) dates predictions st g :
  loop (offsets1 ++ offsets2) dates predictions st g
  = loop offsets1 dates predictions st g ≫=
      (fun '(dates, predictions, st, g) =>
         loop offsets2 dates predictions st g).
Proof.
  revert dates predictions st g.
  induction offsets1 as [| i offsets1 IH]; intros; [reflexivity |].
  simpl. rewrite bind_assoc.
  destruct (day_of i st g) as [e | [[[d p] st1] g1]]; [reflexivity |].
  rewrite !bind_returned. apply IH.
Qed.

(** The loop only appends, one date and one prediction a turn. *)
Lemma forecast_loop_appends (offsets : list Z) dates predictions st g
    dates' predictions' st' g' :
  loop offsets dates predictions st g = Returned (dates', predictions', st', g') ->
  exists ds ps,
    dates' = dates ++ ds /\ predictions' = predictions ++ ps
    /\ length ds = length offsets /\ length ps = length offsets.
Proof.
  revert dates predictions st g.
  induction offsets as [| i offsets IH]; intros dates predictions st g H.
  - injection H as <- <- <- <-. exists [], []. by rewrite !app_nil_r.
  - simpl in H. apply bind_returned_inv in H as ([[[d p] st1] g1] & Hd & H).
    apply IH in H as (ds & ps & -> & -> & Hds & Hps).
    exists (d :: ds), (p :: ps). rewrite <- !app_assoc. simpl.
    by rewrite Hds, Hps.
Qed.

(** A run of [n] turns that returns went through each turn [k < n]: the
    first [k] turns returned, turn [k] returned from what they carried, and
    what it appended is the [k]-th date and prediction of the run. *)
Lemma forecast_loop_turn (n : nat) st0 g dates_n predictions_n st_n g_n :
  loop (range n) [] [] st0 g = Returned (dates_n, predictions_n, st_n, g_n) ->
  forall k : nat, (k < n)%nat ->
  exists dates predictions st g0 d p st' g',
    loop (range k) [] [] st0 g = Returned (dates, predictions, st, g0)
    /\ day_of (Z.of_nat k) st g0 = Returned (d, p, st', g')
    /\ loop (range (S k)) [] [] st0 g
       = Returned (dates ++ [d], predictions ++ [p], st', g')
    /\ length dates = k /\ length predictions = k
    /\ dates_n !! k = Some d /\ predictions_n !! k = Some p.
Proof.
  intros Hn k Hk.
  rewrite (range_split (S k) n) in Hn by lia.
  rewrite forecast_loop_app in Hn.
  apply bind_returned_inv in Hn as ([[[ds1 ps1] st1] g1] & HSk & Hrest).
  pose proof HSk as HSk'. rewrite range_S, forecast_loop_app in HSk'.
  apply bind_returned_inv in HSk' as ([[[ds ps] st] g0] & Hk0 & Hturn).
  simpl in Hturn.
  apply bind_returned_inv in Hturn as ([[[d p] st'] g'] & Hd & Hret).
  injection Hret as <- <- <- <-.
  apply forecast_loop_appends in Hrest as (dsx & psx & -> & -> & _ & _).
  pose proof Hk0 as Hlen.
  apply forecast_loop_appends in Hlen as (ds' & ps' & -> & -> & Hds & Hps).
  rewrite range_length in Hds, Hps. simpl.
  exists ds', ps', st, g0, d, p, st', g'.
  repeat split; try done.
  - rewrite <- app_assoc. rewrite lookup_app_r by lia.
    by rewrite Hds, Nat.sub_diag.
  - rewrite <- app_assoc. rewrite lookup_app_r by lia.
    by rewrite Hps, Nat.sub_diag.
Qed.

#[local] Abbreviation run :=
  (update_7day_prediction model_predict expected_features np_random).

(** A run that shows a forecast is the loop of 7 turns from the initial
    state. *)
Lemma update_7day_prediction_forecast_inv n_clicks (l1 l2 l3 : R) (g : G)
    dates predictions g_end :
  run n_clicks humidity temperature (Some start_date_obj)
    (Some l1) (Some l2) (Some l3) g
  = Returned (Forecast dates predictions, g_end) ->
  exists st_end,
    loop (range 7) [] [] (initial_state l1 l2 l3) g
    = Returned (dates, predictions, st_end, g_end).
Proof.
  unfold update_7day_prediction. destruct (0 <? n_clicks)%Z; [| discriminate].
  rewrite bind_returned. intros H.
  apply bind_returned_inv in H as ([[[ds ps] st] g1] & Hloop & H).
  injection H as <- <- <-. by exists st.
Qed.

Lemma update_7day_prediction_lengths n_clicks (l1 l2 l3 : R) (g : G)
    dates predictions g_end :
  run n_clicks humidity temperature (Some start_date_obj)
    (Some l1) (Some l2) (Some l3) g
  = Returned (Forecast dates predictions, g_end) ->
  length predictions = 7%nat /\ length dates = 7%nat.
Proof.
  intros Hrun.
  apply update_7day_prediction_forecast_inv in Hrun as [st_end Hloop].
  apply forecast_loop_appends in Hloop as (ds & ps & -> & -> & Hds & Hps).
  by rewrite range_length in Hds, Hps.
Qed.

(** The loop returns when the predictor does and the dates stay in the
    calendar. *)
Lemma forecast_loop_returns (offsets : list Z) dates predictions st g :
  (exists known, truth expected_features = Returned known) ->
  (forall f, exists b, model_predict f = Returned b) ->
  Forall (fun i => (0 < toordinal start_date_obj + i <= MAXORDINAL)%Z)
    offsets ->
  exists r, loop offsets dates predictions st g = Returned r.
Proof.
  intros [known Htruth] Hmodel Hoff. revert dates predictions st g.
  induction Hoff as [| i offsets Hi _ IH]; intros; [by eexists |].
  simpl. unfold forecast_day at 1. unfold add_days.
  rewrite (proj2 (Z.ltb_lt _ _)), (proj2 (Z.leb_le _ _)) by lia.
  cbn [andb]. rewrite bind_returned.
  unfold features. rewrite Htruth, !bind_returned.
  match goal with |- context [model_predict ?f] =>
    destruct (Hmodel f) as [b ->] end.
  rewrite bind_returned. destruct (np_random g) as [u g1].
  rewrite bind_returned. apply IH.
Qed.

Lemma update_7day_prediction_returns n_clicks (l1 l2 l3 : R) (g : G) :
  (0 < n_clicks)%Z ->
  (exists known, truth expected_features = Returned known) ->
  (forall f, exists b, model_predict f = Returned b) ->
  (0 < toordinal start_date_obj)%Z ->
  (toordinal start_date_obj + 6 <= MAXORDINAL)%Z ->
  exists dates predictions g_end,
    run n_clicks humidity temperature (Some start_date_obj)
      (Some l1) (Some l2) (Some l3) g
    = Returned (Forecast dates predictions, g_end).
Proof.
  intros Hn Htruth Hmodel Hlo Hhi. unfold update_7day_prediction.
  rewrite (proj2 (Z.ltb_lt _ _)) by lia. rewrite bind_returned.
  destruct (forecast_loop_returns (range 7) [] [] (initial_state l1 l2 l3) g
              Htruth Hmodel) as [[[[ds ps] st] g1] ->].
  { repeat constructor; lia. }
  rewrite bind_returned. by eexists _, _, _.
Qed.

Lemma np_mean_3 (a b c : R) : np_mean [a; b; c] = (a + b + c) / 3.
Proof.
  unfold np_mean. cbn [fold_left length].
  change (IZR (Z.of_nat 3)) with 3. lra.
Qed.

Lemma initial_state_eq (l1 l2 l3 : R) :
  initial_state l1 l2 l3
  = {| pm25_current := l1; pm25_lag1d := l2;
       pm25_ma3d := (l1 + l2 + l3) / 3 |}.
Proof. unfold initial_state. by rewrite np_mean_3. Qed.

(** C1.  A run whose predictor answers and whose schema passes the truth
    test, from a date at least 6 days before the calendar's end, shows a
    forecast; in it the carried state starts as
    current = lag1, previousLag = lag2, movingAverage = mean(lag1, lag2,
    lag3); each of the 7 steps takes the state its predecessors left and
    leaves previousLag = the old current, current = the value it emits and
    movingAverage = mean(old movingAverage, new previousLag, new current).
    That average is the 3-period window mean of (old previousLag, old
    current, emitted value) only when the old movingAverage equals the old
    previousLag. *)
Theorem C1_carried_state n_clicks (l1 l2 l3 : R) (g : G) :
  ((0 < n_clicks)%Z ->
   (exists known, truth expected_features = Returned known) ->
   (forall f, exists b, model_predict f = Returned b) ->
   (0 < toordinal start_date_obj)%Z ->
   (toordinal start_date_obj + 6 <= MAXORDINAL)%Z ->
   exists dates predictions g_end,
     run n_clicks humidity temperature (Some start_date_obj)
       (Some l1) (Some l2) (Some l3) g
     = Returned (Forecast dates predictions, g_end))
  /\ forall dates predictions g_end,
  run n_clicks humidity temperature (Some start_date_obj)
    (Some l1) (Some l2) (Some l3) g
  = Returned (Forecast dates predictions, g_end) ->
  loop (range 0) [] [] (initial_state l1 l2 l3) g
  = Returned ([], [],
              {| pm25_current := l1; pm25_lag1d := l2;
                 pm25_ma3d := (l1 + l2 + l3) / 3 |}, g)
  /\ forall k : nat, (k < 7)%nat ->
     exists ds ps st g0 d adjustedValue st' g',
       loop (range k) [] [] (initial_state l1 l2 l3) g
       = Returned (ds, ps, st, g0)
       /\ loop (range (S k)) [] [] (initial_state l1 l2 l3) g
          = Returned (ds ++ [d], ps ++ [adjustedValue], st', g')
       /\ predictions !! k = Some adjustedValue
       /\ pm25_lag1d st' = pm25_current st
       /\ pm25_current st' = adjustedValue
       /\ pm25_ma3d st'
          = (pm25_ma3d st + pm25_lag1d st' + pm25_current st') / 3
       /\ (pm25_ma3d st'
           = (pm25_lag1d st + pm25_current st + adjustedValue) / 3
           <-> pm25_ma3d st = pm25_lag1d st).
Proof.
  split; [apply update_7day_prediction_returns |].
  intros dates predictions g_end Hrun. split.
  { simpl. by rewrite initial_state_eq. }
  apply update_7day_prediction_forecast_inv in Hrun as [st_end Hloop].
  intros k Hk.
  destruct (forecast_loop_turn 7 _ _ _ _ _ _ Hloop k Hk)
    as (ds & ps & st & g0 & d & p & st' & g' & Hk0 & Hday & HSk & _ & _
        & _ & Hp).
  apply forecast_day_inv in Hday as (base & _ & _ & _ & _ & ->).
  eexists ds, ps, st, g0, d, p, _, g'.
  split; [exact Hk0 |]. split; [exact HSk |].
  cbn [pm25_current pm25_lag1d pm25_ma3d]. rewrite np_mean_3.
  repeat split; try done; intros H; lra.
Qed.

(** C2.  A run whose predictor answers and whose schema passes the truth
    test, from a date at least 6 days before the calendar's end, shows a
    forecast; in it there are 7 emitted values, and the value of step i is
    baseValue * weekdayFactor * weatherCycleFactor * noiseFactor rounded to
    2 decimals: a whole number of hundredths, at most half a hundredth
    from the product.  baseValue is the predictor's output on the step's
    feature vector, noiseFactor comes from the step's draw, and
    weekdayFactor depends only on the weekday of startDate + i days, one of
    Monday (0) to Sunday (6): 1.0 from Monday to Friday, 0.90 on Saturday,
    0.85 on Sunday. *)
Theorem C2_emitted_value n_clicks (l1 l2 l3 : R) (g : G) :
  ((0 < n_clicks)%Z ->
   (exists known, truth expected_features = Returned known) ->
   (forall f, exists b, model_predict f = Returned b) ->
   (0 < toordinal start_date_obj)%Z ->
   (toordinal start_date_obj + 6 <= MAXORDINAL)%Z ->
   exists dates predictions g_end,
     run n_clicks humidity temperature (Some start_date_obj)
       (Some l1) (Some l2) (Some l3) g
     = Returned (Forecast dates predictions, g_end))
  /\ forall dates predictions g_end,
  run n_clicks humidity temperature (Some start_date_obj)
    (Some l1) (Some l2) (Some l3) g
  = Returned (Forecast dates predictions, g_end) ->
  length predictions = 7%nat
  /\ length dates = 7%nat
  /\ forall i : nat, (i < 7)%nat ->
     exists ds ps st g0 d baseValue emitted,
       loop (range i) [] [] (initial_state l1 l2 l3) g
       = Returned (ds, ps, st, g0)
       /\ add_days start_date_obj (Z.of_nat i) = Returned d
       /\ dates !! i = Some d
       /\ features expected_features humidity temperature d st
            ≫= model_predict
          = Returned baseValue
       /\ predictions !! i = Some emitted
       /\ (exists n : Z, emitted = IZR n / 100)
       /\ (let product :=
             baseValue * weekday_factor (weekday d)
             * weather_factor (Z.of_nat i)
             * random_factor (np_random g0).1 in
           product - 0.005 <= emitted <= product + 0.005)
       /\ (0 <= weekday d <= 6)%Z
       /\ ((0 <= weekday d <= 4)%Z -> weekday_factor (weekday d) = 1)
       /\ (weekday d = 5%Z -> weekday_factor (weekday d) = 0.9)
       /\ (weekday d = 6%Z -> weekday_factor (weekday d) = 0.85).
Proof.
  split; [apply update_7day_prediction_returns |].
  intros dates predictions g_end Hrun.
  apply update_7day_prediction_forecast_inv in Hrun as [st_end Hloop].
  pose proof (forecast_loop_appends _ _ _ _ _ _ _ _ _ Hloop)
    as (ds7 & ps7 & Hds7 & Hps7 & Hds & Hps).
  rewrite range_length in Hds, Hps. simpl in Hds7, Hps7. subst ds7 ps7.
  split; [exact Hps |]. split; [exact Hds |].
  intros i Hi.
  destruct (forecast_loop_turn 7 _ _ _ _ _ _ Hloop i Hi)
    as (ds & ps & st & g0 & d & p & st' & g' & Hk0 & Hday & _ & _ & _
        & Hd & Hp).
  apply forecast_day_inv in Hday as (base & Hadd & Hbase & Hround & _ & _).
  exists ds, ps, st, g0, d, base, p.
  pose proof (weekday_factor_cases (weekday d)) as (H1 & H5 & H6).
  pose proof (round2_nearest
                (base * weekday_factor (weekday d)
                 * weather_factor (Z.of_nat i)
                 * random_factor (np_random g0).1)) as [Hnear Hhund].
  rewrite <- Hround in Hnear, Hhund.
  assert (Hnear' : - (1 / 200)
                   <= p - base * weekday_factor (weekday d)
                          * weather_factor (Z.of_nat i)
                          * random_factor (np_random g0).1
                   <= 1 / 200).
  { unfold Rabs in Hnear.
    destruct (Rcase_abs _) as [Hsign | Hsign] in Hnear; lra. }
  assert (Hwd : (0 <= weekday d <= 6)%Z).
  { unfold weekday. pose proof (Z.mod_pos_bound (toordinal d + 6) 7). lia. }
  repeat split; try done; try lia; cbv zeta; lra.
Qed.

(** An exception of the predictor at the first step leaves the callback. *)
Lemma update_7day_prediction_raises n_clicks (l1 l2 l3 : R) (g : G) (e : exn) :
  (0 < n_clicks)%Z ->
  (exists known, truth expected_features = Returned known) ->
  (forall f, model_predict f = Raised e) ->
  (0 < toordinal start_date_obj <= MAXORDINAL)%Z ->
  run n_clicks humidity temperature (Some start_date_obj)
    (Some l1) (Some l2) (Some l3) g
  = Raised e.
Proof.
  intros Hn [known Htruth] Hmodel Hdate. unfold update_7day_prediction.
  rewrite (proj2 (Z.ltb_lt _ _)) by lia. rewrite bind_returned.
  change (range 7) with (0%Z :: map Z.of_nat (seq 1 6)).
  cbn [forecast_loop]. unfold forecast_day, add_days.
  rewrite Z.add_0_r.
  rewrite (proj2 (Z.ltb_lt _ _)), (proj2 (Z.leb_le _ _)) by lia.
  cbn [andb]. rewrite bind_returned.
  unfold features. rewrite Htruth, !bind_returned. by rewrite Hmodel.
Qed.

End SevenDayLoop.

(** ** Runs with the draw fixed *)
Section FixedDraw.
Import Calendar SevenDay.
Open Scope R_scope.

Context (model_predict : frame R -> outcome R).
Context (expected_features : schema).
Context {G1 G2 : Type} (random1 : G1 -> R * G1) (random2 : G2 -> R * G2).
Context (humidity temperature : option R).
Hypothesis fixed1 : forall g, (random1 g).1 = 0.5.
Hypothesis fixed2 : forall g, (random2 g).1 = 0.5.

Lemma forecast_day_fixed start_date_obj day_offset st g1 g2 :
  ungenerated (forecast_day model_predict expected_features random1
                 humidity temperature start_date_obj day_offset st g1)
  = ungenerated (forecast_day model_predict expected_features random2
                   humidity temperature start_date_obj day_offset st g2).
Proof using fixed1 fixed2.
  unfold forecast_day.
  destruct (add_days start_date_obj day_offset) as [e | d]; [reflexivity |].
  rewrite !bind_returned.
  destruct (features _ _ _ _ _) as [e | f]; [reflexivity |].
  rewrite !bind_returned.
  destruct (model_predict _) as [e | base]; [reflexivity |].
  rewrite !bind_returned.
  pose proof (fixed1 g1) as H1. pose proof (fixed2 g2) as H2.
  destruct (random1 g1) as [u1 g1'], (random2 g2) as [u2 g2'].
  simpl in H1, H2. subst u1 u2. reflexivity.
Qed.

Lemma forecast_loop_fixed start_date_obj offsets dates predictions st g1 g2 :
  ungenerated (forecast_loop model_predict expected_features random1
                 humidity temperature start_date_obj offsets dates
                 predictions st g1)
  = ungenerated (forecast_loop model_predict expected_features random2
                   humidity temperature start_date_obj offsets dates
                   predictions st g2).
Proof using fixed1 fixed2.
  revert dates predictions st g1 g2.
  induction offsets as [| i offsets IH]; intros; [reflexivity |].
  cbn [forecast_loop].
  pose proof (forecast_day_fixed start_date_obj i st g1 g2) as Hday.
  destruct (forecast_day _ _ random1 _ _ _ _ _ _) as [e1 | [[[d1 p1] st1] g1']],
           (forecast_day _ _ random2 _ _ _ _ _ _) as [e2 | [[[d2 p2] st2] g2']];
    simpl in Hday; try discriminate Hday.
  - injection Hday as ->. reflexivity.
  - injection Hday as -> -> ->. rewrite !bind_returned. apply IH.
Qed.

(** Two runs on the same inputs show the same result, whatever state
    their random sources are in. *)
Lemma update_7day_prediction_fixed n_clicks (start_date : option date)
    (pm25_1d_ago pm25_2d_ago pm25_3d_ago : option R) (g1 : G1) (g2 : G2) :
  shown (update_7day_prediction model_predict expected_features random1
           n_clicks humidity temperature start_date
           pm25_1d_ago pm25_2d_ago pm25_3d_ago g1)
  = shown (update_7day_prediction model_predict expected_features random2
             n_clicks humidity temperature start_date
             pm25_1d_ago pm25_2d_ago pm25_3d_ago g2).
Proof using fixed1 fixed2.
  unfold update_7day_prediction.
  destruct (0 <? n_clicks)%Z; [| reflexivity].
  destruct start_date as [start |]; [| reflexivity].
  rewrite !bind_returned.
  destruct pm25_1d_ago as [l1 |], pm25_2d_ago as [l2 |],
    pm25_3d_ago as [l3 |]; try reflexivity.
  pose proof (forecast_loop_fixed start (range 7) [] []
                (initial_state l1 l2 l3) g1 g2) as Hloop.
  destruct (forecast_loop _ _ random1 _ _ _ _ _ _ _ _)
    as [e1 | [[[ds1 ps1] st1] g1']],
    (forecast_loop _ _ random2 _ _ _ _ _ _ _ _)
    as [e2 | [[[ds2 ps2] st2] g2']];
    simpl in Hloop; try discriminate Hloop.
  - injection Hloop as ->. reflexivity.
  - injection Hloop as -> -> ->. reflexivity.
Qed.

(** C6.  With the draw fixed at U = 0.5 the noise factor is exactly 1, and
    two runs of the 7-day forecast on the same inputs (start date,
    humidity, temperature, lag values, predictor) show the same result,
    whatever random sources they draw from and whatever state these are
    in.  When the run is triggered, the schema passes the truth test, the
    predictor answers and the start date is at least 6 days before the
    calendar's end, both runs produce the same sequence of 7 dates and the
    same sequence of 7 values, the value of step i being the predictor's
    output times the weekday factor times the weather factor, rounded to 2
    decimals, with no noise in it.  The fixing is needed: on Scenario A a
    source that draws 0.5 and one that draws 0 give different values. *)
Theorem C6_fixed_draw_determinism n_clicks (start_date : option date)
    (pm25_1d_ago pm25_2d_ago pm25_3d_ago : option R) (g1 : G1) (g2 : G2) :
  random_factor 0.5 = 1
  /\ shown (update_7day_prediction model_predict expected_features random1
              n_clicks humidity temperature start_date
              pm25_1d_ago pm25_2d_ago pm25_3d_ago g1)
     = shown (update_7day_prediction model_predict expected_features random2
                n_clicks humidity temperature start_date
                pm25_1d_ago pm25_2d_ago pm25_3d_ago g2)
  /\ (forall start_date_obj l1 l2 l3,
        (0 < n_clicks)%Z ->
        start_date = Some start_date_obj ->
        pm25_1d_ago = Some l1 -> pm25_2d_ago = Some l2 ->
        pm25_3d_ago = Some l3 ->
        (exists known, truth expected_features = Returned known) ->
        (forall f, exists b, model_predict f = Returned b) ->
        (0 < toordinal start_date_obj)%Z ->
        (toordinal start_date_obj + 6 <= MAXORDINAL)%Z ->
        exists dates predictions,
          shown (update_7day_prediction model_predict expected_features
                   random1 n_clicks humidity temperature start_date
                   pm25_1d_ago pm25_2d_ago pm25_3d_ago g1)
          = Returned (Forecast dates predictions)
          /\ shown (update_7day_prediction model_predict expected_features
                      random2 n_clicks humidity temperature start_date
                      pm25_1d_ago pm25_2d_ago pm25_3d_ago g2)
             = Returned (Forecast dates predictions)
          /\ length dates = 7%nat /\ length predictions = 7%nat
          /\ forall i : nat, (i < 7)%nat ->
             exists ds ps st g0 d baseValue emitted,
               forecast_loop model_predict expected_features random1
                 humidity temperature start_date_obj (range i) [] []
                 (initial_state l1 l2 l3) g1
               = Returned (ds, ps, st, g0)
               /\ dates !! i = Some d
               /\ add_days start_date_obj (Z.of_nat i) = Returned d
               /\ features expected_features humidity temperature d st
                    ≫= model_predict
                  = Returned baseValue
               /\ predictions !! i = Some emitted
               /\ (exists n : Z, emitted = IZR n / 100)
               /\ (let product :=
                     baseValue * weekday_factor (weekday d)
                     * weather_factor (Z.of_nat i) in
                   product - 0.005 <= emitted <= product + 0.005))
  /\ shown (update_7day_prediction (constant_model 20) (PyList [])
              stub_source 1 (Some 60) (Some 25) (Some (mkdate 2024 1 5))
              (Some 20) (Some 20) (Some 20) 0%nat)
     <> shown (update_7day_prediction (constant_model 20) (PyList [])
                 low_source 1 (Some 60) (Some 25) (Some (mkdate 2024 1 5))
                 (Some 20) (Some 20) (Some 20) 0%nat).
Proof using fixed1 fixed2.
  split; [apply random_factor_half |].
  split; [apply update_7day_prediction_fixed |]. split.
  - intros start l1 l2 l3 Hn -> -> -> -> Htruth Hmodel Hlo Hhi.
    destruct (update_7day_prediction_returns model_predict expected_features
                random1 humidity temperature start n_clicks l1 l2 l3 g1
                Hn Htruth Hmodel Hlo Hhi)
      as (dates & predictions & g_end & Hrun).
    pose proof (update_7day_prediction_fixed n_clicks (Some start) (Some l1)
                  (Some l2) (Some l3) g1 g2) as Hsame.
    exists dates, predictions. rewrite <- Hsame, Hrun.
    split; [reflexivity |]. split; [reflexivity |].
    destruct (update_7day_prediction_lengths _ _ _ _ _ _ _ _ _ _ _ _ _ _
                Hrun) as [Hps Hds].
    split; [exact Hds |]. split; [exact Hps |].
    apply update_7day_prediction_forecast_inv in Hrun as [st_end Hloop].
    intros i Hi.
    destruct (forecast_loop_turn _ _ _ _ _ _ 7 _ _ _ _ _ _ Hloop i Hi)
      as (ds & ps & st & g0 & d & p & st' & g' & Hk0 & Hday & _ & _ & _
          & Hd & Hp).
    apply forecast_day_inv in Hday as (base & Hadd & Hbase & Hround & _ & _).
    exists ds, ps, st, g0, d, base, p.
    rewrite fixed1, random_factor_half, Rmult_1_r in Hround.
    pose proof (round2_nearest
                  (base * weekday_factor (weekday d)
                   * weather_factor (Z.of_nat i))) as [Hnear Hhund].
    rewrite <- Hround in Hnear, Hhund.
    assert (Hnear' : - (1 / 200)
                     <= p - base * weekday_factor (weekday d)
                            * weather_factor (Z.of_nat i)
                     <= 1 / 200).
    { unfold Rabs in Hnear.
      destruct (Rcase_abs _) as [Hsign | Hsign] in Hnear; lra. }
    repeat split; try done; cbv zeta; lra.
  - intros Hsame.
    assert (H0 : round2 (20 * 1.0 * weather_factor 0 * random_factor 0.5)
                 = round2 (20 * 1.0 * weather_factor 0 * random_factor 0)).
    { apply (f_equal (fun r => match r with
                               | Returned (Forecast _ (p :: _)) => p
                               | _ => 0
                               end)) in Hsame.
      exact Hsame. }
    rewrite (weather_factor_phase_0 0) in H0 by reflexivity.
    unfold random_factor in H0.
    replace (20 * 1.0 * 1 * (1.0 + 0.03 * (0.5 - 0.5))) with (IZR 2000 / 100)
      in H0 by lra.
    replace (20 * 1.0 * 1 * (1.0 + 0.03 * (0 - 0.5))) with (IZR 1970 / 100)
      in H0 by lra.
    rewrite !round2_hundredths in H0. lra.
Qed.

End FixedDraw.

(** ** Scenario A of the specification: 2024-01-05, a Friday *)

Section ScenarioA.
Import Calendar SevenDay.
Open Scope R_scope.

(** The dates of the run and their weekdays: Friday, Saturday, Sunday,
    Monday. *)
Lemma scenario_A_calendar :
  add_days (mkdate 2024 1 5) 1 = Returned (mkdate 2024 1 6)
  /\ add_days (mkdate 2024 1 5) 2 = Returned (mkdate 2024 1 7)
  /\ add_days (mkdate 2024 1 5) 3 = Returned (mkdate 2024 1 8)
  /\ weekday (mkdate 2024 1 5) = 4%Z /\ weekday (mkdate 2024 1 6) = 5%Z
  /\ weekday (mkdate 2024 1 7) = 6%Z /\ weekday (mkdate 2024 1 8) = 0%Z.
Proof. repeat split; reflexivity. Qed.

(** On the Friday (step 0) every factor is 1 and the value emitted is the
    predictor's 20; on the Monday (step 3) too. *)
Lemma scenario_A_weekday_steps :
  round2 (20 * weekday_factor 4 * weather_factor 0 * random_factor 0.5) = 20
  /\ round2 (20 * weekday_factor 0 * weather_factor 3 * random_factor 0.5)
     = 20.
Proof.
  rewrite !weather_factor_phase_0 by reflexivity.
  rewrite random_factor_half. unfold weekday_factor. simpl.
  replace (20 * 1.0 * 1 * 1) with (IZR 2000 / 100) by lra.
  rewrite round2_hundredths. split; lra.
Qed.

(** The whole run: seven dated values, the Saturday's and the Sunday's
    scaled by 0.9 and 0.85. *)
Lemma scenario_A_run :
  update_7day_prediction (constant_model 20) (PyList []) stub_source 1
    (Some 60) (Some 25) (Some (mkdate 2024 1 5))
    (Some 20) (Some 20) (Some 20) 0%nat
  = Returned
      (Forecast
         [mkdate 2024 1 5; mkdate 2024 1 6; mkdate 2024 1 7; mkdate 2024 1 8;
          mkdate 2024 1 9; mkdate 2024 1 10; mkdate 2024 1 11]
         [round2 (20 * 1.0 * weather_factor 0 * random_factor 0.5);
          round2 (20 * 0.9 * weather_factor 1 * random_factor 0.5);
          round2 (20 * 0.85 * weather_factor 2 * random_factor 0.5);
          round2 (20 * 1.0 * weather_factor 3 * random_factor 0.5);
          round2 (20 * 1.0 * weather_factor 4 * random_factor 0.5);
          round2 (20 * 1.0 * weather_factor 5 * random_factor 0.5);
          round2 (20 * 1.0 * weather_factor 6 * random_factor 0.5)],
       7%nat).
Proof. reflexivity. Qed.

Lemma C2_emitted_value_witness :
  exists dates predictions g_end emitted,
    update_7day_prediction (constant_model 20) (PyList []) stub_source 1
      (Some 60) (Some 25) (Some (mkdate 2024 1 5))
      (Some 20) (Some 20) (Some 20) 0%nat
    = Returned (Forecast dates predictions, g_end)
    /\ length predictions = 7%nat
    /\ dates !! 1%nat = Some (mkdate 2024 1 6)
    /\ predictions !! 1%nat = Some emitted
    /\ (exists n : Z, emitted = IZR n / 100)
    /\ 20 * 0.9 * weather_factor 1 * random_factor 0.5 - 0.005
       <= emitted
       <= 20 * 0.9 * weather_factor 1 * random_factor 0.5 + 0.005.
Proof.
  destruct (C2_emitted_value (constant_model 20) (PyList []) stub_source
              (Some 60) (Some 25) (mkdate 2024 1 5) 1 20 20 20 0%nat)
    as [Hreturns Hvalues].
  destruct Hreturns as (dates & predictions & g_end & Hrun);
    [lia | by eexists | by eexists | reflexivity | by vm_compute |].
  destruct (Hvalues _ _ _ Hrun) as (Hlen & _ & Hstep).
  destruct (Hstep 1%nat ltac:(lia))
    as (ds & ps & st & g0 & d & base & emitted & _ & Hd & Hdate & Hbase & Hp
        & Hhund & Hnear & _ & _ & H5 & _).
  exists dates, predictions, g_end, emitted.
  injection Hd as <-. injection Hbase as <-.
  rewrite H5 in Hnear by reflexivity.
  repeat split; try done; apply Hnear.
Defined.

Lemma C1_carried_state_witness :
  exists dates predictions g_end,
    update_7day_prediction (constant_model 20) (PyList []) stub_source 1
      (Some 60) (Some 25) (Some (mkdate 2024 1 5))
      (Some 20) (Some 20) (Some 20) 0%nat
    = Returned (Forecast dates predictions, g_end)
    /\ exists adjustedValue st',
        forecast_loop (constant_model 20) (PyList []) stub_source (Some 60) (Some 25)
          (mkdate 2024 1 5) (range 1) [] [] (initial_state 20 20 20) 0%nat
        = Returned ([mkdate 2024 1 5], [adjustedValue], st', 1%nat)
        /\ predictions !! 0%nat = Some adjustedValue
        /\ pm25_lag1d st' = 20
        /\ pm25_current st' = adjustedValue
        /\ pm25_ma3d st' = (20 + 20 + adjustedValue) / 3.
Proof.
  destruct (C1_carried_state (constant_model 20) (PyList []) stub_source
              (Some 60) (Some 25) (mkdate 2024 1 5) 1 20 20 20 0%nat)
    as [Hreturns Hstate].
  destruct Hreturns as (dates & predictions & g_end & Hrun);
    [lia | by eexists | by eexists | reflexivity | by vm_compute |].
  exists dates, predictions, g_end. split; [exact Hrun |].
  destruct (Hstate _ _ _ Hrun) as (H0 & Hstep).
  destruct (Hstep 0%nat ltac:(lia))
    as (ds & ps & st & g0 & d & adj & st' & g' & Hk & HSk & Hp & Hlag & Hcur
        & Hma & _).
  rewrite H0 in Hk. injection Hk as <- <- <- <-.
  exists adj, st'. split.
  - eassert (Hc : forecast_loop (constant_model 20) (PyList []) stub_source
                     (Some 60) (Some 25) (mkdate 2024 1 5) (range 1) [] []
                     (initial_state 20 20 20) 0%nat
                   = Returned ([mkdate 2024 1 5], _, _, 1%nat))
      by reflexivity.
    rewrite Hc in HSk |- *. injection HSk as Hd Hadj Hst Hg.
    subst adj st'. reflexivity.
  - split; [exact Hp |]. split; [exact Hlag |]. split; [exact Hcur |].
    rewrite Hma, Hlag, Hcur. simpl. lra.
Defined.

Lemma C6_fixed_draw_determinism_witness :
  exists dates predictions,
    shown (update_7day_prediction (constant_model 20) (PyList [])
             stub_source 1 (Some 60) (Some 25) (Some (mkdate 2024 1 5))
             (Some 20) (Some 20) (Some 20) 0%nat)
    = Returned (Forecast dates predictions)
    /\ shown (update_7day_prediction (constant_model 20) (PyList [])
                stub_source 1 (Some 60) (Some 25) (Some (mkdate 2024 1 5))
                (Some 20) (Some 20) (Some 20) 5%nat)
       = Returned (Forecast dates predictions)
    /\ length dates = 7%nat /\ length predictions = 7%nat.
Proof.
  destruct (C6_fixed_draw_determinism (constant_model 20) (PyList [])
              stub_source stub_source (Some 60) (Some 25)
              (fun _ => eq_refl) (fun _ => eq_refl) 1
              (Some (mkdate 2024 1 5)) (Some 20) (Some 20) (Some 20)
              0%nat 5%nat) as (_ & _ & H & _).
  destruct (H (mkdate 2024 1 5) 20 20 20)
    as (dates & predictions & H1 & H2 & Hds & Hps & _);
    [lia | reflexivity | reflexivity | reflexivity | reflexivity
     | by eexists | by eexists | reflexivity | by vm_compute |].
  by exists dates, predictions.
Defined.

End ScenarioA.

(** ** Exceptions at the run boundary *)
Section RunBoundary.
Import Calendar.

(** The PM10 callback catches what its body raises and shows the error, and
    no curve. *)
Lemma update_pm10_prediction_catches pm10_model_predict
    pm10_expected_features n_clicks humidity temperature date hour
    current_pm10 pm10_lag_1 pm10_lag_3 pm10_lag_6 pm10_lag_24 (e : exn) :
  (0 < n_clicks)%Z ->
  PM10.prediction_body pm10_model_predict pm10_expected_features
    humidity temperature date hour current_pm10 pm10_lag_1 pm10_lag_3
    pm10_lag_6 pm10_lag_24 = Raised e ->
  PM10.update_pm10_prediction true pm10_model_predict pm10_expected_features
    n_clicks humidity temperature date hour current_pm10 pm10_lag_1
    pm10_lag_3 pm10_lag_6 pm10_lag_24
  = PM10.PredictionError e.
Proof.
  intros Hn Hbody. unfold PM10.update_pm10_prediction.
  rewrite (proj2 (Z.ltb_lt _ _)) by lia. cbn [andb]. by rewrite Hbody.
Qed.

(** A forecast the PM10 callback shows is the diurnal pattern from the
    current value to the prediction, for a start hour in 0..23. *)
Lemma update_pm10_prediction_forecast_inv pm10_model_loaded
    pm10_model_predict pm10_expected_features n_clicks humidity temperature
    date hour current_pm10 pm10_lag_1 pm10_lag_3 pm10_lag_6 pm10_lag_24
    prediction pm10_values :
  PM10.update_pm10_prediction pm10_model_loaded pm10_model_predict
    pm10_expected_features n_clicks humidity temperature date hour
    current_pm10 pm10_lag_1 pm10_lag_3 pm10_lag_6 pm10_lag_24
  = PM10.Forecast prediction pm10_values ->
  exists current : Q,
    current_pm10 = Some current
    /\ (0 <= hour <= 23)%Z
    /\ pm10_values = PM10.diurnal_pattern current prediction hour
    /\ length pm10_values = 25%nat.
Proof.
  unfold PM10.update_pm10_prediction, PM10.prediction_body.
  destruct ((0 <? n_clicks)%Z && pm10_model_loaded);
    [| destruct ((0 <? n_clicks)%Z && negb pm10_model_loaded); discriminate].
  destruct date as [d |]; [| discriminate]. rewrite bind_returned.
  destruct current_pm10 as [c |], pm10_lag_1 as [l1 |], pm10_lag_3 as [l3 |],
    pm10_lag_6 as [l6 |], pm10_lag_24 as [l24 |]; try discriminate.
  destruct ((0 <=? hour)%Z && (hour <=? 23)%Z) eqn:Hhour; [| discriminate].
  rewrite bind_returned.
  destruct (PM10.features _ _ _ _ _ _ _ _ _ _) as [e | f]; [discriminate |].
  rewrite bind_returned.
  destruct (bool_decide _); [| discriminate]. rewrite bind_returned.
  destruct (pm10_model_predict _) as [e | p]; [discriminate |].
  rewrite bind_returned.
  destruct (add_days d 1) as [e | d']; [discriminate |].
  rewrite bind_returned. simpl. intros [= <- <-].
  exists c. split; [done |]. split; [lia |]. split; [done |].
  unfold PM10.diurnal_pattern. by rewrite length_map, range_length.
Qed.

(** Scenario B of the specification: the statistics shown and the run at
    7 o'clock, with a predictor that answers 40. *)
Lemma scenario_B :
  PM10.update_pm10_averages (Some 30%Q) (Some 28%Q) (Some 25%Q) (Some 22%Q)
    (Some 28%Q)
  = ("26.25", "26.60", "27.60")%string
  /\ exists pm10_values,
      PM10.update_pm10_prediction true (constant_model 40%Q) (PyList []) 1
        (Some 60%Q) (Some 25%Q) (Some (mkdate 2024 1 5)) 7
        (Some 30%Q) (Some 28%Q) (Some 25%Q) (Some 22%Q) (Some 28%Q)
      = PM10.Forecast 40%Q pm10_values
      /\ length pm10_values = 25%nat
      /\ exists first last,
          pm10_values !! 0%nat = Some first /\ (first == 33)%Q
          /\ pm10_values !! 24%nat = Some last /\ (last == 44)%Q.
Proof.
  split; [reflexivity |]. eexists. split; [reflexivity |].
  split; [reflexivity |]. eexists _, _.
  split; [reflexivity |]. split; [reflexivity |].
  split; reflexivity.
Qed.

(** C5 fails on the code.  With a predictor that raises, the PM10 run
    catches the exception and shows an error, but the 7-day run, which has
    no handler, lets the same exception leave the callback; so it is with a
    lag field left empty. *)
Theorem C5_seven_day_run_does_not_catch :
  SevenDay.update_7day_prediction failing_model (PyList []) stub_source 1
    (Some 60%R) (Some 25%R) (Some (mkdate 2024 1 5))
    (Some 20%R) (Some 20%R) (Some 20%R) 0%nat
  = Raised (ModelError "predict failed")
  /\ PM10.update_pm10_prediction true failing_model (PyList []) 1
       (Some 60%Q) (Some 25%Q) (Some (mkdate 2024 1 5)) 7
       (Some 30%Q) (Some 28%Q) (Some 25%Q) (Some 22%Q) (Some 28%Q)
     = PM10.PredictionError (ModelError "predict failed")
  /\ SevenDay.update_7day_prediction (constant_model 20%R) (PyList []) stub_source 1
       (Some 60%R) (Some 25%R) (Some (mkdate 2024 1 5))
       None (Some 20%R) (Some 20%R) 0%nat
     = Raised TypeError
  /\ PM10.update_pm10_prediction true (constant_model 40%Q) (PyList []) 1
       (Some 60%Q) (Some 25%Q) (Some (mkdate 2024 1 5)) 7
       None (Some 28%Q) (Some 25%Q) (Some 22%Q) (Some 28%Q)
     = PM10.PredictionError TypeError.
Proof. repeat split; reflexivity. Qed.

End RunBoundary.

(** * Further properties of the code *)

(** ** The calendar: ordinals and weekdays of consecutive days *)
Section CalendarFacts.
Import Calendar.
Open Scope Z_scope.

(** Month and day from the day of the year, as [ord2ymd] finds them. *)
Lemma month_day_of_year (n : Z) (leapyear : bool) :
  0 <= n < 365 ->
  let m := Z.shiftr (n + 50) 5 in
  let preceding :=
    nth (Z.to_nat m) DAYS_BEFORE_MONTH 0
    + (if (2 <? m) && leapyear then 1 else 0) in
  exists m' d',
    (if n <? preceding then
       mkdate 0 (m - 1)
         (n - (preceding
               - (nth (Z.to_nat (m - 1)) DAYS_IN_MONTH 0
                  + (if (m - 1 =? 2) && leapyear then 1 else 0))) + 1)
     else mkdate 0 m (n - preceding + 1)) = mkdate 0 m' d'
    /\ 1 <= m' <= 12
    /\ 1 <= d'
    /\ nth (Z.to_nat m') DAYS_BEFORE_MONTH 0
       + (if (2 <? m') && leapyear then 1 else 0) + d' = n + 1.
Proof.
  intros Hn. cbv zeta. rewrite Z.shiftr_div_pow2 by lia.
  change (2 ^ 5) with 32.
  assert (Hm : 1 <= (n + 50) / 32 <= 12) by (Z.div_mod_to_equations; lia).
  remember ((n + 50) / 32) as m eqn:Em.
  assert (Hcase : m = 1 \/ m = 2 \/ m = 3 \/ m = 4 \/ m = 5 \/ m = 6 \/ m = 7
                  \/ m = 8 \/ m = 9 \/ m = 10 \/ m = 11 \/ m = 12) by lia.
  destruct leapyear;
    repeat (destruct Hcase as [Hc | Hcase]); try rename Hcase into Hc;
    rewrite Hc in *; simpl;
    match goal with
    | |- context [if ?c then _ else _] => destruct c eqn:Hlt
    end;
    eexists _, _; (split; [reflexivity |]); simpl;
    (apply Z.ltb_lt in Hlt || apply Z.ltb_ge in Hlt);
    Z.div_mod_to_equations; lia.
Qed.

Lemma is_leap_spec (y : Z) :
  is_leap y = true <-> y mod 4 = 0 /\ (y mod 100 <> 0 \/ y mod 400 = 0).
Proof.
  unfold is_leap. rewrite andb_true_iff, orb_true_iff, negb_true_iff.
  rewrite !Z.eqb_eq, Z.eqb_neq. reflexivity.
Qed.

Lemma toordinal_ord2ymd (n : Z) : 0 < n -> toordinal (ord2ymd n) = n.
Proof.
  intros Hn. unfold ord2ymd. cbv zeta. unfold DI400Y, DI100Y, DI4Y.
  set (n0 := n - 1).
  set (n400 := n0 / 146097). set (r400 := n0 mod 146097).
  set (n100 := r400 / 36524). set (r100 := r400 mod 36524).
  set (n4 := r100 / 1461). set (r4 := r100 mod 1461).
  set (n1 := r4 / 365). set (r1 := r4 mod 365).
  assert (H400 : n0 = 146097 * n400 + r400 /\ 0 <= r400 < 146097)
    by (subst n400 r400; Z.div_mod_to_equations; lia).
  assert (H100 : r400 = 36524 * n100 + r100 /\ 0 <= r100 < 36524)
    by (subst n100 r100; Z.div_mod_to_equations; lia).
  assert (H4 : r100 = 1461 * n4 + r4 /\ 0 <= r4 < 1461)
    by (subst n4 r4; Z.div_mod_to_equations; lia).
  assert (H1 : r4 = 365 * n1 + r1 /\ 0 <= r1 < 365)
    by (subst n1 r1; Z.div_mod_to_equations; lia).
  assert (Hn0 : 0 <= n0) by (subst n0; lia).
  assert (Hnn : n = n0 + 1) by (subst n0; lia).
  clearbody n400 r400 n100 r100 n4 r4 n1 r1 n0. subst n. clear Hn.
  destruct ((n1 =? 4) || (n100 =? 4)) eqn:Hend.
  - unfold toordinal, ymd2ord, days_before_year, days_before_month. simpl.
    apply orb_true_iff in Hend. rewrite !Z.eqb_eq in Hend.
    destruct (is_leap _) eqn:Hleap.
    + Z.div_mod_to_equations. lia.
    + exfalso. apply not_true_iff_false in Hleap. apply Hleap.
      apply is_leap_spec. Z.div_mod_to_equations. lia.
  - apply orb_false_iff in Hend. rewrite !Z.eqb_neq in Hend.
    set (leapyear := (n1 =? 3) && (negb (n4 =? 24) || (n100 =? 3))).
    destruct (month_day_of_year r1 leapyear ltac:(lia))
      as (m' & d' & Hmd & Hm' & Hd' & Hsum).
    cbv zeta in Hmd.
    match goal with
    | |- toordinal (if ?c then _ else _) = _ =>
        destruct c;
        pose proof (f_equal month Hmd) as Hm;
        pose proof (f_equal day Hmd) as Hd;
        cbn [month day] in Hm, Hd
    end;
      unfold toordinal, ymd2ord, days_before_year, days_before_month;
      cbn [year month day]; rewrite Hd, Hm;
      (replace (is_leap (n400 * 400 + 1 + n100 * 100 + n4 * 4 + n1))
         with leapyear;
       [ Z.div_mod_to_equations; lia
       | subst leapyear; apply eq_true_iff_eq;
         rewrite is_leap_spec, andb_true_iff, orb_true_iff, negb_true_iff,
           !Z.eqb_eq, Z.eqb_neq;
         Z.div_mod_to_equations; lia ]).
Qed.

Lemma returned_inj {A} (a b : A) : Returned a = Returned b -> a = b.
Proof. congruence. Qed.

(** The date [k] days on has the ordinal [k] higher, and its weekday is [k]
    weekdays on. *)
Lemma add_days_returned (d d' : date) (k : Z) :
  add_days d k = Returned d' ->
  0 < toordinal d + k <= MAXORDINAL
  /\ d' = ord2ymd (toordinal d + k)
  /\ toordinal d' = toordinal d + k
  /\ weekday d' = (weekday d + k) mod 7.
Proof.
  unfold add_days.
  destruct (0 <? toordinal d + k) eqn:Hlo; [| discriminate].
  destruct (toordinal d + k <=? MAXORDINAL) eqn:Hhi; [| discriminate].
  apply Z.ltb_lt in Hlo. apply Z.leb_le in Hhi.
  intros Hd%returned_inj.
  assert (Hord : toordinal d' = toordinal d + k).
  { rewrite <- Hd. apply toordinal_ord2ymd. lia. }
  split; [lia |]. split; [by rewrite Hd |]. split; [exact Hord |].
  unfold weekday. rewrite Hord.
  rewrite Z.add_mod_idemp_l by lia. f_equal. lia.
Qed.

End CalendarFacts.

(** ** The 7-day run: dates, draws, exceptions, feedback *)
Section SevenDayRun.
Import Calendar SevenDay.
Open Scope R_scope.

Context (model_predict : frame R -> outcome R).
Context (expected_features : schema).
Context {G : Type} (np_random : G -> R * G).
Context (humidity temperature : option R) (start_date_obj : date).

#[local] Abbreviation day_of :=
  (forecast_day model_predict expected_features np_random humidity temperature
     start_date_obj).
#[local] Abbreviation loop :=
  (forecast_loop model_predict expected_features np_random humidity
     temperature start_date_obj).
#[local] Abbreviation run :=
  (update_7day_prediction model_predict expected_features np_random).
#[local] Abbreviation next := (fun g : G => (np_random g).2).

Lemma forecast_dates_are_consecutive_aux n_clicks (l1 l2 l3 : R) (g : G)
    dates predictions g_end :
  run n_clicks humidity temperature (Some start_date_obj)
    (Some l1) (Some l2) (Some l3) g
  = Returned (Forecast dates predictions, g_end) ->
  forall i : nat, (i < 7)%nat ->
  exists d,
    dates !! i = Some d
    /\ weekday d = ((weekday start_date_obj + Z.of_nat i) mod 7)%Z.
Proof.
  intros Hrun i Hi.
  apply update_7day_prediction_forecast_inv in Hrun as [st_end Hloop].
  edestruct forecast_loop_turn
    as (ds & ps & st & g0 & d & p & st' & g' & _ & Hday & _ & _ & _ & Hd & _);
    [exact Hloop | exact Hi |].
  apply forecast_day_inv in Hday as (base & Hadd & _).
  apply add_days_returned in Hadd as (_ & _ & _ & Hwd).
  exists d. done.
Qed.

(** X1.  The dates of a forecast are the 7 consecutive days from the start
    date: step i's date has the start date's ordinal plus i, and its
    weekday is the start date's weekday plus i, modulo 7. *)
Theorem forecast_dates_are_consecutive n_clicks (l1 l2 l3 : R) (g : G)
    dates predictions g_end :
  run n_clicks humidity temperature (Some start_date_obj)
    (Some l1) (Some l2) (Some l3) g
  = Returned (Forecast dates predictions, g_end) ->
  forall i : nat, (i < 7)%nat ->
  exists d,
    dates !! i = Some d
    /\ d = ord2ymd (toordinal start_date_obj + Z.of_nat i)
    /\ toordinal d = (toordinal start_date_obj + Z.of_nat i)%Z
    /\ weekday d = ((weekday start_date_obj + Z.of_nat i) mod 7)%Z.
Proof.
  intros Hrun i Hi.
  apply update_7day_prediction_forecast_inv in Hrun as [st_end Hloop].
  edestruct forecast_loop_turn
    as (ds & ps & st & g0 & d & p & st' & g' & _ & Hday & _ & _ & _ & Hd & _);
    [exact Hloop | exact Hi |].
  apply forecast_day_inv in Hday as (base & Hadd & _).
  apply add_days_returned in Hadd as (_ & Heq & Hord & Hwd).
  exists d. done.
Qed.

Lemma weekday_factor_iff (w : Z) :
  (weekday_factor w = 0.9 <-> w = 5%Z)
  /\ (weekday_factor w = 0.85 <-> w = 6%Z)
  /\ (weekday_factor w = 1 <-> w <> 5%Z /\ w <> 6%Z).
Proof.
  unfold weekday_factor.
  destruct (Z.eqb_spec w 5) as [-> | H5]; [| destruct (Z.eqb_spec w 6) as [-> | H6]];
    repeat split; intros; try lra; try lia; try done.
  all: try (destruct H; lra). all: try (destruct H; lia).
Qed.

(** X2.  Of the 7 steps of a forecast exactly one falls on a Saturday and
    exactly one on a Sunday: the factor 0.9 is applied at one step, 0.85 at
    one other step, and 1.0 at the five others. *)
Theorem forecast_has_one_weekend n_clicks (l1 l2 l3 : R) (g : G)
    dates predictions g_end :
  run n_clicks humidity temperature (Some start_date_obj)
    (Some l1) (Some l2) (Some l3) g
  = Returned (Forecast dates predictions, g_end) ->
  exists saturday sunday : nat,
    (saturday < 7)%nat /\ (sunday < 7)%nat /\ saturday <> sunday
    /\ forall (i : nat) (d : date),
        (i < 7)%nat -> dates !! i = Some d ->
        (weekday_factor (weekday d) = 0.9 <-> i = saturday)
        /\ (weekday_factor (weekday d) = 0.85 <-> i = sunday)
        /\ (weekday_factor (weekday d) = 1
            <-> i <> saturday /\ i <> sunday).
Proof.
  intros Hrun.
  pose proof (forecast_dates_are_consecutive_aux n_clicks l1 l2 l3 g dates
                predictions g_end Hrun) as Hdates.
  set (w0 := weekday start_date_obj) in *.
  assert (Hw0 : (0 <= w0 < 7)%Z) by (apply Z.mod_pos_bound; lia).
  exists (Z.to_nat ((5 - w0) mod 7)), (Z.to_nat ((6 - w0) mod 7)).
  split; [Z.div_mod_to_equations; lia |].
  split; [Z.div_mod_to_equations; lia |].
  split; [Z.div_mod_to_equations; lia |].
  intros i d Hi Hd.
  destruct (Hdates i Hi) as (d0 & Hd0 & Hwd). rewrite Hd in Hd0.
  injection Hd0 as <-.
  destruct (weekday_factor_iff (weekday d)) as (H9 & H85 & H1).
  rewrite H9, H85, H1, Hwd.
  repeat split; intros; Z.div_mod_to_equations; lia.
Qed.

(** The loop draws once a turn. *)
Lemma forecast_loop_generator (offsets : list Z) dates predictions st g
    dates' predictions' st' g' :
  loop offsets dates predictions st g
  = Returned (dates', predictions', st', g') ->
  g' = Nat.iter (length offsets) next g.
Proof.
  revert dates predictions st g.
  induction offsets as [| i offsets IH]; intros dates predictions st g H.
  - by apply returned_inj in H as [= _ _ _ <-].
  - cbn [forecast_loop] in H.
    apply bind_returned_inv in H as ([[[d p] st1] g1] & Hday & H).
    apply IH in H. apply forecast_day_inv in Hday as (_ & _ & _ & _ & -> & _).
    cbn [length]. by rewrite Nat.iter_succ_r.
Qed.

(** X3.  A run that shows a forecast draws exactly 7 times from the random
    source, step i taking the i-th draw; a run that is not triggered
    (n_clicks <= 0) draws nothing and shows nothing. *)
Theorem forecast_draws_seven_times n_clicks (start_date : option date)
    (pm25_1d_ago pm25_2d_ago pm25_3d_ago : option R) (g : G) :
  ((n_clicks <= 0)%Z ->
   run n_clicks humidity temperature start_date
     pm25_1d_ago pm25_2d_ago pm25_3d_ago g
   = Returned (Blank, g))
  /\ forall l1 l2 l3 dates predictions g_end,
      start_date = Some start_date_obj ->
      pm25_1d_ago = Some l1 -> pm25_2d_ago = Some l2 ->
      pm25_3d_ago = Some l3 ->
      run n_clicks humidity temperature start_date
        pm25_1d_ago pm25_2d_ago pm25_3d_ago g
      = Returned (Forecast dates predictions, g_end) ->
      g_end = Nat.iter 7 next g
      /\ forall i : nat, (i < 7)%nat ->
         exists ds ps st d p st',
           loop (range i) [] [] (initial_state l1 l2 l3) g
           = Returned (ds, ps, st, Nat.iter i next g)
           /\ day_of (Z.of_nat i) st (Nat.iter i next g)
              = Returned (d, p, st', Nat.iter (S i) next g)
           /\ predictions !! i = Some p.
Proof.
  split.
  - intros Hn. unfold update_7day_prediction.
    by rewrite (proj2 (Z.ltb_ge _ _)) by lia.
  - intros l1 l2 l3 dates predictions g_end -> -> -> -> Hrun.
    apply update_7day_prediction_forecast_inv in Hrun as [st_end Hloop].
    split.
    { apply forecast_loop_generator in Hloop. by rewrite range_length in Hloop. }
    intros i Hi.
    edestruct forecast_loop_turn
      as (ds & ps & st & g0 & d & p & st' & g' & Hk & Hday & _ & _ & _ & _
          & Hp); [exact Hloop | exact Hi |].
    pose proof (forecast_loop_generator _ _ _ _ _ _ _ _ _ Hk) as Hg0.
    rewrite range_length in Hg0. subst g0.
    pose proof Hday as Hday'.
    apply forecast_day_inv in Hday' as (_ & _ & _ & _ & Hg' & _).
    exists ds, ps, st, d, p, st'.
    split; [exact Hk |]. split; [| exact Hp].
    rewrite Hday, Hg'. reflexivity.
Qed.

(** What makes a turn of the loop raise: the calendar, when the date is
    out of its range, the truth test of the schema, or the predictor. *)
Lemma forecast_day_raised (day_offset : Z) (st : carried) (g : G) (e : exn) :
  day_of day_offset st g = Raised e <->
  add_days start_date_obj day_offset = Raised e
  \/ exists d,
       add_days start_date_obj day_offset = Returned d
       /\ (truth expected_features = Raised e
           \/ exists f,
                features expected_features humidity temperature d st
                = Returned f
                /\ model_predict f = Raised e).
Proof.
  unfold forecast_day.
  destruct (add_days start_date_obj day_offset) as [e0 | d].
  - rewrite bind_raised. split; [intros [= ->]; by left |].
    intros [[= ->] | (d & [=] & _)]. reflexivity.
  - rewrite bind_returned.
    destruct (features expected_features humidity temperature d st)
      as [e1 | f] eqn:Hf.
    + pose proof (proj1 (proj1 (features_raised expected_features e1)
                           humidity temperature d st) Hf) as Htruth.
      rewrite bind_raised. split.
      * intros [= ->]. right. exists d. split; [done | by left].
      * intros [[=] | (d' & Hd & [He | (f & Hf' & _)])].
        -- congruence.
        -- apply returned_inj in Hd as <-. congruence.
    + assert (Htruth : forall e', truth expected_features <> Raised e').
      { intros e' He'.
        apply (proj2 (proj1 (features_raised expected_features e')
                        humidity temperature d st)) in He'.
        congruence. }
      rewrite bind_returned.
      destruct (model_predict f) as [e1 | base] eqn:Hbase.
      * rewrite bind_raised. split.
        -- intros [= ->]. right. exists d. split; [done |]. right.
           by exists f.
        -- intros [[=] | (d' & Hd & [He | (f' & Hf' & He)])].
           ++ by apply Htruth in He.
           ++ apply returned_inj in Hd as <-. congruence.
      * rewrite bind_returned. destruct (np_random g) as [u g1]. split.
        -- discriminate.
        -- intros [[=] | (d' & Hd & [He | (f' & Hf' & He)])].
           ++ by apply Htruth in He.
           ++ apply returned_inj in Hd as <-. congruence.
Qed.

Lemma forecast_loop_raised (offsets : list Z) dates predictions st g (e : exn) :
  loop offsets dates predictions st g = Raised e <->
  exists (k : nat) (i : Z) ds ps st_k g_k,
    offsets !! k = Some i
    /\ loop (take k offsets) dates predictions st g
       = Returned (ds, ps, st_k, g_k)
    /\ day_of i st_k g_k = Raised e.
Proof.
  revert dates predictions st g.
  induction offsets as [| i offsets IH]; intros dates predictions st g.
  - split; [discriminate |].
    intros (k & i & ? & ? & ? & ? & Hk & _). by rewrite lookup_nil in Hk.
  - cbn [forecast_loop].
    destruct (day_of i st g) as [e0 | [[[d p] st1] g1]] eqn:Hday.
    + rewrite bind_raised. split.
      * intros [= ->]. exists 0%nat, i, dates, predictions, st, g. done.
      * intros (k & j & ds & ps & st_k & g_k & Hk & Hpre & Hraise).
        destruct k as [| k].
        -- injection Hk as <-. cbn in Hpre.
           apply returned_inj in Hpre as [= <- <- <- <-]. congruence.
        -- cbn [take forecast_loop] in Hpre. rewrite Hday in Hpre.
           discriminate Hpre.
    + rewrite bind_returned. rewrite IH. split.
      * intros (k & j & ds & ps & st_k & g_k & Hk & Hpre & Hraise).
        exists (S k), j, ds, ps, st_k, g_k. split; [exact Hk |].
        split; [| exact Hraise].
        cbn [take forecast_loop]. by rewrite Hday, bind_returned.
      * intros (k & j & ds & ps & st_k & g_k & Hk & Hpre & Hraise).
        destruct k as [| k].
        -- injection Hk as <-. cbn in Hpre.
           apply returned_inj in Hpre as [= <- <- <- <-]. congruence.
        -- exists k, j, ds, ps, st_k, g_k. split; [exact Hk |].
           split; [| exact Hraise].
           cbn [take forecast_loop] in Hpre.
           by rewrite Hday, bind_returned in Hpre.
Qed.

(** X4.  A triggered run with all its inputs present raises exactly when
    one of its 7 steps does, after the steps before it went through: then
    the whole run raises that exception and no forecast, not even a partial
    one, is shown.  A step raises only through the calendar (its date is
    out of range), through the truth test of the schema
    ([if expected_features:] on an array of two names or more, a
    ValueError), or through the predictor. *)
Theorem forecast_aborts_at_first_exception n_clicks (l1 l2 l3 : R) (g : G)
    (e : exn) :
  (0 < n_clicks)%Z ->
  run n_clicks humidity temperature (Some start_date_obj)
    (Some l1) (Some l2) (Some l3) g
  = Raised e <->
  exists (k : nat) ds ps st_k g_k,
    (k < 7)%nat
    /\ loop (range k) [] [] (initial_state l1 l2 l3) g
       = Returned (ds, ps, st_k, g_k)
    /\ (add_days start_date_obj (Z.of_nat k) = Raised e
        \/ exists d,
             add_days start_date_obj (Z.of_nat k) = Returned d
             /\ (truth expected_features = Raised e
                 \/ exists f,
                      features expected_features humidity temperature d st_k
                      = Returned f
                      /\ model_predict f = Raised e)).
Proof.
  intros Hn. unfold update_7day_prediction.
  rewrite (proj2 (Z.ltb_lt _ _)) by lia. rewrite bind_returned.
  split.
  - intros H.
    destruct (loop (range 7) [] [] (initial_state l1 l2 l3) g)
      as [e0 | [[[ds ps] st] g1]] eqn:Hloop; [| discriminate H].
    rewrite bind_raised in H. injection H as ->.
    apply forecast_loop_raised in Hloop
      as (k & i & ds & ps & st_k & g_k & Hk & Hpre & Hraise).
    assert (Hlt : (k < 7)%nat).
    { apply lookup_lt_Some in Hk. by rewrite range_length in Hk. }
    rewrite range_lookup in Hk by done. injection Hk as <-.
    exists k, ds, ps, st_k, g_k. split; [exact Hlt |].
    split; [| exact (proj1 (forecast_day_raised _ _ _ _) Hraise)].
    rewrite (range_split k 7) in Hpre by lia.
    rewrite take_app_length' in Hpre by (by rewrite range_length).
    exact Hpre.
  - intros (k & ds & ps & st_k & g_k & Hlt & Hpre & Hraise).
    apply (proj2 (forecast_day_raised (Z.of_nat k) st_k g_k e)) in Hraise.
    assert (Hloop : loop (range 7) [] [] (initial_state l1 l2 l3) g = Raised e).
    { apply forecast_loop_raised.
      exists k, (Z.of_nat k), ds, ps, st_k, g_k.
      split; [by apply range_lookup |]. split; [| exact Hraise].
      rewrite (range_split k 7) by lia.
      by rewrite take_app_length' by (by rewrite range_length). }
    by rewrite Hloop.
Qed.

(** X17.  With a schema held as an array of two names or more, as
    scikit-learn holds the names a model was fitted on, every triggered run
    with its inputs present and a date [strptime] can return raises
    ValueError at its first step, from [if expected_features:], whatever
    the predictor would answer: nothing is drawn from the random source
    and no forecast is shown.  Only such a schema fails the test: on a list
    and on an array of one name it returns. *)
Theorem array_schema_stops_the_forecast n_clicks (l1 l2 l3 : R) (g : G) :
  (0 < n_clicks)%Z ->
  valid start_date_obj = true ->
  (forall name name' names,
      expected_features = NdArray name (name' :: names) ->
      run n_clicks humidity temperature (Some start_date_obj)
        (Some l1) (Some l2) (Some l3) g
      = Raised ValueError)
  /\ (forall e,
        truth expected_features = Raised e ->
        e = ValueError
        /\ exists name name' names,
             expected_features = NdArray name (name' :: names)).
Proof.
  intros Hn Hvalid. apply valid_toordinal in Hvalid. split.
  - intros name name' names Hschema. unfold update_7day_prediction.
    rewrite (proj2 (Z.ltb_lt _ _)) by lia. rewrite bind_returned.
    change (range 7) with (0%Z :: map Z.of_nat (seq 1 6)).
    cbn [forecast_loop]. unfold forecast_day, add_days.
    rewrite Z.add_0_r.
    rewrite (proj2 (Z.ltb_lt _ _)), (proj2 (Z.leb_le _ _)) by lia.
    cbn [andb]. rewrite bind_returned.
    unfold features. rewrite Hschema. reflexivity.
  - intros e. apply truth_raised.
Qed.

(** The columns of the feature frame that hold the carried values, in the
    fallback ordering and in any schema that names them. *)
Lemma features_carried_columns (d : date) (st : carried) (f : frame R) :
  features expected_features humidity temperature d st = Returned f ->
  ((truth expected_features = Returned false
    \/ "pm_2_5"%string ∈ names_of expected_features) ->
   dict_lookup "pm_2_5" f = Some (PyFloat (pm25_current st)))
  /\ ((truth expected_features = Returned false
       \/ "pm_2_5_lag1h"%string ∈ names_of expected_features) ->
      dict_lookup "pm_2_5_lag1h" f = Some (PyFloat (pm25_lag1d st)))
  /\ ((truth expected_features = Returned false
       \/ "pm_2_5_ma3h"%string ∈ names_of expected_features) ->
      dict_lookup "pm_2_5_ma3h" f = Some (PyFloat (pm25_ma3d st))).
Proof.
  unfold features.
  destruct (truth expected_features) as [e | [|]]; [discriminate | |];
    rewrite bind_returned; intros [= <-].
  - unfold frame_of_schema.
    repeat split; (intros [? | Hin]; [congruence |]);
      rewrite dict_comprehension_lookup by done; reflexivity.
  - repeat split; intros _; reflexivity.
Qed.

(** The state a returning loop leaves after turn [k]: its current value is
    what the turn emitted, its lagged value the current value before. *)
Lemma forecast_state_after (n : nat) st0 g dates_n predictions_n st_n g_n :
  loop (range n) [] [] st0 g = Returned (dates_n, predictions_n, st_n, g_n) ->
  forall k : nat, (k < n)%nat ->
  exists ds ps st g0 ds' ps' st' g' p,
    loop (range k) [] [] st0 g = Returned (ds, ps, st, g0)
    /\ loop (range (S k)) [] [] st0 g = Returned (ds', ps', st', g')
    /\ predictions_n !! k = Some p
    /\ pm25_current st' = p
    /\ pm25_lag1d st' = pm25_current st
    /\ pm25_ma3d st' = np_mean [pm25_ma3d st; pm25_current st; p].
Proof.
  intros Hloop k Hk.
  edestruct forecast_loop_turn
    as (ds & ps & st & g0 & d & p & st' & g' & Hk0 & Hday & HSk & _ & _ & _
        & Hp); [exact Hloop | exact Hk |].
  apply forecast_day_inv in Hday as (_ & _ & _ & _ & _ & Hst).
  exists ds, ps, st, g0, (ds ++ [d]), (ps ++ [p]), st', g', p.
  subst st'. done.
Qed.

(** X5.  Each step's output feeds the next step's input: in a forecast, the
    frame the predictor is given at step k+1 holds the value emitted at
    step k as pm_2_5 and, as pm_2_5_lag1h, the value emitted at step k-1
    (the 1-day-ago input when k = 0), when the schema test is false (the
    fallback frame) or the schema names the column. *)
Theorem forecast_feeds_back n_clicks (l1 l2 l3 : R) (g : G)
    dates predictions g_end (k : nat) :
  run n_clicks humidity temperature (Some start_date_obj)
    (Some l1) (Some l2) (Some l3) g
  = Returned (Forecast dates predictions, g_end) ->
  (S k < 7)%nat ->
  exists (st : carried) (d : date) (f : frame R) (base emitted previous : R),
    predictions !! k = Some emitted
    /\ (match k with
        | O => previous = l1
        | S j => predictions !! j = Some previous
        end)
    /\ dates !! S k = Some d
    /\ features expected_features humidity temperature d st = Returned f
    /\ model_predict f = Returned base
    /\ ((truth expected_features = Returned false
         \/ "pm_2_5"%string ∈ names_of expected_features) ->
        dict_lookup "pm_2_5" f = Some (PyFloat emitted))
    /\ ((truth expected_features = Returned false
         \/ "pm_2_5_lag1h"%string ∈ names_of expected_features) ->
        dict_lookup "pm_2_5_lag1h" f = Some (PyFloat previous)).
Proof.
  intros Hrun Hk.
  apply update_7day_prediction_forecast_inv in Hrun as [st_end Hloop].
  (* turn k and the state it leaves *)
  destruct (forecast_state_after 7 _ _ _ _ _ _ Hloop k ltac:(lia))
    as (ds & ps & st_k & g_k & ds' & ps' & st' & g' & p & Hk0 & HSk & Hp
        & Hcur & Hlag & _).
  (* turn k + 1 starts from that state *)
  edestruct forecast_loop_turn
    as (ds1 & ps1 & st1 & g1 & d & p1 & st2 & g2 & Hk1 & Hday & _ & _ & _
        & Hd & _); [exact Hloop | exact Hk |].
  rewrite HSk in Hk1. apply returned_inj in Hk1.
  assert (Hst : st1 = st') by congruence. subst st1.
  apply forecast_day_inv in Hday as (base & _ & Hbase & _).
  apply bind_returned_inv in Hbase as (f & Hf & Hbase).
  destruct (features_carried_columns d st' f Hf) as (Hc & Hl & _).
  exists st', d, f, base, p, (pm25_current st_k).
  split; [exact Hp |]. split.
  { destruct k as [| j].
    - cbn in Hk0. apply returned_inj in Hk0.
      assert (Hst : st_k = initial_state l1 l2 l3) by congruence.
      by rewrite Hst.
    - destruct (forecast_state_after 7 _ _ _ _ _ _ Hloop j ltac:(lia))
        as (? & ? & ? & ? & ds2 & ps2 & st3 & g3 & pj & _ & HSj & Hpj & Hcj
            & _).
      rewrite HSj in Hk0. apply returned_inj in Hk0.
      assert (Hst : st3 = st_k) by congruence. subst st3.
      by rewrite Hcj. }
  split; [exact Hd |]. split; [exact Hf |]. split; [exact Hbase |].
  rewrite <- Hcur, <- Hlag. split; [exact Hc | exact Hl].
Qed.

(** Bounds of the three factors. *)
Lemma weekday_factor_bounds (w : Z) : 0.85 <= weekday_factor w <= 1.
Proof.
  unfold weekday_factor.
  destruct (w =? 5)%Z; [lra |]. destruct (w =? 6)%Z; lra.
Qed.

Lemma weather_factor_bounds (i : Z) : 0.92 <= weather_factor i <= 1.08.
Proof.
  unfold weather_factor.
  pose proof (SIN_bound (2 * PI * weather_phase i)) as [Hlo Hhi]. lra.
Qed.

Lemma random_factor_bounds (u : R) :
  0 <= u < 1 -> 0.985 <= random_factor u < 1.015.
Proof. unfold random_factor. lra. Qed.

Lemma round2_within (x : R) : - (1 / 200) <= round2 x - x <= 1 / 200.
Proof.
  unfold round2. pose proof (rint_nearest (x * 100)) as H. lra.
Qed.

Lemma rint_nonneg (x : R) : 0 <= x -> (0 <= rint x)%Z.
Proof.
  intros Hx. unfold rint. destruct (base_Int_part x) as [Hlo Hhi].
  assert (Hf : (0 <= Int_part x)%Z).
  { assert (H : IZR (-1) < IZR (Int_part x)) by lra.
    apply lt_IZR in H. lia. }
  repeat destruct (Rlt_dec _ _); try destruct (Z.even _); lia.
Qed.

Lemma round2_nonneg (x : R) : 0 <= x -> 0 <= round2 x.
Proof.
  intros Hx. unfold round2.
  assert (H : 0 <= IZR (rint (x * 100))).
  { apply IZR_le, rint_nonneg. lra. }
  lra.
Qed.

(** The product of the three factors scales a non-negative base value by
    at least 0.85 * 0.92 * 0.985 and at most 1.08 * 1.015. *)
Lemma adjusted_product_bounds (base wf wc rf : R) :
  0 <= base -> 0.85 <= wf <= 1 -> 0.92 <= wc <= 1.08 ->
  0.985 <= rf <= 1.015 ->
  0.85 * 0.92 * 0.985 * base <= base * wf * wc * rf <= 1.08 * 1.015 * base.
Proof.
  intros Hb Hwf Hwc Hrf.
  assert (H1 : 0.85 * base <= base * wf <= base) by nra.
  assert (H2 : 0.85 * 0.92 * base <= base * wf * wc <= 1.08 * base) by nra.
  nra.
Qed.

(** X6.  With draws in [0, 1), as np.random.random gives them, every value a
    forecast emits is a whole number of hundredths, and for a non-negative
    base value it lies within half a hundredth of the range
    [0.85 * 0.92 * 0.985 * base, 1.08 * 1.015 * base]: the adjustments
    lower the predictor's output by less than 23 percent and raise it by
    less than 10 percent. *)
Theorem forecast_values_within_factors n_clicks (l1 l2 l3 : R) (g : G)
    dates predictions g_end :
  (forall g0, 0 <= (np_random g0).1 < 1) ->
  run n_clicks humidity temperature (Some start_date_obj)
    (Some l1) (Some l2) (Some l3) g
  = Returned (Forecast dates predictions, g_end) ->
  forall i : nat, (i < 7)%nat ->
  exists (st : carried) (d : date) (base p : R),
    dates !! i = Some d
    /\ features expected_features humidity temperature d st ≫= model_predict
       = Returned base
    /\ predictions !! i = Some p
    /\ (exists n : Z, p = IZR n / 100)
    /\ (0 <= base ->
        0.85 * 0.92 * 0.985 * base - 0.005 <= p
        /\ p <= 1.08 * 1.015 * base + 0.005
        /\ 0.77 * base - 0.005 <= p <= 1.0962 * base + 0.005).
Proof.
  intros Hdraw Hrun i Hi.
  apply update_7day_prediction_forecast_inv in Hrun as [st_end Hloop].
  edestruct forecast_loop_turn
    as (ds & ps & st & g0 & d & p & st' & g' & _ & Hday & _ & _ & _ & Hd
        & Hp); [exact Hloop | exact Hi |].
  apply forecast_day_inv in Hday as (base & _ & Hbase & Hpeq & _).
  exists st, d, base, p.
  split; [exact Hd |]. split; [exact Hbase |]. split; [exact Hp |].
  split; [rewrite Hpeq; by eexists |].
  intros Hb.
  pose proof (random_factor_bounds _ (Hdraw g0)) as Hrf.
  pose proof (adjusted_product_bounds base _ _ _ Hb
                (weekday_factor_bounds (weekday d))
                (weather_factor_bounds (Z.of_nat i))
                (conj (proj1 Hrf) (Rlt_le _ _ (proj2 Hrf)))) as Hprod.
  pose proof (round2_within
                (base * weekday_factor (weekday d)
                 * weather_factor (Z.of_nat i)
                 * random_factor (np_random g0).1)) as Hround.
  rewrite <- Hpeq in Hround. lra.
Qed.

(** Non-negative values carried into a turn and emitted so far stay so. *)
Lemma forecast_loop_nonnegative (offsets : list Z) dates predictions st g
    dates' predictions' st' g' :
  (forall f b, model_predict f = Returned b -> 0 <= b) ->
  (forall g0, 0 <= (np_random g0).1 < 1) ->
  loop offsets dates predictions st g
  = Returned (dates', predictions', st', g') ->
  0 <= pm25_current st -> 0 <= pm25_lag1d st -> 0 <= pm25_ma3d st ->
  Forall (fun p => 0 <= p) predictions ->
  (0 <= pm25_current st' /\ 0 <= pm25_lag1d st' /\ 0 <= pm25_ma3d st')
  /\ Forall (fun p => 0 <= p) predictions'.
Proof.
  intros Hmodel Hdraw. revert dates predictions st g.
  induction offsets as [| i offsets IH];
    intros dates predictions st g H Hc Hl Hm Hps.
  - apply returned_inj in H. by injection H as <- <- <- <-.
  - cbn [forecast_loop] in H.
    apply bind_returned_inv in H as ([[[d p] st1] g1] & Hday & H).
    apply forecast_day_inv in Hday as (base & _ & Hbase & Hp & _ & Hst).
    apply bind_returned_inv in Hbase as (f & _ & Hbase).
    assert (Hp0 : 0 <= p).
    { rewrite Hp. apply round2_nonneg.
      pose proof (Hmodel _ _ Hbase) as Hb.
      pose proof (random_factor_bounds _ (Hdraw g)) as Hrf.
      pose proof (adjusted_product_bounds base _ _ _ Hb
                    (weekday_factor_bounds (weekday d))
                    (weather_factor_bounds i)
                    (conj (proj1 Hrf) (Rlt_le _ _ (proj2 Hrf)))) as Hprod.
      lra. }
    apply IH in H; [exact H | | | |].
    + by rewrite Hst.
    + by rewrite Hst.
    + rewrite Hst. cbn [pm25_ma3d]. rewrite np_mean_3. lra.
    + apply Forall_app. split; [exact Hps |]. by apply Forall_singleton.
Qed.

(** X7.  If the predictor never answers below 0 and the three lag inputs are
    not below 0, a forecast has no negative value, and no carried value
    (current, lagged, moving average) is ever negative. *)
Theorem forecast_stays_nonnegative n_clicks (l1 l2 l3 : R) (g : G)
    dates predictions g_end :
  (forall f b, model_predict f = Returned b -> 0 <= b) ->
  (forall g0, 0 <= (np_random g0).1 < 1) ->
  0 <= l1 -> 0 <= l2 -> 0 <= l3 ->
  run n_clicks humidity temperature (Some start_date_obj)
    (Some l1) (Some l2) (Some l3) g
  = Returned (Forecast dates predictions, g_end) ->
  Forall (fun p => 0 <= p) predictions
  /\ forall (k : nat) ds ps st g0,
      loop (range k) [] [] (initial_state l1 l2 l3) g
      = Returned (ds, ps, st, g0) ->
      0 <= pm25_current st /\ 0 <= pm25_lag1d st /\ 0 <= pm25_ma3d st.
Proof.
  intros Hmodel Hdraw H1 H2 H3 Hrun.
  apply update_7day_prediction_forecast_inv in Hrun as [st_end Hloop].
  assert (Hinit : 0 <= pm25_ma3d (initial_state l1 l2 l3)).
  { rewrite initial_state_eq. cbn [pm25_ma3d]. lra. }
  split.
  - eapply forecast_loop_nonnegative in Hloop; try done.
    by destruct Hloop.
  - intros k ds ps st g0 Hk.
    eapply forecast_loop_nonnegative in Hk; try done.
    by destruct Hk.
Qed.

End SevenDayRun.

(** Scenario A again, for the properties of the run. *)
Section ScenarioARun.
Import Calendar SevenDay.
Open Scope R_scope.

Lemma stub_source_draws (g : nat) : 0 <= (stub_source g).1 < 1.
Proof. simpl. lra. Qed.

Lemma forecast_dates_are_consecutive_witness :
  exists d,
    [mkdate 2024 1 5; mkdate 2024 1 6; mkdate 2024 1 7; mkdate 2024 1 8;
     mkdate 2024 1 9; mkdate 2024 1 10; mkdate 2024 1 11] !! 3%nat = Some d
    /\ toordinal d = (toordinal (mkdate 2024 1 5) + 3)%Z
    /\ weekday d = ((weekday (mkdate 2024 1 5) + 3) mod 7)%Z.
Proof.
  destruct (forecast_dates_are_consecutive _ _ _ _ _ _ _ _ _ _ _ _ _ _
              scenario_A_run 3%nat ltac:(lia)) as (d & Hd & _ & Hord & Hwd).
  exists d. done.
Defined.

Lemma forecast_has_one_weekend_witness :
  exists saturday sunday : nat,
    saturday <> sunday
    /\ (weekday_factor (weekday (mkdate 2024 1 6)) = 0.9 <-> 1%nat = saturday)
    /\ (weekday_factor (weekday (mkdate 2024 1 7)) = 0.85
        <-> 2%nat = sunday).
Proof.
  destruct (forecast_has_one_weekend _ _ _ _ _ _ _ _ _ _ _ _ _ _
              scenario_A_run) as (sat & sun & _ & _ & Hne & Hall).
  exists sat, sun. split; [exact Hne |]. split.
  - apply (Hall 1%nat (mkdate 2024 1 6)); [lia | reflexivity].
  - apply (Hall 2%nat (mkdate 2024 1 7)); [lia | reflexivity].
Defined.

Lemma forecast_draws_seven_times_witness :
  update_7day_prediction (constant_model 20) (PyList []) stub_source 0
    (Some 60) (Some 25) (Some (mkdate 2024 1 5))
    (Some 20) (Some 20) (Some 20) 4%nat
  = Returned (Blank, 4%nat)
  /\ 7%nat = Nat.iter 7 (fun g => (stub_source g).2) 0%nat.
Proof.
  split.
  - apply (forecast_draws_seven_times (constant_model 20) (PyList []) stub_source
             (Some 60) (Some 25) (mkdate 2024 1 5)). lia.
  - eapply (forecast_draws_seven_times (constant_model 20) (PyList []) stub_source
              (Some 60) (Some 25) (mkdate 2024 1 5) 1);
      [reflexivity .. | exact scenario_A_run].
Defined.

Lemma forecast_aborts_at_first_exception_witness :
  update_7day_prediction failing_on_the_8th (PyList []) stub_source 1
    (Some 60) (Some 25) (Some (mkdate 2024 1 5))
    (Some 20) (Some 20) (Some 20) 0%nat
  = Raised (ModelError "predict failed").
Proof.
  apply forecast_aborts_at_first_exception; [lia |].
  eexists 3%nat, _, _, _, _. split; [lia |]. split; [reflexivity |].
  right. eexists. split; [reflexivity |].
  right. eexists. split; reflexivity.
Defined.

Lemma forecast_feeds_back_witness :
  exists (st : carried) (d : date) (f : frame R) (emitted : R),
    emitted = round2 (20 * 0.9 * weather_factor 1 * random_factor 0.5)
    /\ d = mkdate 2024 1 7
    /\ features (PyList []) (Some 60) (Some 25) d st = Returned f
    /\ dict_lookup "pm_2_5" f = Some (PyFloat emitted).
Proof.
  destruct (forecast_feeds_back _ _ _ _ _ _ _ _ _ _ _ _ _ _ 1%nat
              scenario_A_run ltac:(lia))
    as (st & d & f & base & emitted & previous & Hp & _ & Hd & Hf & _ & Hcur
        & _).
  exists st, d, f, emitted. injection Hp as <-. injection Hd as <-.
  split; [reflexivity |]. split; [reflexivity |]. split; [exact Hf |].
  apply Hcur. by left.
Defined.

Lemma forecast_values_within_factors_witness :
  exists p : R,
    [round2 (20 * 1.0 * weather_factor 0 * random_factor 0.5);
     round2 (20 * 0.9 * weather_factor 1 * random_factor 0.5)] !! 1%nat
    = Some p
    /\ 0.77 * 20 - 0.005 <= p <= 1.0962 * 20 + 0.005.
Proof.
  destruct (forecast_values_within_factors _ _ _ _ _ _ _ _ _ _ _ _ _ _
              stub_source_draws scenario_A_run 1%nat ltac:(lia))
    as (st & d & base & p & _ & Hbase & Hp & _ & Hb).
  injection Hbase as <-. injection Hp as <-.
  eexists. split; [reflexivity |]. apply Hb. lra.
Defined.

Lemma forecast_stays_nonnegative_witness :
  Forall (fun p => 0 <= p)
    [round2 (20 * 1.0 * weather_factor 0 * random_factor 0.5);
     round2 (20 * 0.9 * weather_factor 1 * random_factor 0.5);
     round2 (20 * 0.85 * weather_factor 2 * random_factor 0.5);
     round2 (20 * 1.0 * weather_factor 3 * random_factor 0.5);
     round2 (20 * 1.0 * weather_factor 4 * random_factor 0.5);
     round2 (20 * 1.0 * weather_factor 5 * random_factor 0.5);
     round2 (20 * 1.0 * weather_factor 6 * random_factor 0.5)].
Proof.
  assert (Hmodel : forall f b, constant_model 20 f = Returned b -> 0 <= b)
    by (intros f b [= <-]; lra).
  exact (proj1 (forecast_stays_nonnegative (constant_model 20)
                  (PyList [])
                  stub_source (Some 60) (Some 25) (mkdate 2024 1 5)
                  1 20 20 20 0%nat _ _ _
                  Hmodel stub_source_draws ltac:(lra) ltac:(lra) ltac:(lra)
                  scenario_A_run)).
Defined.

Lemma array_schema_stops_the_forecast_witness :
  update_7day_prediction (constant_model 20)
    (NdArray "humidity" ["pm_2_5"; "temperature"]%string) stub_source 1
    (Some 60) (Some 25) (Some (mkdate 2024 1 5))
    (Some 20) (Some 20) (Some 20) 0%nat
  = Raised ValueError.
Proof.
  eapply (array_schema_stops_the_forecast (constant_model 20)
            (NdArray "humidity" ["pm_2_5"; "temperature"]%string)
            stub_source (Some 60) (Some 25) (mkdate 2024 1 5) 1 20 20 20
            0%nat); [lia | reflexivity | reflexivity].
Defined.

End ScenarioARun.

(** ** The PM10 run: its outcomes *)
Section PM10Run.
Import Calendar PM10.
Open Scope Z_scope.

Context (pm10_model_loaded : bool).
Context (pm10_model_predict : frame Q -> outcome Q).
Context (pm10_expected_features : schema).

#[local] Abbreviation run :=
  (update_pm10_prediction pm10_model_loaded pm10_model_predict
     pm10_expected_features).

(** The frame has a timestamp column in the fallback ordering, and with a
    known schema exactly when the schema names it. *)
Lemma features_timestamp humidity temperature date_obj hour
    current_pm10 pm10_lag_1 pm10_lag_3 pm10_lag_6 pm10_lag_24
    (f : frame Q) :
  features pm10_expected_features humidity temperature date_obj hour
    current_pm10 pm10_lag_1 pm10_lag_3 pm10_lag_6 pm10_lag_24
  = Returned f ->
  exists known,
    truth pm10_expected_features = Returned known
    /\ ("timestamp"%string ∈ columns f
        <-> known = false
            \/ "timestamp"%string ∈ names_of pm10_expected_features).
Proof.
  unfold features.
  destruct (truth pm10_expected_features) as [e | [|]]; [discriminate | |];
    rewrite bind_returned; intros [= <-]; eexists; (split; [reflexivity |]).
  - unfold columns, frame_of_schema.
    rewrite dict_comprehension_columns, first_occurrences_elem.
    split; [by right |]. intros [? | ?]; [congruence | done].
  - split; [by left |]. intros _. cbn. unfold rolling_statistics.
    cbn. by left.
Qed.

Lemma add_days_returns (d : date) (k : Z) :
  (exists d', add_days d k = Returned d')
  <-> 0 < toordinal d + k <= MAXORDINAL.
Proof.
  unfold add_days.
  destruct (0 <? toordinal d + k) eqn:Hlo;
    destruct (toordinal d + k <=? MAXORDINAL) eqn:Hhi; cbn [andb];
    try apply Z.ltb_lt in Hlo; try apply Z.ltb_ge in Hlo;
    try apply Z.leb_le in Hhi; try apply Z.leb_gt in Hhi;
    (split; [intros [d' H]; try discriminate H; lia
            | intros H; try lia; by eexists]).
Qed.

(** The body of the [try] returns nothing but a forecast. *)
Lemma prediction_body_returned humidity temperature date hour
    current_pm10 pm10_lag_1 pm10_lag_3 pm10_lag_6 pm10_lag_24 (v : view) :
  prediction_body pm10_model_predict pm10_expected_features humidity
    temperature date hour current_pm10 pm10_lag_1 pm10_lag_3 pm10_lag_6
    pm10_lag_24 = Returned v ->
  exists prediction pm10_values, v = Forecast prediction pm10_values.
Proof.
  unfold prediction_body. intros H.
  apply bind_returned_inv in H as (d & _ & H).
  destruct current_pm10, pm10_lag_1, pm10_lag_3, pm10_lag_6, pm10_lag_24;
    try discriminate H.
  apply bind_returned_inv in H as (_ & _ & H).
  apply bind_returned_inv in H as (f & _ & H).
  apply bind_returned_inv in H as (_ & _ & H).
  apply bind_returned_inv in H as (p & _ & H).
  apply bind_returned_inv in H as (_ & _ & H).
  apply returned_inj in H as <-. by eexists _, _.
Qed.

(** X8.  What the PM10 callback shows, case by case.  It shows nothing when
    it was not triggered, "model not loaded" when triggered without a
    model, and otherwise a forecast or an error; a forecast exactly when
    the date and the five lag values are present, the hour is in 0..23, the
    truth test of the schema does not raise, the frame has a timestamp
    column (the test is false, or the schema names it), the predictor
    answers, and the date is not the calendar's last day; the curve is then
    the diurnal pattern from the current value to the predictor's
    answer. *)
Theorem pm10_run_outcomes n_clicks humidity temperature (date : option date)
    (hour : Z) (current_pm10 pm10_lag_1 pm10_lag_3 pm10_lag_6 pm10_lag_24
      : option Q) :
  (run n_clicks humidity temperature date hour current_pm10 pm10_lag_1
     pm10_lag_3 pm10_lag_6 pm10_lag_24 = Blank
   <-> n_clicks <= 0)
  /\ (run n_clicks humidity temperature date hour current_pm10 pm10_lag_1
        pm10_lag_3 pm10_lag_6 pm10_lag_24 = ModelNotLoaded
      <-> 0 < n_clicks /\ pm10_model_loaded = false)
  /\ (forall prediction pm10_values,
        run n_clicks humidity temperature date hour current_pm10 pm10_lag_1
          pm10_lag_3 pm10_lag_6 pm10_lag_24
        = Forecast prediction pm10_values
        <-> 0 < n_clicks /\ pm10_model_loaded = true
            /\ exists d c l1 l3 l6 l24 known f,
                date = Some d /\ current_pm10 = Some c
                /\ pm10_lag_1 = Some l1 /\ pm10_lag_3 = Some l3
                /\ pm10_lag_6 = Some l6 /\ pm10_lag_24 = Some l24
                /\ 0 <= hour <= 23
                /\ truth pm10_expected_features = Returned known
                /\ (known = false
                    \/ "timestamp"%string ∈ names_of pm10_expected_features)
                /\ features pm10_expected_features humidity temperature
                     d hour c l1 l3 l6 l24
                   = Returned f
                /\ pm10_model_predict f = Returned prediction
                /\ 0 < toordinal d + 1 <= MAXORDINAL
                /\ pm10_values = diurnal_pattern c prediction hour).
Proof.
  unfold update_pm10_prediction.
  destruct (Z.ltb_spec 0 n_clicks) as [Hn | Hn];
    destruct pm10_model_loaded eqn:Hloaded; cbn [andb negb].
  2,3,4: split; [split; [intros; try discriminate; lia | intros; try done; lia] |];
         (split; [split; [intros; try discriminate; try done | intros [? ?];
                          try done; try lia] |]);
         intros; (split; [discriminate | intros (? & ? & _); try done; lia]).
  split; [split; [| lia] |].
  { unfold try_except.
    destruct (prediction_body _ _ _ _ _ _ _ _ _ _ _) as [e | v] eqn:Hbody;
      [discriminate |].
    apply prediction_body_returned in Hbody as (? & ? & ->). discriminate. }
  split; [split; [| by intros [_ ?]] |].
  { unfold try_except.
    destruct (prediction_body _ _ _ _ _ _ _ _ _ _ _) as [e | v] eqn:Hbody;
      [discriminate |].
    apply prediction_body_returned in Hbody as (? & ? & ->). discriminate. }
  intros prediction pm10_values. unfold try_except, prediction_body.
  destruct date as [d |]; [rewrite bind_returned | rewrite bind_raised].
  2: { split; [discriminate |].
       by intros (_ & _ & ? & ? & ? & ? & ? & ? & ? & ? & [=] & _). }
  destruct current_pm10 as [c |], pm10_lag_1 as [l1 |], pm10_lag_3 as [l3 |],
    pm10_lag_6 as [l6 |], pm10_lag_24 as [l24 |].
  2-32: split; [discriminate |];
        intros (_ & _ & ? & ? & ? & ? & ? & ? & ? & ? & _ & ? & ? & ? & ? & ?
                & _);
        discriminate.
  pose proof (add_days_returns d 1) as Hadd.
  destruct ((0 <=? hour) && (hour <=? 23)) eqn:Hhour.
  2: { rewrite bind_raised. split; [discriminate |].
       intros (_ & _ & ? & ? & ? & ? & ? & ? & ? & ? & _ & _ & _ & _ & _ & _
               & Hh & _).
       apply andb_false_iff in Hhour as [?%Z.leb_gt | ?%Z.leb_gt]; lia. }
  apply andb_prop in Hhour as [?%Z.leb_le ?%Z.leb_le].
  rewrite bind_returned.
  destruct (features pm10_expected_features humidity temperature d hour c
              l1 l3 l6 l24) as [e | f] eqn:Hf.
  { rewrite bind_raised. split; [discriminate |].
    intros (_ & _ & d' & c' & ? & ? & ? & ? & ? & f' & [= <-] & [= <-]
            & [= <-] & [= <-] & [= <-] & [= <-] & _ & _ & _ & Hf' & _).
    congruence. }
  destruct (features_timestamp _ _ _ _ _ _ _ _ _ _ Hf)
    as (known & Htruth & Hts).
  rewrite bind_returned.
  destruct (bool_decide _) eqn:Hcol.
  2: { rewrite bind_raised. split; [discriminate |].
       intros (_ & _ & d' & c' & ? & ? & ? & ? & known' & f' & [= <-]
               & [= <-] & [= <-] & [= <-] & [= <-] & [= <-] & _ & Htruth'
               & Hschema & _).
       apply bool_decide_eq_false in Hcol. exfalso. apply Hcol.
       apply (proj2 Hts).
       assert (known' = known) as -> by congruence. exact Hschema. }
  apply bool_decide_eq_true in Hcol. rewrite bind_returned.
  destruct (pm10_model_predict f) as [e | p] eqn:Hpred.
  { rewrite bind_raised. split; [discriminate |].
    intros (_ & _ & d' & c' & ? & ? & ? & ? & ? & f' & [= <-] & [= <-]
            & [= <-] & [= <-] & [= <-] & [= <-] & _ & _ & _ & Hf' & Hp & _).
    assert (f' = f) as -> by congruence.
    rewrite Hpred in Hp. discriminate Hp. }
  rewrite bind_returned.
  destruct (add_days d 1) as [e | d1] eqn:Hd1.
  { rewrite bind_raised. split; [discriminate |].
    intros (_ & _ & d' & c' & ? & ? & ? & ? & ? & ? & [= <-] & [= <-]
            & [= <-] & [= <-] & [= <-] & [= <-] & _ & _ & _ & _ & _ & Hrange
            & _).
    apply Hadd in Hrange as [? [=]]. }
  rewrite bind_returned. split.
  - intros [= <- <-]. split; [lia |]. split; [done |].
    exists d, c, l1, l3, l6, l24, known, f.
    repeat split; try done; try lia.
    + by apply Hts.
    + apply Hadd. by eexists.
    + apply Hadd. by eexists.
  - intros (_ & _ & d' & c' & ? & ? & ? & ? & ? & f' & [= <-] & [= <-]
            & [= <-] & [= <-] & [= <-] & [= <-] & _ & _ & _ & Hf' & Hp & _
            & ->).
    assert (f' = f) as -> by congruence.
    rewrite Hpred in Hp. by injection Hp as ->.
Qed.

(** X9.  A schema the callback cannot use makes every triggered run fail,
    whatever the predictor would answer: with the model loaded, all inputs
    present and the hour in range, a known schema that does not name the
    timestamp column shows a KeyError (from reading
    [features['timestamp']]), and a schema held as an array of two names
    or more shows a ValueError (from [if pm10_expected_features:]), even
    when it names the timestamp. *)
Theorem pm10_schema_without_timestamp n_clicks humidity temperature
    (d : date) (hour : Z) (c l1 l3 l6 l24 : Q) :
  0 < n_clicks -> pm10_model_loaded = true -> 0 <= hour <= 23 ->
  (truth pm10_expected_features = Returned true ->
   "timestamp"%string ∉ names_of pm10_expected_features ->
   run n_clicks humidity temperature (Some d) hour (Some c) (Some l1)
     (Some l3) (Some l6) (Some l24)
   = PredictionError KeyError)
  /\ (forall name name' names,
        pm10_expected_features = NdArray name (name' :: names) ->
        run n_clicks humidity temperature (Some d) hour (Some c) (Some l1)
          (Some l3) (Some l6) (Some l24)
        = PredictionError ValueError).
Proof.
  intros Hn Hloaded Hhour. unfold update_pm10_prediction.
  rewrite (proj2 (Z.ltb_lt _ _)) by lia. rewrite Hloaded. cbn [andb].
  unfold prediction_body. rewrite bind_returned.
  rewrite (proj2 (Z.leb_le 0 hour)), (proj2 (Z.leb_le hour 23)) by lia.
  cbn [andb]. rewrite bind_returned. split.
  - intros Htruth Hnin.
    destruct (features pm10_expected_features humidity temperature d hour c
                l1 l3 l6 l24) as [e | f] eqn:Hf.
    { apply (proj1 (proj2 (features_raised pm10_expected_features e)
                      humidity temperature d hour c l1 l3 l6 l24)) in Hf.
      congruence. }
    destruct (features_timestamp _ _ _ _ _ _ _ _ _ _ Hf)
      as (known & Htruth' & Hts).
    rewrite bind_returned.
    rewrite bool_decide_eq_false_2; [reflexivity |].
    rewrite Hts. intros [-> | ?]; [congruence | done].
  - intros name name' names ->. reflexivity.
Qed.

End PM10Run.

(** ** Ranges of the rolling statistics and of the diurnal curve *)

(** [Forall P (range 24)], hour by hour. *)
Ltac hour_by_hour :=
  change (range 24) with
    [0; 1; 2; 3; 4; 5; 6; 7; 8; 9; 10; 11; 12; 13; 14; 15; 16; 17; 18; 19;
     20; 21; 22; 23]%Z;
  repeat apply List.Forall_cons; try apply List.Forall_nil.

Section Ranges.
Import PM10.
Open Scope Q_scope.

#[local] Existing Instance diurnal_modifier_proper.

(** X10.  Each of the three statistics lies between the smallest and the largest
    of the five lag values; when the five are equal, all three equal
    them. *)
Theorem rolling_statistics_within_inputs (lo hi current lag1 lag3 lag6 lag24 : Q) :
  lo <= current <= hi -> lo <= lag1 <= hi -> lo <= lag3 <= hi ->
  lo <= lag6 <= hi -> lo <= lag24 <= hi ->
  exists roll_mean_6 roll_mean_24 ewm_12 : Q,
    rolling_statistics current lag1 lag3 lag6 lag24
    = (roll_mean_6, roll_mean_24, ewm_12)
    /\ lo <= roll_mean_6 <= hi
    /\ lo <= roll_mean_24 <= hi
    /\ lo <= ewm_12 <= hi
    /\ (lo == hi ->
        roll_mean_6 == lo /\ roll_mean_24 == lo /\ ewm_12 == lo).
Proof.
  intros Hc H1 H3 H6 H24.
  pose proof (rolling_statistics_eq current lag1 lag3 lag6 lag24) as H.
  destruct (rolling_statistics current lag1 lag3 lag6 lag24) as [[a b] e].
  destruct H as (Ha & Hb & He). exists a, b, e.
  split; [reflexivity |].
  assert (Ha' : 4 * a == current + lag1 + lag3 + lag6)
    by (rewrite Ha; field).
  assert (Hb' : 5 * b == current + lag1 + lag3 + lag6 + lag24)
    by (rewrite Hb; field).
  clear Ha Hb.
  split; [split; Lqa.lra |]. split; [split; Lqa.lra |].
  split; [split; Lqa.lra |].
  intros Heq. split; [| split]; Lqa.lra.
Qed.

Lemma rolling_statistics_within_inputs_witness :
  exists roll_mean_6 roll_mean_24 ewm_12 : Q,
    rolling_statistics 30 28 25 22 28 = (roll_mean_6, roll_mean_24, ewm_12)
    /\ 22 <= roll_mean_6 <= 30 /\ 22 <= roll_mean_24 <= 30
    /\ 22 <= ewm_12 <= 30.
Proof.
  destruct (rolling_statistics_within_inputs 22 30 30 28 25 22 28)
    as (a & b & e & Heq & Ha & Hb & He & _);
    try (split; discriminate).
  exists a, b, e. done.
Defined.

(** At a whole hour the modifier is between 20 percent below (hour 3) and
    10 percent above (hours 7 and 8) the base value. *)
Lemma diurnal_modifier_unit_bounds (hour : Z) :
  (0 <= hour <= 23)%Z -> - (2 # 10) <= diurnal_modifier hour 1 <= 1 # 10.
Proof.
  revert hour. apply hour_cases. hour_by_hour.
  all: split; discriminate.
Qed.

(** The base value lies between the current value and the prediction. *)
Lemma base_value_between (lo hi current_pm10 prediction : Q) (h : Z) :
  (0 <= h <= 24)%Z ->
  lo <= current_pm10 <= hi -> lo <= prediction <= hi ->
  lo <= base_value current_pm10 prediction h <= hi.
Proof.
  intros Hh Hc Hp. unfold base_value. cbv zeta.
  set (t := inject_Z h / 24.0).
  assert (Ht : 0 <= t <= 1).
  { assert (Ht : t == inject_Z h * (1 # 24)) by (subst t; field).
    assert (H0 : inject_Z 0 <= inject_Z h) by (rewrite <- Zle_Qle; lia).
    assert (H24 : inject_Z h <= inject_Z 24) by (rewrite <- Zle_Qle; lia).
    change (inject_Z 0) with 0 in H0. change (inject_Z 24) with 24 in H24.
    rewrite Ht. split; Lqa.lra. }
  clearbody t.
  assert (H : current_pm10 + (prediction - current_pm10) * t
              == (1 - t) * current_pm10 + t * prediction) by ring.
  rewrite H. split; Lqa.nra.
Qed.

(** X11.  For a current value and a prediction between lo >= 0 and hi, every one
    of the 25 values of the curve lies between 0.8 lo and 1.1 hi: the
    pattern never takes more than 20 percent off nor adds more than
    10 percent, and a curve between non-negative values is never
    negative. *)
Theorem diurnal_pattern_within (lo hi current_pm10 prediction : Q)
    (start_hour : Z) :
  0 <= lo -> lo <= current_pm10 <= hi -> lo <= prediction <= hi ->
  length (diurnal_pattern current_pm10 prediction start_hour) = 25%nat
  /\ Forall (fun v => 0.8 * lo <= v <= 1.1 * hi)
       (diurnal_pattern current_pm10 prediction start_hour).
Proof.
  intros Hlo Hc Hp. split.
  { unfold diurnal_pattern. by rewrite length_map, range_length. }
  unfold diurnal_pattern. rewrite Forall_fmap, Forall_forall.
  intros h Hh. cbn.
  assert (Hrange : (0 <= h <= 24)%Z).
  { apply list_elem_of_lookup in Hh as [i Hi].
    pose proof (lookup_lt_Some _ _ _ Hi) as Hlt. rewrite range_length in Hlt.
    rewrite range_lookup in Hi by done. injection Hi as <-. lia. }
  unfold diurnal_value. cbv zeta.
  pose proof (base_value_between lo hi current_pm10 prediction h Hrange Hc Hp)
    as Hb.
  set (b := base_value current_pm10 prediction h) in *. clearbody b.
  rewrite (diurnal_modifier_linear _ b).
  pose proof (Z.mod_pos_bound (start_hour + h) 24 ltac:(lia)) as Hmod.
  pose proof (diurnal_modifier_unit_bounds ((start_hour + h) mod 24)
                ltac:(lia)) as Hk.
  set (k := diurnal_modifier _ 1) in *. clearbody k.
  assert (Hlo' : 0 <= b) by Lqa.lra.
  split; Lqa.nra.
Qed.

Lemma diurnal_pattern_within_witness :
  Forall (fun v => 0.8 * 30 <= v <= 1.1 * 40) (diurnal_pattern 30 40 7).
Proof.
  apply (diurnal_pattern_within 30 40 30 40 7);
    [discriminate | split; discriminate | split; discriminate].
Defined.

(** X12.  When the prediction equals the current value the curve is the daily
    pattern around that level: every point is the level plus the modifier
    of its hour, so the level itself at the neutral hours, and the curve
    is the same a day on (offsets 0 and 24 agree). *)
Theorem diurnal_pattern_of_flat_forecast (level : Q) (start_hour h : Z) :
  (0 <= h <= 24)%Z ->
  let hour := ((start_hour + h) mod 24)%Z in
  diurnal_pattern level level start_hour !! Z.to_nat h
  = Some (diurnal_value level level start_hour h)
  /\ diurnal_value level level start_hour h
     == level + diurnal_modifier hour level
  /\ (neutral_hour hour = true ->
      diurnal_value level level start_hour h == level)
  /\ diurnal_value level level start_hour 24
     == diurnal_value level level start_hour 0.
Proof.
  intros Hh hour.
  assert (Hbase : forall h', base_value level level h' == level).
  { intros h'. unfold base_value. cbv zeta. ring. }
  assert (Hflat : forall h',
             diurnal_value level level start_hour h'
             == level + diurnal_modifier ((start_hour + h') mod 24) level).
  { intros h'. unfold diurnal_value. cbv zeta. by rewrite Hbase. }
  split.
  { rewrite diurnal_pattern_lookup by lia. by rewrite Z2Nat.id by lia. }
  split; [apply Hflat |]. split.
  - intros Hneutral. rewrite Hflat. fold hour.
    unfold neutral_hour in Hneutral. unfold diurnal_modifier.
    repeat (apply andb_prop in Hneutral as [Hneutral ?]).
    repeat match goal with
           | H : negb ?c = true |- _ => apply negb_true_iff in H; rewrite H
           end.
    ring.
  - rewrite !Hflat. rewrite Z.add_0_r.
    replace ((start_hour + 24) mod 24)%Z with (start_hour mod 24)%Z;
      [reflexivity |].
    rewrite <- (Z.mul_1_l 24) at 2. by rewrite Z.mod_add by lia.
Qed.

Lemma diurnal_pattern_of_flat_forecast_witness :
  diurnal_pattern 30 30 10 !! 1%nat = Some (diurnal_value 30 30 10 1)
  /\ diurnal_value 30 30 10 1 == 30.
Proof.
  destruct (diurnal_pattern_of_flat_forecast 30 10 1 ltac:(lia))
    as (Hl & _ & Hn & _).
  split; [exact Hl | apply Hn; reflexivity].
Defined.

End Ranges.

(** Scenario B again, for the outcomes of the PM10 run. *)
Section ScenarioBRun.
Import Calendar PM10.
Open Scope Q_scope.

Lemma pm10_run_outcomes_witness :
  update_pm10_prediction true (constant_model 40) (PyList []) 1
    (Some 60) (Some 25) (Some (mkdate 2024 1 5)) 7
    (Some 30) (Some 28) (Some 25) (Some 22) (Some 28)
  = Forecast 40 (diurnal_pattern 30 40 7)
  /\ update_pm10_prediction false (constant_model 40) (PyList []) 1
       (Some 60) (Some 25) (Some (mkdate 2024 1 5)) 7
       (Some 30) (Some 28) (Some 25) (Some 22) (Some 28)
     = ModelNotLoaded.
Proof.
  split.
  - apply (pm10_run_outcomes true (constant_model 40) (PyList []) 1 (Some 60)
             (Some 25) (Some (mkdate 2024 1 5)) 7 (Some 30) (Some 28)
             (Some 25) (Some 22) (Some 28)).
    split; [lia |]. split; [reflexivity |].
    eexists (mkdate 2024 1 5), 30, 28, 25, 22, 28, false, _.
    repeat split; try reflexivity; try lia; try (by left); by vm_compute.
  - apply (pm10_run_outcomes false (constant_model 40) (PyList []) 1 (Some 60)
             (Some 25) (Some (mkdate 2024 1 5)) 7 (Some 30) (Some 28)
             (Some 25) (Some 22) (Some 28)).
    split; [lia | reflexivity].
Defined.

Lemma pm10_schema_without_timestamp_witness :
  update_pm10_prediction true (constant_model 40)
    (PyList ["humidity"; "pm_10"; "temperature"]%string) 1
    (Some 60) (Some 25) (Some (mkdate 2024 1 5)) 7
    (Some 30) (Some 28) (Some 25) (Some 22) (Some 28)
  = PredictionError KeyError
  /\ update_pm10_prediction true (constant_model 40)
       (NdArray "timestamp" ["humidity"; "pm_10"; "temperature"]%string) 1
       (Some 60) (Some 25) (Some (mkdate 2024 1 5)) 7
       (Some 30) (Some 28) (Some 25) (Some 22) (Some 28)
     = PredictionError ValueError.
Proof.
  split.
  - apply (pm10_schema_without_timestamp true (constant_model 40)
             (PyList ["humidity"; "pm_10"; "temperature"]%string) 1
             (Some 60) (Some 25) (mkdate 2024 1 5) 7 30 28 25 22 28);
      [lia | reflexivity | lia | reflexivity |].
    intros H. cbn [names_of] in H.
    repeat (apply elem_of_cons in H as [H | H]; [discriminate H |]).
    by apply elem_of_nil in H.
  - eapply (pm10_schema_without_timestamp true (constant_model 40)
              (NdArray "timestamp" ["humidity"; "pm_10"; "temperature"]%string)
              1 (Some 60) (Some 25) (mkdate 2024 1 5) 7 30 28 25 22 28);
      [lia | reflexivity | lia | reflexivity].
Defined.

End ScenarioBRun.

(** ** The key annotations of the PM10 figure *)
Section KeyAnnotations.
Import PM10 PM10Figure.
Open Scope Q_scope.

Lemma fold_max_spec (xs : list Q) (x : Q) :
  let m := fold_left (fun m y => if Qlt_le_dec m y then y else m) xs x in
  (m = x \/ m ∈ xs) /\ x <= m /\ forall y, y ∈ xs -> y <= m.
Proof.
  revert x. induction xs as [| a xs IH]; intros x; cbn.
  { split; [by left |]. split; [Lqa.lra |]. intros y Hy.
    by apply elem_of_nil in Hy. }
  destruct (Qlt_le_dec x a) as [Hlt | Hle].
  - destruct (IH a) as (Hin & Hge & Hall). cbn in Hin, Hge, Hall.
    split; [right; destruct Hin as [-> | Hin]; [left | by right] |].
    split; [Lqa.lra |].
    intros y [-> | Hy]%elem_of_cons; [exact Hge | by apply Hall].
  - destruct (IH x) as (Hin & Hge & Hall). cbn in Hin, Hge, Hall.
    split; [destruct Hin as [-> | Hin]; [by left | right; by right] |].
    split; [exact Hge |].
    intros y [-> | Hy]%elem_of_cons; [Lqa.lra | by apply Hall].
Qed.

Lemma fold_min_spec (xs : list Q) (x : Q) :
  let m := fold_left (fun m y => if Qlt_le_dec y m then y else m) xs x in
  (m = x \/ m ∈ xs) /\ m <= x /\ forall y, y ∈ xs -> m <= y.
Proof.
  revert x. induction xs as [| a xs IH]; intros x; cbn.
  { split; [by left |]. split; [Lqa.lra |]. intros y Hy.
    by apply elem_of_nil in Hy. }
  destruct (Qlt_le_dec a x) as [Hlt | Hle].
  - destruct (IH a) as (Hin & Hge & Hall). cbn in Hin, Hge, Hall.
    split; [right; destruct Hin as [-> | Hin]; [left | by right] |].
    split; [Lqa.lra |].
    intros y [-> | Hy]%elem_of_cons; [exact Hge | by apply Hall].
  - destruct (IH x) as (Hin & Hge & Hall). cbn in Hin, Hge, Hall.
    split; [destruct Hin as [-> | Hin]; [by left | right; by right] |].
    split; [exact Hge |].
    intros y [-> | Hy]%elem_of_cons; [Lqa.lra | by apply Hall].
Qed.

Lemma py_max_spec (xs : list Q) :
  xs <> [] ->
  exists m, py_max xs = Some m /\ m ∈ xs /\ forall y, y ∈ xs -> y <= m.
Proof.
  destruct xs as [| x xs]; [done | intros _].
  destruct (fold_max_spec xs x) as (Hin & Hge & Hall).
  eexists. split; [reflexivity |]. split.
  - destruct Hin as [-> | Hin]; [left | by right].
  - intros y [-> | Hy]%elem_of_cons; [exact Hge | by apply Hall].
Qed.

Lemma py_min_spec (xs : list Q) :
  xs <> [] ->
  exists m, py_min xs = Some m /\ m ∈ xs /\ forall y, y ∈ xs -> m <= y.
Proof.
  destruct xs as [| x xs]; [done | intros _].
  destruct (fold_min_spec xs x) as (Hin & Hge & Hall).
  eexists. split; [reflexivity |]. split.
  - destruct Hin as [-> | Hin]; [left | by right].
  - intros y [-> | Hy]%elem_of_cons; [exact Hge | by apply Hall].
Qed.

(** The neighbourhood of an offset holds the values at the offsets
    [max(0, i-2) .. min(24, i+3) - 1]. *)
Lemma elem_of_neighbourhood (pm10_values : list Q) (i : Z) (w : Q) :
  w ∈ neighbourhood pm10_values i
  <-> exists j, (Z.max 0 (i - 2) <= j < Z.min 24 (i + 3))%Z
        /\ pm10_values !! Z.to_nat j = Some w.
Proof.
  unfold neighbourhood, slice. rewrite list_elem_of_lookup. split.
  - intros [k Hk]. apply lookup_take_Some in Hk as [Hk Hlt].
    rewrite lookup_drop in Hk.
    exists (Z.max 0 (i - 2) + Z.of_nat k)%Z. split; [lia |].
    rewrite <- Hk. f_equal. lia.
  - intros (j & Hj & Hw).
    exists (Z.to_nat j - Z.to_nat (Z.max 0 (i - 2)))%nat.
    apply lookup_take_Some. split; [| lia].
    rewrite lookup_drop, <- Hw. f_equal. lia.
Qed.


Lemma neighbourhood_nonempty (pm10_values : list Q) (i : Z) :
  length pm10_values = 25%nat -> (0 <= i <= 24)%Z ->
  neighbourhood pm10_values i <> [].
Proof.
  intros Hlen Hi Hnil.
  destruct (lookup_lt_is_Some_2 pm10_values (Z.to_nat (Z.max 0 (i - 2))))
    as [w Hw]; [lia |].
  assert (Hin : w ∈ neighbourhood pm10_values i).
  { apply elem_of_neighbourhood. exists (Z.max 0 (i - 2)). split; [lia | done]. }
  rewrite Hnil in Hin. by apply elem_of_nil in Hin.
Qed.

(** On 25 values no test of the generators raises. *)
Lemma is_extremum_total (extremum : list Q -> option Q) (first last : Z)
    (start_hour : Z) (pm10_values : list Q) (i : Z) :
  (forall xs, xs <> [] -> is_Some (extremum xs)) ->
  length pm10_values = 25%nat -> (0 <= i <= 24)%Z ->
  is_Some (is_extremum extremum first last start_hour pm10_values i).
Proof.
  intros Hext Hlen Hi. unfold is_extremum.
  destruct (_ && _); [| done].
  destruct (lookup_lt_is_Some_2 pm10_values (Z.to_nat i)) as [v ->]; [lia |].
  destruct (Hext (neighbourhood pm10_values i)) as [m ->];
    [by apply neighbourhood_nonempty |].
  done.
Qed.

Lemma band_test (first last start_hour i : Z) :
  ((first <=? (start_hour + i) mod 24) && ((start_hour + i) mod 24 <=? last))%Z
  = true <-> in_band first last start_hour i.
Proof. unfold in_band. rewrite andb_true_iff. lia. Qed.

Lemma is_extremum_max (first last : Z) (start_hour : Z)
    (pm10_values : list Q) (i : Z) :
  length pm10_values = 25%nat -> (0 <= i < 24)%Z ->
  is_extremum py_max first last start_hour pm10_values i = Some true
  <-> in_band first last start_hour i /\ exists v, local_max pm10_values i v.
Proof.
  intros Hlen Hi. unfold is_extremum, local_max.
  destruct (lookup_lt_is_Some_2 pm10_values (Z.to_nat i)) as [v Hv]; [lia |].
  destruct (py_max_spec (neighbourhood pm10_values i)) as (m & Hm & Hin & Hall);
    [apply neighbourhood_nonempty; [done | lia] |].
  pose proof (band_test first last start_hour i) as Hband.
  destruct (_ && _).
  - rewrite Hv, Hm. cbn. split.
    + intros [= Heq]. apply Qeq_bool_iff in Heq.
      split; [by apply Hband |]. exists v. split; [done |].
      intros j w Hj Hw. rewrite Heq. apply Hall.
      apply elem_of_neighbourhood. by exists j.
    + intros (_ & v' & Hv' & Hle). assert (v' = v) as -> by congruence.
      f_equal. apply Qeq_bool_iff. apply Qle_antisym.
      * apply Hall, elem_of_neighbourhood. exists i. split; [lia | done].
      * apply elem_of_neighbourhood in Hin as (j & Hj & Hw). by eapply Hle.
  - split; [done |]. intros [Hb _]. apply Hband in Hb. done.
Qed.

Lemma is_extremum_min (first last : Z) (start_hour : Z)
    (pm10_values : list Q) (i : Z) :
  length pm10_values = 25%nat -> (0 <= i < 24)%Z ->
  is_extremum py_min first last start_hour pm10_values i = Some true
  <-> in_band first last start_hour i /\ exists v, local_min pm10_values i v.
Proof.
  intros Hlen Hi. unfold is_extremum, local_min.
  destruct (lookup_lt_is_Some_2 pm10_values (Z.to_nat i)) as [v Hv]; [lia |].
  destruct (py_min_spec (neighbourhood pm10_values i)) as (m & Hm & Hin & Hall);
    [apply neighbourhood_nonempty; [done | lia] |].
  pose proof (band_test first last start_hour i) as Hband.
  destruct (_ && _).
  - rewrite Hv, Hm. cbn. split.
    + intros [= Heq]. apply Qeq_bool_iff in Heq.
      split; [by apply Hband |]. exists v. split; [done |].
      intros j w Hj Hw. rewrite Heq. apply Hall.
      apply elem_of_neighbourhood. by exists j.
    + intros (_ & v' & Hv' & Hle). assert (v' = v) as -> by congruence.
      f_equal. apply Qeq_bool_iff. apply Qle_antisym.
      * apply elem_of_neighbourhood in Hin as (j & Hj & Hw). by eapply Hle.
      * apply Hall, elem_of_neighbourhood. exists i. split; [lia | done].
  - split; [done |]. intros [Hb _]. apply Hband in Hb. done.
Qed.

Lemma next_index_app (test : Z -> option bool) (l1 l2 : list Z) :
  next_index test (l1 ++ l2)
  = match next_index test l1 with
    | Some None => next_index test l2
    | r => r
    end.
Proof.
  induction l1 as [| i l1 IH]; [done |]. cbn.
  destruct (test i) as [[|] |]; done.
Qed.

(** [next] over [range(n)] gives the first offset that passes the test. *)
Lemma next_index_range (test : Z -> option bool) (n : nat) :
  (forall i, (0 <= i < Z.of_nat n)%Z -> is_Some (test i)) ->
  exists r, next_index test (range n) = Some r
    /\ (forall o, r = Some o ->
          (0 <= o < Z.of_nat n)%Z /\ test o = Some true
          /\ forall j, (0 <= j < o)%Z -> test j = Some false)
    /\ (r = None -> forall j, (0 <= j < Z.of_nat n)%Z -> test j = Some false).
Proof.
  induction n as [| n IH]; intros Htest.
  { exists None. split; [done |]. split; [done |]. intros _ j Hj. lia. }
  destruct IH as (r & Hr & Hsome & Hnone); [intros i Hi; apply Htest; lia |].
  rewrite range_S, next_index_app, Hr.
  destruct r as [o |].
  - exists (Some o). split; [done |]. split; [| done].
    intros o' [= <-]. destruct (Hsome o eq_refl) as (Ho & Ht & Hj).
    split; [lia | done].
  - cbn. destruct (Htest (Z.of_nat n)) as [[|] Hb]; [lia | |]; rewrite Hb.
    + exists (Some (Z.of_nat n)). split; [done |]. split; [| done].
      intros o [= <-]. split; [lia |]. split; [done |].
      intros j Hj. by apply Hnone.
    + exists None. split; [done |]. split; [done |].
      intros _ j Hj. destruct (decide (j = Z.of_nat n)) as [-> | Hne];
        [done | apply Hnone; [done | lia]].
Qed.

(** The annotation of one band: none, or the one of the first offset of the
    band that passes the test, if that offset is neither 0 nor 24. *)
Lemma band_annotation (extremum : list Q -> option Q)
    (shape : list Q -> Z -> Q -> Prop) (label : string) (first last : Z)
    (start_hour : Z) (pm10_values : list Q) :
  (forall xs, xs <> [] -> is_Some (extremum xs)) ->
  (forall i, (0 <= i < 24)%Z ->
     is_extremum extremum first last start_hour pm10_values i = Some true
     <-> in_band first last start_hour i /\ exists v, shape pm10_values i v) ->
  (forall i v, shape pm10_values i v -> pm10_values !! Z.to_nat i = Some v) ->
  length pm10_values = 25%nat ->
  exists idx l,
    next_index (is_extremum extremum first last start_hour pm10_values)
      (range 25) = Some idx
    /\ annotate label first last start_hour pm10_values idx = Some l
    /\ (l = [] \/ exists o y, l = [mkannotation o y label])
    /\ forall o y t, mkannotation o y t ∈ l
         <-> (0 < o < 24)%Z /\ t = label
             /\ first_in_band shape first last start_hour pm10_values o y.
Proof.
  intros Hext Htrue Hshape Hlen.
  destruct (next_index_range
              (is_extremum extremum first last start_hour pm10_values) 25)
    as (idx & Hidx & Hsome & Hnone).
  { intros i Hi. apply is_extremum_total; [done | done | lia]. }
  assert (Hfalse : forall j, (0 <= j < 24)%Z ->
            is_extremum extremum first last start_hour pm10_values j
            = Some false ->
            ~ (in_band first last start_hour j
               /\ exists w, shape pm10_values j w)).
  { intros j Hj Hf Hs. apply Htrue in Hs; [congruence | done]. }
  exists idx. destruct idx as [i |]; cbn.
  - destruct (Hsome i eq_refl) as (Hi & Ht & Hbefore).
    destruct (decide (0 < i < 24)%Z) as [Hin | Hout].
    + replace ((0 <? i) && (i <? 24))%Z with true by lia.
      apply Htrue in Ht as [Hb (v & Hv)]; [| lia].
      rewrite (proj2 (band_test first last start_hour i) Hb).
      rewrite (Hshape _ _ Hv). cbn.
      eexists. split; [done |]. split; [done |].
      split; [right; by eexists _, _ |].
      intros o y t. rewrite list_elem_of_singleton. split.
      * intros [= -> -> ->]. split; [done |]. split; [done |].
        split; [done |]. split; [done |].
        intros j Hj. apply Hfalse; [lia |]. by apply Hbefore.
      * intros (Ho & -> & Hb' & Hs' & Hfirst).
        assert (o = i) as ->.
        { destruct (Z.lt_trichotomy o i) as [Hlt | [-> | Hgt]]; [| done |].
          - exfalso. eapply (Hfalse o); [lia | apply Hbefore; lia |].
            split; [done | by exists y].
          - exfalso. apply (Hfirst i); [lia |]. split; [done | by exists v]. }
        apply Hshape in Hs', Hv. congruence.
    + replace ((0 <? i) && (i <? 24))%Z with false by lia.
      eexists. split; [done |]. split; [done |]. split; [by left |].
      intros o y t. split; [intros H; by apply elem_of_nil in H |].
      intros (Ho & _ & Hb' & Hs' & Hfirst). exfalso.
      destruct (decide (i = 0%Z)) as [-> | Hne].
      * assert (0 <= 0 < 24)%Z as H0 by lia.
        apply (Hfirst 0%Z); [lia |]. by apply Htrue.
      * assert (i = 24%Z) as -> by lia.
        eapply (Hfalse o); [lia | apply Hbefore; lia |].
        split; [done | by exists y].
  - eexists. split; [done |]. split; [done |]. split; [by left |].
    intros o y t. split; [intros H; by apply elem_of_nil in H |].
    intros (Ho & _ & Hb' & Hs' & Hfirst). exfalso.
    eapply (Hfalse o); [lia | apply Hnone; [done | lia] |].
    split; [done | by exists y].
Qed.

Lemma py_max_total (xs : list Q) : xs <> [] -> is_Some (py_max xs).
Proof. intros H. destruct (py_max_spec xs H) as (m & -> & _). done. Qed.

Lemma py_min_total (xs : list Q) : xs <> [] -> is_Some (py_min xs).
Proof. intros H. destruct (py_min_spec xs H) as (m & -> & _). done. Qed.

(** X13.  On the 25 values of a curve the search for the key features of the
    figure raises nothing, and adds at most one annotation of each kind, in
    the order morning, afternoon, evening.  A "Morning Peak" is at the
    first offset of the curve whose hour is in 6..9 and whose value no
    value of its neighbourhood (two offsets back, two on, cut at 0 and at
    23) exceeds, and only if that offset is not the first one of the curve
    nor the last; an "Afternoon Dip" likewise for the hours 13..16 and a
    value no neighbour is below, an "Evening Peak" as the morning one for
    the hours 18..21. *)
Theorem key_annotations_spec (start_hour : Z) (pm10_values : list Q) :
  length pm10_values = 25%nat ->
  exists l, key_annotations start_hour pm10_values = Some l
    /\ NoDup (text <$> l)
    /\ forall o y t, mkannotation o y t ∈ l
         <-> (0 < o < 24)%Z
             /\ (t = "Morning Peak"%string
                   /\ first_in_band local_max 6 9 start_hour pm10_values o y
                 \/ t = "Afternoon Dip"%string
                   /\ first_in_band local_min 13 16 start_hour pm10_values o y
                 \/ t = "Evening Peak"%string
                   /\ first_in_band local_max 18 21 start_hour pm10_values o y).
Proof.
  intros Hlen.
  destruct (band_annotation py_max local_max "Morning Peak" 6 9 start_hour
              pm10_values py_max_total)
    as (i1 & l1 & Hi1 & Ha1 & Hl1 & H1);
    [intros; by apply is_extremum_max | by intros i v [] | done |].
  destruct (band_annotation py_min local_min "Afternoon Dip" 13 16 start_hour
              pm10_values py_min_total)
    as (i2 & l2 & Hi2 & Ha2 & Hl2 & H2);
    [intros; by apply is_extremum_min | by intros i v [] | done |].
  destruct (band_annotation py_max local_max "Evening Peak" 18 21 start_hour
              pm10_values py_max_total)
    as (i3 & l3 & Hi3 & Ha3 & Hl3 & H3);
    [intros; by apply is_extremum_max | by intros i v [] | done |].
  exists (l1 ++ l2 ++ l3). split; [| split].
  - unfold key_annotations, morning_peak_idx, afternoon_dip_idx,
      evening_peak_idx.
    rewrite Hi1, Hi2, Hi3. cbn. rewrite Ha1, Ha2, Ha3. done.
  - destruct Hl1 as [-> | (o1 & y1 & ->)], Hl2 as [-> | (o2 & y2 & ->)],
      Hl3 as [-> | (o3 & y3 & ->)]; cbn;
      repeat (apply NoDup_cons; split;
                [rewrite ?not_elem_of_cons; repeat split;
                 try discriminate; apply not_elem_of_nil |]);
      apply NoDup_nil_2.
  - intros o y t. rewrite !elem_of_app, H1, H2, H3. intuition congruence.
Qed.

Lemma key_annotations_spec_witness :
  exists l y,
    key_annotations 7 (diurnal_pattern 30 40 7) = Some l
    /\ mkannotation 1 y "Morning Peak" ∈ l
    /\ first_in_band local_max 6 9 7 (diurnal_pattern 30 40 7) 1 y.
Proof.
  destruct (key_annotations_spec 7 (diurnal_pattern 30 40 7) eq_refl)
    as (l & Hl & _ & H).
  assert (Hin : exists y, mkannotation 1 y "Morning Peak" ∈ l).
  { vm_compute in Hl. injection Hl as <-. eexists. left. }
  destruct Hin as [y Hin]. exists l, y. split; [exact Hl |].
  split; [exact Hin |].
  apply H in Hin as (_ & [[_ Hfirst] | [[Ht _] | [Ht _]]]);
    [exact Hfirst | discriminate Ht | discriminate Ht].
Defined.

End KeyAnnotations.

(** ** The result panel of the 7-day forecast *)
Section Panel.
Import SevenDay SevenDayPanel.
Open Scope R_scope.

Lemma fold_Rmax_spec (xs : list R) (x : R) :
  let m := fold_left Rmax xs x in
  (m = x \/ m ∈ xs) /\ x <= m /\ forall y, y ∈ xs -> y <= m.
Proof.
  revert x. induction xs as [| a xs IH]; intros x; cbn.
  { split; [by left |]. split; [lra |]. intros y Hy.
    by apply elem_of_nil in Hy. }
  destruct (IH (Rmax x a)) as (Hin & Hge & Hall). cbn in Hin, Hge, Hall.
  pose proof (Rmax_l x a). pose proof (Rmax_r x a).
  split.
  - destruct Hin as [-> | Hin]; [| right; by right].
    destruct (Rmax_case x a (fun r => r = x \/ r = a)) as [-> | ->];
      [by left | by right | by left | right; left].
  - split; [lra |].
    intros y [-> | Hy]%elem_of_cons; [lra | by apply Hall].
Qed.

Lemma fold_Rmin_spec (xs : list R) (x : R) :
  let m := fold_left Rmin xs x in
  (m = x \/ m ∈ xs) /\ m <= x /\ forall y, y ∈ xs -> m <= y.
Proof.
  revert x. induction xs as [| a xs IH]; intros x; cbn.
  { split; [by left |]. split; [lra |]. intros y Hy.
    by apply elem_of_nil in Hy. }
  destruct (IH (Rmin x a)) as (Hin & Hge & Hall). cbn in Hin, Hge, Hall.
  pose proof (Rmin_l x a). pose proof (Rmin_r x a).
  split.
  - destruct Hin as [-> | Hin]; [| right; by right].
    destruct (Rmin_case x a (fun r => r = x \/ r = a)) as [-> | ->];
      [by left | by right | by left | right; left].
  - split; [lra |].
    intros y [-> | Hy]%elem_of_cons; [lra | by apply Hall].
Qed.

Lemma np_max_spec (xs : list R) :
  xs <> [] ->
  exists m, np_max xs = Some m /\ m ∈ xs /\ forall y, y ∈ xs -> y <= m.
Proof.
  destruct xs as [| x xs]; [done | intros _].
  destruct (fold_Rmax_spec xs x) as (Hin & Hge & Hall).
  eexists. split; [reflexivity |]. split.
  - destruct Hin as [-> | Hin]; [left | by right].
  - intros y [-> | Hy]%elem_of_cons; [exact Hge | by apply Hall].
Qed.

Lemma np_min_spec (xs : list R) :
  xs <> [] ->
  exists m, np_min xs = Some m /\ m ∈ xs /\ forall y, y ∈ xs -> m <= y.
Proof.
  destruct xs as [| x xs]; [done | intros _].
  destruct (fold_Rmin_spec xs x) as (Hin & Hge & Hall).
  eexists. split; [reflexivity |]. split.
  - destruct Hin as [-> | Hin]; [left | by right].
  - intros y [-> | Hy]%elem_of_cons; [exact Hge | by apply Hall].
Qed.

Lemma fold_Rplus_bounds (xs : list R) (a lo hi : R) :
  (forall x, x ∈ xs -> lo <= x <= hi) ->
  a + lo * IZR (Z.of_nat (length xs)) <= fold_left Rplus xs a
  /\ fold_left Rplus xs a <= a + hi * IZR (Z.of_nat (length xs)).
Proof.
  revert a. induction xs as [| x xs IH]; intros a Hall.
  { cbn. change (Z.of_nat 0) with 0%Z. split; lra. }
  destruct (IH (a + x)) as [Hl Hh]; [intros y Hy; apply Hall; by right |].
  destruct (Hall x) as [Hlx Hxh]; [by left |].
  cbn [fold_left length]. rewrite Nat2Z.inj_succ, succ_IZR.
  split; lra.
Qed.

(** The mean of a list that is not empty lies between any bounds of its
    elements. *)
Lemma np_mean_between (xs : list R) (lo hi : R) :
  xs <> [] -> (forall x, x ∈ xs -> lo <= x <= hi) ->
  lo <= np_mean xs <= hi.
Proof.
  intros Hne Hall. unfold np_mean.
  destruct (fold_Rplus_bounds xs 0 lo hi Hall) as [Hl Hh].
  assert (Hn : 0 < IZR (Z.of_nat (length xs))).
  { apply IZR_lt. destruct xs; [done | cbn; lia]. }
  set (n := IZR (Z.of_nat (length xs))) in *.
  split.
  - apply Rle_trans with (lo * n / n); [right; field; lra |].
    apply Rmult_le_compat_r; [left; by apply Rinv_0_lt_compat | lra].
  - apply Rle_trans with (hi * n / n); [| right; field; lra].
    apply Rmult_le_compat_r; [left; by apply Rinv_0_lt_compat | lra].
Qed.

Lemma summary_ordered (predictions : list R) :
  predictions <> [] ->
  exists average maximum minimum,
    summary predictions = Some (average, maximum, minimum)
    /\ maximum ∈ predictions /\ minimum ∈ predictions
    /\ Forall (fun p => minimum <= p <= maximum) predictions
    /\ minimum <= average <= maximum.
Proof.
  intros Hne.
  destruct (np_max_spec predictions Hne) as (mx & Hmx & Hmx_in & Hmx_all).
  destruct (np_min_spec predictions Hne) as (mn & Hmn & Hmn_in & Hmn_all).
  exists (np_mean predictions), mx, mn. unfold summary.
  rewrite Hmx, Hmn. split; [done |]. split; [done |]. split; [done |].
  assert (Hall : forall p, p ∈ predictions -> mn <= p <= mx).
  { intros p Hp. split; [by apply Hmn_all | by apply Hmx_all]. }
  split; [by apply Forall_forall | by apply np_mean_between].
Qed.


(** X16.  The icon of a table row, its colour and the background of the row
    always show the same level: the safe one up to 12, the bound included,
    the warning one above 12 and up to 35, the bound included, the danger
    one above 35. *)
Theorem row_level_consistent (p : R) :
  (p <= 12 /\ indicator_class p = "fas fa-circle"%string
     /\ indicator_color p = colors_safe
     /\ row_background p
        = "linear-gradient(90deg, rgba(31, 41, 55, 0.5), #4caf5010)"%string)
  \/ (12 < p <= 35 /\ indicator_class p = "fas fa-dot-circle"%string
     /\ indicator_color p = colors_warning
     /\ row_background p
        = "linear-gradient(90deg, rgba(31, 41, 55, 0.5), #ff980010)"%string)
  \/ (35 < p /\ indicator_class p = "fas fa-radiation"%string
     /\ indicator_color p = colors_danger
     /\ row_background p
        = "linear-gradient(90deg, rgba(31, 41, 55, 0.5), #ff174410)"%string).
Proof.
  unfold indicator_class, indicator_color, row_background.
  destruct (Rle_dec p 12) as [H12 | H12].
  - left. done.
  - destruct (Rle_dec p 35) as [H35 | H35].
    + right; left. split; [lra | done].
    + right; right. split; [lra | done].
Qed.


End Panel.

(** ** The summary of a forecast the run returns *)
Section PanelOfARun.
Import Calendar SevenDay SevenDayPanel.
Open Scope R_scope.

Context (model_predict : frame R -> outcome R).
Context (expected_features : schema).
Context {G : Type} (np_random : G -> R * G).

(** X14.  The summary of a forecast the run returns is always defined: the
    forecast has seven values, so neither [np.max] nor [np.min] raises.
    The maximum and the minimum shown are values of the forecast, every
    value lies between them, and so does the average shown. *)
Theorem summary_statistics_ordered n_clicks humidity temperature
    start_date_obj (l1 l2 l3 : R) (g : G) dates predictions g_end :
  update_7day_prediction model_predict expected_features np_random
    n_clicks humidity temperature (Some start_date_obj)
    (Some l1) (Some l2) (Some l3) g
  = Returned (Forecast dates predictions, g_end) ->
  exists average maximum minimum,
    summary predictions = Some (average, maximum, minimum)
    /\ maximum ∈ predictions /\ minimum ∈ predictions
    /\ Forall (fun p => minimum <= p <= maximum) predictions
    /\ minimum <= average <= maximum.
Proof.
  intros Hrun. apply summary_ordered.
  apply update_7day_prediction_lengths in Hrun as [Hlen _].
  intros ->. discriminate Hlen.
Qed.

End PanelOfARun.

Section ScenarioAPanel.
Import Calendar SevenDay SevenDayPanel.
Open Scope R_scope.

Lemma summary_statistics_ordered_witness :
  exists average maximum minimum,
    summary
      [round2 (20 * 1.0 * weather_factor 0 * random_factor 0.5);
       round2 (20 * 0.9 * weather_factor 1 * random_factor 0.5);
       round2 (20 * 0.85 * weather_factor 2 * random_factor 0.5);
       round2 (20 * 1.0 * weather_factor 3 * random_factor 0.5);
       round2 (20 * 1.0 * weather_factor 4 * random_factor 0.5);
       round2 (20 * 1.0 * weather_factor 5 * random_factor 0.5);
       round2 (20 * 1.0 * weather_factor 6 * random_factor 0.5)]
    = Some (average, maximum, minimum)
    /\ minimum <= average <= maximum.
Proof.
  destruct (summary_statistics_ordered _ _ _ _ _ _ _ _ _ _ _ _ _ _
              scenario_A_run) as (a & mx & mn & Hs & _ & _ & _ & Ho).
  by exists a, mx, mn.
Defined.

End ScenarioAPanel.
